(** * Datadog MCP monitor tools: [get_monitor] and [monitor_edit]

    A shallow embedding of the two tool handlers of
    [datadog_mcp/tools/get_monitor.py] and [datadog_mcp/tools/monitor_edit.py]
    together with the Python built-ins they rely on, followed by the
    properties of the handlers.

    Conventions of the embedding:
    - a Python object is a [value]: [None], booleans, integers, strings,
      lists and string-keyed dictionaries (the shapes a decoded JSON body
      has; floating point numbers are not represented);
    - a Python [str] is a [string]; every [ascii] stands for the code point
      of the same number (code points below 256);
    - a [dict] keeps its items in insertion order, as Python does;
    - an [async] handler is a computation in the monad [M]: it may raise an
      exception, of the [Exception] hierarchy or not, and it records, in
      order, the calls made to the remote client and the lines sent to the
      logger. *)

From Stdlib Require Import String Ascii ZArith List Bool Lia.
From Stdlib Require Import DecimalString DecimalZ DecimalPos.
Import ListNotations.

Local Open Scope string_scope.
Local Open Scope Z_scope.

Set Warnings "-register-all".

(** ** Python objects and built-ins *)

Module Py.

Inductive value : Type :=
| VNone
| VBool (b : bool)
| VInt (z : Z)
| VStr (s : string)
| VList (xs : list value)
| VDict (items : list (string * value)).

Definition dict := list (string * value).

(** Exceptions.  [HTTPStatusError] and [PyException] derive from
    [Exception]; [PyBaseException] stands for the ones that derive from
    [BaseException] only ([asyncio.CancelledError], [KeyboardInterrupt],
    [SystemExit]), which an [except Exception] clause does not catch.
    [str(e)] is the message. *)
Inductive exn : Type :=
| HTTPStatusError (message : string) (status_code : Z)
| PyException (cls : string) (message : string)
| PyBaseException (cls : string) (message : string).

Definition exn_str (e : exn) : string :=
  match e with
  | HTTPStatusError m _ => m
  | PyException _ m => m
  | PyBaseException _ m => m
  end.

(** [isinstance(e, Exception)] *)
Definition is_exception (e : exn) : bool :=
  match e with
  | HTTPStatusError _ _ | PyException _ _ => true
  | PyBaseException _ _ => false
  end.

Definition TypeError (m : string) : exn := PyException "TypeError" m.
Definition AttributeError (m : string) : exn := PyException "AttributeError" m.

Definition outcome (A : Type) : Type := (exn + A)%type.

(** [type(v).__name__] *)
Definition type_name (v : value) : string :=
  match v with
  | VNone => "NoneType"
  | VBool _ => "bool"
  | VInt _ => "int"
  | VStr _ => "str"
  | VList _ => "list"
  | VDict _ => "dict"
  end.

Definition newline : ascii := ascii_of_nat 10.

(** The double quote, code point 34. *)
Abbreviation dquote := (Ascii false true false false false true false false).
Definition nl : string := String newline "".

(** *** Strings *)

(** [s[:n]] *)
Fixpoint str_take (n : nat) (s : string) : string :=
  match n, s with
  | S n', String c s' => String c (str_take n' s')
  | _, _ => ""
  end.

(** [s.replace(old, new)] for one-character [old] and [new]. *)
Fixpoint str_replace (old new : ascii) (s : string) : string :=
  match s with
  | "" => ""
  | String c s' =>
      String (if Ascii.eqb c old then new else c) (str_replace old new s')
  end.

(** [s * n] *)
Fixpoint str_mul (s : string) (n : nat) : string :=
  match n with
  | O => ""
  | S n' => s ++ str_mul s n'
  end.

(** [sep.join(parts)] *)
Definition join (sep : string) (parts : list string) : string :=
  String.concat sep parts.

(** The characters of a string, each as a one-character string. *)
Fixpoint chars (s : string) : list string :=
  match s with
  | "" => []
  | String c s' => String c "" :: chars s'
  end.

Fixpoint str_contains (c : ascii) (s : string) : bool :=
  match s with
  | "" => false
  | String d s' => Ascii.eqb c d || str_contains c s'
  end.

(** [str(z)] for an integer. *)
Definition str_of_int (z : Z) : string := NilZero.string_of_int (Z.to_int z).

Definition hex_digit (n : nat) : ascii :=
  match n with
  | 0 => "0" | 1 => "1" | 2 => "2" | 3 => "3" | 4 => "4" | 5 => "5"
  | 6 => "6" | 7 => "7" | 8 => "8" | 9 => "9" | 10 => "a" | 11 => "b"
  | 12 => "c" | 13 => "d" | 14 => "e" | _ => "f"
  end%nat%char.

Definition hex2 (c : ascii) : string :=
  let n := nat_of_ascii c in
  String (hex_digit (n / 16)) (String (hex_digit (n mod 16)) "").

(** [str.isprintable] on the code points below 256. *)
Definition printable (c : ascii) : bool :=
  let n := nat_of_ascii c in
  ((32 <=? n) && (n <=? 126) || (161 <=? n) && negb (n =? 173))%nat.

Definition repr_char (quote c : ascii) : string :=
  if Ascii.eqb c "\" then "\\"
  else if Ascii.eqb c quote then String "\" (String quote "")
  else if Ascii.eqb c (ascii_of_nat 9) then "\t"
  else if Ascii.eqb c (ascii_of_nat 10) then "\n"
  else if Ascii.eqb c (ascii_of_nat 13) then "\r"
  else if printable c then String c ""
  else "\x" ++ hex2 c.

Fixpoint repr_chars (quote : ascii) (s : string) : string :=
  match s with
  | "" => ""
  | String c s' => repr_char quote c ++ repr_chars quote s'
  end.

(** [repr(s)] for a string: single quotes unless the string holds a single
    quote and no double quote. *)
Definition repr_str (s : string) : string :=
  let quote : ascii :=
    if str_contains "'" s && negb (str_contains dquote s) then dquote
    else "'"%char in
  String quote (repr_chars quote s ++ String quote "").

(** [repr(v)] *)
Fixpoint repr (v : value) : string :=
  match v with
  | VNone => "None"
  | VBool true => "True"
  | VBool false => "False"
  | VInt z => str_of_int z
  | VStr s => repr_str s
  | VList xs => "[" ++ join ", " (map repr xs) ++ "]"
  | VDict items =>
      "{" ++ join ", "
               (map (fun kv => let '(k, x) := kv in
                               repr_str k ++ ": " ++ repr x) items)
          ++ "}"
  end.

(** [str(v)], which is also what an f-string field [{v}] renders. *)
Definition str (v : value) : string :=
  match v with
  | VStr s => s
  | _ => repr v
  end.

(** *** Operators *)

Definition is_none (v : value) : bool :=
  match v with VNone => true | _ => false end.

(** [v == s] for a string literal [s]. *)
Definition eq_str (v : value) (s : string) : bool :=
  match v with VStr t => String.eqb t s | _ => false end.

(** [v < n] and [v > n] for an integer literal [n]. *)
Definition lt_int (v : value) (n : Z) : outcome bool :=
  match v with
  | VInt z => inr (z <? n)
  | VBool b => inr (Z.b2z b <? n)
  | _ => inl (TypeError ("'<' not supported between instances of '"
                           ++ type_name v ++ "' and 'int'"))
  end.

Definition gt_int (v : value) (n : Z) : outcome bool :=
  match v with
  | VInt z => inr (z >? n)
  | VBool b => inr (Z.b2z b >? n)
  | _ => inl (TypeError ("'>' not supported between instances of '"
                           ++ type_name v ++ "' and 'int'"))
  end.

(** [len(v)] *)
Definition len (v : value) : outcome Z :=
  match v with
  | VStr s => inr (Z.of_nat (String.length s))
  | VList xs => inr (Z.of_nat (List.length xs))
  | VDict items => inr (Z.of_nat (List.length items))
  | _ => inl (TypeError ("object of type '" ++ type_name v ++ "' has no len()"))
  end.

(** [v[:n]] (CPython 3.11: a slice is not hashable, so a dict rejects it) *)
Definition slice_to (v : value) (n : nat) : outcome value :=
  match v with
  | VStr s => inr (VStr (str_take n s))
  | VList xs => inr (VList (firstn n xs))
  | VDict _ => inl (TypeError "unhashable type: 'slice'")
  | _ => inl (TypeError ("'" ++ type_name v ++ "' object is not subscriptable"))
  end.

Fixpoint join_items (sep : string) (i : nat) (xs : list value)
  : outcome (list string) :=
  match xs with
  | [] => inr []
  | VStr s :: xs' =>
      match join_items sep (S i) xs' with
      | inr ss => inr (s :: ss)
      | inl e => inl e
      end
  | x :: _ =>
      inl (TypeError ("sequence item " ++ str_of_int (Z.of_nat i)
                        ++ ": expected str instance, " ++ type_name x
                        ++ " found"))
  end.

(** [sep.join(v)] for a value produced by a slice (a string or a list). *)
Definition join_value (sep : string) (v : value) : outcome string :=
  match v with
  | VStr s => inr (join sep (chars s))
  | VList xs =>
      match join_items sep 0 xs with
      | inr ss => inr (join sep ss)
      | inl e => inl e
      end
  | VDict items => inr (join sep (map fst items))
  | _ => inl (TypeError "can only join an iterable")
  end.

(** [v + s] for a string literal [s], [v] a string, a list or a dict. *)
Definition add_str (v : value) (s : string) : outcome value :=
  match v with
  | VStr t => inr (VStr (t ++ s))
  | VList _ => inl (TypeError ("can only concatenate list (not "
                             ++ String dquote "str"
                             ++ String dquote ") to list"))
  | _ => inl (TypeError ("unsupported operand type(s) for +: '"
                           ++ type_name v ++ "' and 'str'"))
  end.

(** [v.replace(old, new)] *)
Definition replace (v : value) (old new : ascii) : outcome string :=
  match v with
  | VStr s => inr (str_replace old new s)
  | _ => inl (AttributeError ("'" ++ type_name v
                                ++ "' object has no attribute 'replace'"))
  end.

(** Truth value of an object. *)
Definition truthy (v : value) : bool :=
  match v with
  | VNone => false
  | VBool b => b
  | VInt z => negb (z =? 0)
  | VStr s => negb (String.eqb s "")
  | VList xs => match xs with [] => false | _ => true end
  | VDict items => match items with [] => false | _ => true end
  end.

(** *** Dictionaries *)

(** [d.get(key, default)] *)
Fixpoint dict_get (d : dict) (key : string) (default : value) : value :=
  match d with
  | [] => default
  | (k, v) :: d' => if String.eqb k key then v else dict_get d' key default
  end.

(** [d[key] = v] *)
Fixpoint dict_set (d : dict) (key : string) (v : value) : dict :=
  match d with
  | [] => [(key, v)]
  | (k, w) :: d' =>
      if String.eqb k key then (k, v) :: d' else (k, w) :: dict_set d' key v
  end.

(** [v.get(key, default)] on an arbitrary object. *)
Definition get (v : value) (key : string) (default : value) : outcome value :=
  match v with
  | VDict d => inr (dict_get d key default)
  | _ => inl (AttributeError ("'" ++ type_name v
                                ++ "' object has no attribute 'get'"))
  end.

End Py.

(** ** Tool protocol, remote client and effects *)

Module Tool.
Import Py.

(** [mcp.types.TextContent], [CallToolResult] and the part of
    [CallToolRequest] the handlers read. *)
Record TextContent : Type := { type : string; text : string }.
Record CallToolResult : Type :=
  { content : list TextContent; isError : bool }.
Record CallToolRequest : Type := { arguments : option dict }.

(** The text of the first content block of a result. *)
Definition result_text (r : CallToolResult) : string :=
  match content r with
  | [] => ""
  | c :: _ => text c
  end.

(** The remote client of [utils/datadog_client.py], which is not part of the
    handlers: what a call answers is left to the environment.  A call either
    returns the decoded body or raises. *)
Record client : Type :=
  { fetch_monitor_reply : value -> outcome value;
    update_monitor_reply : value -> dict -> outcome value }.

(** What a handler does besides returning. *)
Inductive event : Type :=
| FetchMonitor (monitor_id : value)
| UpdateMonitor (monitor_id : value) (kwargs : dict)
| LogError (line : string).

Definition is_network_call (ev : event) : bool :=
  match ev with
  | FetchMonitor _ | UpdateMonitor _ _ => true
  | LogError _ => false
  end.

Definition network_calls (t : list event) : list event :=
  filter is_network_call t.

(** Computations that may raise and that extend the trace of events. *)
Definition M (A : Type) : Type := list event -> outcome A * list event.

Definition ret {A} (a : A) : M A := fun t => (inr a, t).

Definition bind {A B} (c : M A) (k : A -> M B) : M B :=
  fun t =>
    match c t with
    | (inr a, t') => k a t'
    | (inl e, t') => (inl e, t')
    end.

Definition lift {A} (o : outcome A) : M A := fun t => (o, t).

(** [raise e] *)
Definition raise {A} (e : exn) : M A := fun t => (inl e, t).

Definition emit (ev : event) : M unit := fun t => (inr tt, (t ++ [ev])%list).

(** [try: body  except ... as e: handler e] *)
Definition try_except {A} (body : M A) (handler : exn -> M A) : M A :=
  fun t =>
    match body t with
    | (inr a, t') => (inr a, t')
    | (inl e, t') => handler e t'
    end.

Definition run {A} (c : M A) : outcome A * list event := c [].

Declare Scope py_scope.
Delimit Scope py_scope with py.
Notation "x <- c ;; k" := (bind c (fun x => k))
  (at level 61, c at next level, right associativity) : py_scope.
Notation "c ;;; k" := (bind c (fun _ => k))
  (at level 61, right associativity) : py_scope.

Local Open Scope py_scope.

(** [await fetch_monitor(monitor_id)] *)
Definition fetch_monitor (c : client) (monitor_id : value) : M value :=
  emit (FetchMonitor monitor_id) ;;;
  lift (fetch_monitor_reply c monitor_id).

(** [await update_monitor(monitor_id, **kwargs)] *)
Definition update_monitor (c : client) (monitor_id : value) (kwargs : dict)
  : M value :=
  emit (UpdateMonitor monitor_id kwargs) ;;;
  lift (update_monitor_reply c monitor_id kwargs).

(** [logger.error(line)] *)
Definition logger_error (line : string) : M unit := emit (LogError line).

(** [request.arguments or {}] *)
Definition arguments_or_empty (request : CallToolRequest) : dict :=
  match arguments request with
  | Some d => if truthy (VDict d) then d else []
  | None => []
  end.

Definition text_result (s : string) (err : bool) : CallToolResult :=
  {| content := [ {| type := "text"; text := s |} ]; isError := err |}.

End Tool.

(** ** [tools/monitor_edit.py] *)

Module MonitorEdit.
Import Py Tool.
Local Open Scope py_scope.

(** The [updates] dictionary of [handle_call]. *)
Definition build_updates (name message tags priority : value) : dict :=
  let updates : dict := [] in
  let updates := if negb (is_none name)
                 then dict_set updates "name" name else updates in
  let updates := if negb (is_none message)
                 then dict_set updates "message" message else updates in
  let updates := if negb (is_none tags)
                 then dict_set updates "tags" tags else updates in
  let updates := if negb (is_none priority)
                 then dict_set updates "priority" priority else updates in
  updates.

(** [priority is not None and (priority < 1 or priority > 5)] *)
Definition priority_rejected (priority : value) : outcome bool :=
  if negb (is_none priority) then
    match lt_int priority 1 with
    | inl e => inl e
    | inr true => inr true
    | inr false => gt_int priority 5
    end
  else inr false.

(** The two [except] clauses of [handle_call]; an exception that neither
    clause names goes on. *)
Definition on_exception (e : exn) : M CallToolResult :=
  match e with
  | HTTPStatusError _ status_code =>
      if status_code =? 404 then ret (text_result "Monitor not found" true)
      else if status_code =? 403 then
        ret (text_result "Permission denied" true)
      else
        logger_error ("Error in monitor_edit: " ++ exn_str e) ;;;
        ret (text_result ("Error: " ++ exn_str e) true)
  | PyException _ _ =>
      logger_error ("Error in monitor_edit: " ++ exn_str e) ;;;
      ret (text_result ("Error: " ++ exn_str e) true)
  | PyBaseException _ _ => raise e
  end.

Definition handle_call (c : client) (request : CallToolRequest)
  : M CallToolResult :=
  try_except
    (let args := arguments_or_empty request in
     let monitor_id := dict_get args "monitor_id" VNone in
     if is_none monitor_id then
       ret (text_result "Error: monitor_id is required" true)
     else
       let name := dict_get args "name" VNone in
       let message := dict_get args "message" VNone in
       let tags := dict_get args "tags" VNone in
       let priority := dict_get args "priority" VNone in
       rejected <- lift (priority_rejected priority) ;;
       if rejected : bool then
         ret (text_result "Invalid priority: must be 1-5" true)
       else
         let updates := build_updates name message tags priority in
         if negb (truthy (VDict updates)) then
           ret (text_result "At least one field to update is required" true)
         else
           update_monitor c monitor_id updates ;;;
           ret (text_result
                  ("Monitor " ++ str monitor_id ++ " updated successfully")
                  false))
    on_exception.

End MonitorEdit.

(** ** The [json] module: [dumps(obj, indent=2)] and [loads] *)

Module Json.
Import Py.

(** *** Encoding *)

Definition is_ascii_printable (c : ascii) : bool :=
  let n := nat_of_ascii c in ((32 <=? n) && (n <=? 126))%nat.

(** One character of a string literal ([ensure_ascii] is on by default). *)
Definition escape_char (c : ascii) : string :=
  if Ascii.eqb c "\" then "\\"
  else if Ascii.eqb c dquote then String "\" (String dquote "")
  else if Ascii.eqb c (ascii_of_nat 8) then "\b"
  else if Ascii.eqb c (ascii_of_nat 12) then "\f"
  else if Ascii.eqb c (ascii_of_nat 10) then "\n"
  else if Ascii.eqb c (ascii_of_nat 13) then "\r"
  else if Ascii.eqb c (ascii_of_nat 9) then "\t"
  else if is_ascii_printable c then String c ""
  else "\u00" ++ hex2 c.

Fixpoint escape (s : string) : string :=
  match s with
  | "" => ""
  | String c s' => escape_char c ++ escape s'
  end.

Definition encode_str (s : string) : string :=
  String dquote (escape s ++ String dquote "").

(** ["\n" + indent * level] for [indent] of two spaces. *)
Definition newline_indent (level : nat) : string :=
  nl ++ str_mul "  " level.

Fixpoint encode (level : nat) (v : value) : string :=
  match v with
  | VNone => "null"
  | VBool true => "true"
  | VBool false => "false"
  | VInt z => str_of_int z
  | VStr s => encode_str s
  | VList [] => "[]"
  | VList xs =>
      "[" ++ newline_indent (S level)
          ++ join ("," ++ newline_indent (S level))
                  (map (encode (S level)) xs)
          ++ newline_indent level ++ "]"
  | VDict [] => "{}"
  | VDict items =>
      "{" ++ newline_indent (S level)
          ++ join ("," ++ newline_indent (S level))
                  (map (fun kv => let '(k, x) := kv in
                                  encode_str k ++ ": " ++ encode (S level) x)
                       items)
          ++ newline_indent level ++ "}"
  end.

(** [json.dumps(obj, indent=2)] *)
Definition dumps (obj : value) : string := encode 0 obj.

(** *** Decoding *)

Definition is_ws (c : ascii) : bool :=
  Ascii.eqb c " " || Ascii.eqb c (ascii_of_nat 9)
  || Ascii.eqb c (ascii_of_nat 10) || Ascii.eqb c (ascii_of_nat 13).

Fixpoint skip_ws (s : string) : string :=
  match s with
  | String c s' => if is_ws c then skip_ws s' else s
  | "" => ""
  end.

Definition is_digit (c : ascii) : bool :=
  let n := nat_of_ascii c in ((48 <=? n) && (n <=? 57))%nat.

(** The longest prefix of digits, and what follows it. *)
Fixpoint span_digits (s : string) : string * string :=
  match s with
  | String c s' =>
      if is_digit c then
        let '(ds, rest) := span_digits s' in (String c ds, rest)
      else ("", s)
  | "" => ("", "")
  end.

Definition hex_value (c : ascii) : option nat :=
  let n := nat_of_ascii c in
  if ((48 <=? n) && (n <=? 57))%nat then Some (n - 48)%nat
  else if ((97 <=? n) && (n <=? 102))%nat then Some (n - 87)%nat
  else if ((65 <=? n) && (n <=? 70))%nat then Some (n - 55)%nat
  else None.

(** The four hexadecimal digits after a [\u].  Code points from 256 on (and
    so surrogate pairs) have no counterpart in [string] and are refused. *)
Definition scan_unicode (s : string) : option (ascii * string) :=
  match s with
  | String a (String b (String c (String d rest))) =>
      match hex_value a, hex_value b, hex_value c, hex_value d with
      | Some 0%nat, Some 0%nat, Some h, Some l =>
          Some (ascii_of_nat (16 * h + l), rest)
      | _, _, _, _ => None
      end
  | _ => None
  end.

(** [scanstring] in strict mode, from just after the opening quote. *)
Fixpoint scanstring (fuel : nat) (s : string) : option (string * string) :=
  match fuel with
  | O => None
  | S fuel' =>
      match s with
      | "" => None
      | String c s' =>
          if Ascii.eqb c dquote then Some ("", s')
          else if Ascii.eqb c "\" then
            match s' with
            | "" => None
            | String e s'' =>
                let continue (ch : ascii) (rest : string) :=
                  match scanstring fuel' rest with
                  | Some (str, rest') => Some (String ch str, rest')
                  | None => None
                  end in
                if Ascii.eqb e dquote then continue dquote s''
                else if Ascii.eqb e "\" then continue "\"%char s''
                else if Ascii.eqb e "/" then continue "/"%char s''
                else if Ascii.eqb e "b" then continue (ascii_of_nat 8) s''
                else if Ascii.eqb e "f" then continue (ascii_of_nat 12) s''
                else if Ascii.eqb e "n" then continue (ascii_of_nat 10) s''
                else if Ascii.eqb e "r" then continue (ascii_of_nat 13) s''
                else if Ascii.eqb e "t" then continue (ascii_of_nat 9) s''
                else if Ascii.eqb e "u" then
                  match scan_unicode s'' with
                  | Some (ch, rest) => continue ch rest
                  | None => None
                  end
                else None
            end
          else if (nat_of_ascii c <? 32)%nat then None
          else
            match scanstring fuel' s' with
            | Some (str, rest') => Some (String c str, rest')
            | None => None
            end
      end
  end.

(** Does a fraction or an exponent follow the integer part?  Such a literal
    is a float. *)
Definition float_follows (s : string) : bool :=
  match s with
  | String "." (String d _) => is_digit d
  | String e rest =>
      if Ascii.eqb e "e" || Ascii.eqb e "E" then
        match rest with
        | String sign (String d _) =>
            is_digit sign
            || ((Ascii.eqb sign "+" || Ascii.eqb sign "-") && is_digit d)
        | String d "" => is_digit d
        | "" => false
        end
      else false
  | "" => false
  end.

(** [NUMBER_RE]: an optional minus sign, then a zero or a run of digits that
    does not start with a zero; only an integer literal is decoded. *)
Definition scan_number (s : string) : option (value * string) :=
  let '(sign, body) :=
    match s with
    | String "-" s' => ("-", s')
    | _ => ("", s)
    end in
  let '(ds, rest) := span_digits body in
  match ds with
  | "" => None
  | String d more =>
      let '(integer, rest) :=
        if Ascii.eqb d "0" then ("0", more ++ rest) else (ds, rest) in
      if float_follows rest then None
      else
        match NilZero.int_of_string (sign ++ integer) with
        | Some i => Some (VInt (Z.of_int i), rest)
        | None => None
        end
  end.

(** What follows the literal [p] at the head of [s], when [s] starts with
    it. *)
Fixpoint starts_with (p s : string) : option string :=
  match p, s with
  | "", _ => Some s
  | String a p', String b s' =>
      if Ascii.eqb a b then starts_with p' s' else None
  | String _ _, "" => None
  end.

(** [dict(pairs)]: a later item replaces the value of an equal earlier key. *)
Definition dict_of_pairs (pairs : list (string * value)) : dict :=
  fold_left (fun d kv => dict_set d (fst kv) (snd kv)) pairs [].

(** [scan_once], [JSONArray] and [JSONObject].  [array_items] and
    [object_items] are the loops of the latter two, entered where an item is
    expected; the items read so far are kept in reverse. *)
Fixpoint scan_once (fuel : nat) (s : string) {struct fuel}
  : option (value * string) :=
  match fuel with
  | O => None
  | S fuel' =>
      match s with
      | String dquote s' =>
          match scanstring (S (String.length s')) s' with
          | Some (str, rest) => Some (VStr str, rest)
          | None => None
          end
      | String "{" s' =>
          match skip_ws s' with
          | String "}" rest => Some (VDict [], rest)
          | String dquote rest => object_items fuel' rest []
          | _ => None
          end
      | String "[" s' =>
          match skip_ws s' with
          | String "]" rest => Some (VList [], rest)
          | s'' => array_items fuel' s'' []
          end
      | String "n" _ =>
          match starts_with "null" s with
          | Some rest => Some (VNone, rest)
          | None => None
          end
      | String "t" _ =>
          match starts_with "true" s with
          | Some rest => Some (VBool true, rest)
          | None => None
          end
      | String "f" _ =>
          match starts_with "false" s with
          | Some rest => Some (VBool false, rest)
          | None => None
          end
      | _ => scan_number s
      end
  end

with array_items (fuel : nat) (s : string) (acc : list value) {struct fuel}
  : option (value * string) :=
  match fuel with
  | O => None
  | S fuel' =>
      match scan_once fuel' s with
      | Some (v, rest) =>
          match skip_ws rest with
          | String "]" rest' => Some (VList (rev (v :: acc)), rest')
          | String "," rest' => array_items fuel' (skip_ws rest') (v :: acc)
          | _ => None
          end
      | None => None
      end
  end

with object_items (fuel : nat) (s : string) (acc : list (string * value))
  {struct fuel} : option (value * string) :=
  match fuel with
  | O => None
  | S fuel' =>
      match scanstring (S (String.length s)) s with
      | Some (key, rest) =>
          match skip_ws rest with
          | String ":" rest' =>
              match scan_once fuel' (skip_ws rest') with
              | Some (v, rest'') =>
                  match skip_ws rest'' with
                  | String "}" r =>
                      Some (VDict (dict_of_pairs (rev ((key, v) :: acc))), r)
                  | String "," r =>
                      match skip_ws r with
                      | String dquote r' =>
                          object_items fuel' r' ((key, v) :: acc)
                      | _ => None
                      end
                  | _ => None
                  end
              | None => None
              end
          | _ => None
          end
      | None => None
      end
  end.

(** [json.loads(s)]: one document, with nothing but white space around it.
    [None] stands for a [JSONDecodeError] (or a literal outside [value]). *)
Definition loads (s : string) : option value :=
  match scan_once (S (String.length s)) (skip_ws s) with
  | Some (v, rest) =>
      match skip_ws rest with
      | "" => Some v
      | _ => None
      end
  | None => None
  end.

End Json.

(** ** [tools/get_monitor.py] *)

Module GetMonitor.
Import Py Tool.
Local Open Scope py_scope.

(** The values the input schema of [get_tool_definition] declares for
    [format].  The handler does not consult the schema. *)
Definition format_enum : list string := ["table"; "json"].

(** The [else] branch of [handle_call]: the table rendering. *)
Definition table_content (monitor_id monitor : value) : M string :=
  monitor_name <- lift (get monitor "name" (VStr "Unnamed")) ;;
  monitor_type <- lift (get monitor "type" (VStr "unknown")) ;;
  overall_state <- lift (get monitor "overall_state" (VStr "unknown")) ;;
  priority <- lift (get monitor "priority" (VStr "N/A")) ;;
  query <- lift (get monitor "query" (VStr "N/A")) ;;
  message <- lift (get monitor "message" (VStr "")) ;;
  tags <- lift (get monitor "tags" (VList [])) ;;
  head <- lift (slice_to tags 5) ;;
  tags_str <- lift (join_value ", " head) ;;
  count <- lift (len tags) ;;
  let tags_str :=
    if count >? 5
    then tags_str ++ " (+" ++ str_of_int (count - 5) ++ " more)"
    else tags_str in
  size <- lift (len message) ;;
  message_truncated <-
    (if size >? 100
     then (prefix <- lift (slice_to message 100) ;; lift (add_str prefix "..."))
     else ret message) ;;
  message_truncated <- lift (replace message_truncated newline " ") ;;
  ret ("Monitor Details" ++ nl
       ++ str_mul "=" 15 ++ nl ++ nl
       ++ "ID:       " ++ str monitor_id ++ nl
       ++ "Name:     " ++ str monitor_name ++ nl
       ++ "Type:     " ++ str monitor_type ++ nl
       ++ "State:    " ++ str overall_state ++ nl
       ++ "Priority: " ++ str priority ++ nl
       ++ "Tags:     "
       ++ (if truthy (VStr tags_str) then tags_str else "None") ++ nl
       ++ "Query:    " ++ str query ++ nl
       ++ "Message:  "
       ++ (if truthy (VStr message_truncated) then message_truncated
           else "None") ++ nl).

(** The two [except] clauses of [handle_call]; an exception that neither
    clause names goes on. *)
Definition on_exception (e : exn) : M CallToolResult :=
  match e with
  | HTTPStatusError _ status_code =>
      if status_code =? 404 then ret (text_result "Monitor not found" true)
      else if status_code =? 403 then
        ret (text_result "Permission denied" true)
      else
        logger_error ("Error in get_monitor: " ++ exn_str e) ;;;
        ret (text_result ("Error: " ++ exn_str e) true)
  | PyException _ _ =>
      logger_error ("Error in get_monitor: " ++ exn_str e) ;;;
      ret (text_result ("Error: " ++ exn_str e) true)
  | PyBaseException _ _ => raise e
  end.

Definition handle_call (c : client) (request : CallToolRequest)
  : M CallToolResult :=
  try_except
    (let args := arguments_or_empty request in
     let monitor_id := dict_get args "monitor_id" VNone in
     let format_type := dict_get args "format" (VStr "table") in
     if is_none monitor_id then
       ret (text_result "Error: monitor_id is required" true)
     else
       monitor <- fetch_monitor c monitor_id ;;
       content <-
         (if eq_str format_type "json" then ret (Json.dumps monitor)
          else table_content monitor_id monitor) ;;
       ret (text_result content false))
    on_exception.

End GetMonitor.

(** ** The specification's vocabulary

    Definitions that follow the words of the specification rather than the
    code; the theorems below compare them with the handlers. *)

Module Spec.
Import Py Tool.

(** An attribute of a record or an argument of a request, when the key is
    there. *)
Fixpoint dict_lookup (d : dict) (key : string) : option value :=
  match d with
  | [] => None
  | (k, v) :: d' => if String.eqb k key then Some v else dict_lookup d' key
  end.

(** The record or request without a key. *)
Fixpoint without_key (key : string) (d : dict) : dict :=
  match d with
  | [] => []
  | (k, v) :: d' =>
      if String.eqb k key then without_key key d'
      else (k, v) :: without_key key d'
  end.

(** The arguments map of a request; a request without one has no argument. *)
Definition argument (request : CallToolRequest) (key : string)
  : option value :=
  match arguments request with
  | None => None
  | Some d => dict_lookup d key
  end.

(** An argument that is supplied and not null. *)
Definition supplied (request : CallToolRequest) (key : string)
  : option value :=
  match argument request key with
  | Some VNone | None => None
  | Some v => Some v
  end.

(** The error mapping: 404, 403, anything else. *)
Definition error_text (e : exn) : string :=
  match e with
  | HTTPStatusError underlying status =>
      if status =? 404 then "Monitor not found"
      else if status =? 403 then "Permission denied"
      else "Error: " ++ underlying
  | PyException _ underlying => "Error: " ++ underlying
  | PyBaseException _ underlying => "Error: " ++ underlying
  end.

(** The handlers of the two tools. *)
Definition handlers : list (client -> CallToolRequest -> M CallToolResult) :=
  [GetMonitor.handle_call; MonitorEdit.handle_call].

(** A remote operation recorded in the trace was answered by an exception. *)
Definition remote_failed (c : client) (t : list event) (e : exn) : Prop :=
  (exists monitor_id,
      In (FetchMonitor monitor_id) t
      /\ fetch_monitor_reply c monitor_id = inl e)
  \/ (exists monitor_id kwargs,
         In (UpdateMonitor monitor_id kwargs) t
         /\ update_monitor_reply c monitor_id kwargs = inl e).

(** The request without an argument. *)
Definition without_argument (key : string) (request : CallToolRequest)
  : CallToolRequest :=
  {| arguments := option_map (without_key key) (arguments request) |}.

Definition failure (message : string) : CallToolResult :=
  {| content := [ {| type := "text"; text := message |} ]; isError := true |}.

Definition success (output : string) : CallToolResult :=
  {| content := [ {| type := "text"; text := output |} ]; isError := false |}.

(** The fields an update patch may carry, in the order they are listed. *)
Definition patch_fields : list string := ["name"; "message"; "tags"; "priority"].

(** The update patch: the supplied, non-null fields. *)
Definition patch (request : CallToolRequest) : dict :=
  flat_map (fun key => match supplied request key with
                       | Some v => [(key, v)]
                       | None => []
                       end) patch_fields.

(** [priority] absent, null, or an integer of the closed range 1..5. *)
Definition priority_acceptable (request : CallToolRequest) : bool :=
  match supplied request "priority" with
  | None => true
  | Some (VInt z) => (1 <=? z) && (z <=? 5)
  | Some _ => false
  end.

(** A request that passes the three validation steps of the edit handler. *)
Definition passes_validation (request : CallToolRequest) : bool :=
  match supplied request "monitor_id" with
  | None => false
  | Some _ =>
      priority_acceptable request
      && match patch request with [] => false | _ => true end
  end.

(** The [tags] of a record as the data model has them: absent, or a
    sequence of strings. *)
Fixpoint strings_of (xs : list value) : option (list string) :=
  match xs with
  | [] => Some []
  | VStr s :: xs' =>
      match strings_of xs' with
      | Some ss => Some (s :: ss)
      | None => None
      end
  | _ :: _ => None
  end.

Definition tags_of (monitor : dict) : option (option (list string)) :=
  match dict_lookup monitor "tags" with
  | None => Some None
  | Some (VList xs) =>
      match strings_of xs with
      | Some ss => Some (Some ss)
      | None => None
      end
  | Some _ => None
  end.

(** The [message] of a record as the data model has it: absent or a string. *)
Definition message_of (monitor : dict) : option (option string) :=
  match dict_lookup monitor "message" with
  | None => Some None
  | Some (VStr s) => Some (Some s)
  | Some _ => None
  end.

(** A table line for an attribute shown as it is, with its default. *)
Definition attribute (monitor : dict) (key default : string) : string :=
  match dict_lookup monitor key with
  | Some v => str v
  | None => default
  end.

Definition or_default (shown default : string) : string :=
  if String.eqb shown "" then default else shown.

(** First five tags joined by a comma and a space; the number of the
    others, when there are more than five. *)
Definition tags_field (tags : option (list string)) : string :=
  match tags with
  | None => "None"
  | Some ts =>
      or_default
        (join ", " (firstn 5 ts)
           ++ (if (5 <? List.length ts)%nat
               then " (+" ++ str_of_int (Z.of_nat (List.length ts - 5)) ++ " more)"
               else ""))
        "None"
  end.

(** Newlines collapsed to spaces, then the first hundred characters, with an
    ellipsis when the message is longer. *)
Definition message_shown (message : string) : string :=
  let collapsed := str_replace newline " " message in
  if (100 <? String.length message)%nat
  then str_take 100 collapsed ++ "..."
  else collapsed.

Definition message_field (message : option string) : string :=
  match message with
  | None => "None"
  | Some m => or_default (message_shown m) "None"
  end.

(** The lines of the table, one string each, without the line ends. *)
Definition table_lines (monitor_id : value) (monitor : dict)
  (tags : option (list string)) (message : option string) : list string :=
  [ "Monitor Details";
    "===============";
    "";
    "ID:       " ++ str monitor_id;
    "Name:     " ++ attribute monitor "name" "Unnamed";
    "Type:     " ++ attribute monitor "type" "unknown";
    "State:    " ++ attribute monitor "overall_state" "unknown";
    "Priority: " ++ attribute monitor "priority" "N/A";
    "Tags:     " ++ tags_field tags;
    "Query:    " ++ attribute monitor "query" "N/A";
    "Message:  " ++ message_field message ].

(** Every line ended by a newline. *)
Fixpoint unlines (lines : list string) : string :=
  match lines with
  | [] => ""
  | l :: ls => l ++ nl ++ unlines ls
  end.

Definition table (monitor_id : value) (monitor : dict)
  (tags : option (list string)) (message : option string) : string :=
  unlines (table_lines monitor_id monitor tags message).

Fixpoint distinct (keys : list string) : bool :=
  match keys with
  | [] => true
  | k :: ks => negb (existsb (String.eqb k) ks) && distinct ks
  end.

(** A decoded body: no dictionary in it holds a key twice. *)
Fixpoint well_formed (v : value) : bool :=
  match v with
  | VList xs => forallb well_formed xs
  | VDict items =>
      distinct (map fst items)
      && forallb (fun kv => let '(_, x) := kv in well_formed x) items
  | _ => true
  end.

End Spec.

(** ** Vocabulary of the round trip through [json] *)

Module Codec.
Import Py.

(** The number of nodes of a value, every item counted once more: the fuel
    that decoding its text takes. *)
Fixpoint size (v : value) : nat :=
  match v with
  | VList xs => S (fold_right (fun x n => S (size x + n)) 0%nat xs)
  | VDict items =>
      S (fold_right (fun kv n => let '(_, x) := kv in S (size x + n))
           0%nat items)
  | _ => 1%nat
  end.

Definition list_size (xs : list value) : nat :=
  fold_right (fun x n => S (size x + n)) 0%nat xs.

Definition dict_size (items : dict) : nat :=
  fold_right (fun kv n => let '(_, x) := kv in S (size x + n)) 0%nat items.

(** The characters an encoded value may start with. *)
Definition starts_value (c : ascii) : bool :=
  Json.is_digit c || Ascii.eqb c "-" || Ascii.eqb c dquote
  || Ascii.eqb c "{" || Ascii.eqb c "[" || Ascii.eqb c "n"
  || Ascii.eqb c "t" || Ascii.eqb c "f".

(** What follows an encoded value inside a document: nothing, a comma or a
    newline. *)
Definition delimited (rest : string) : bool :=
  match rest with
  | "" => true
  | String c _ => Ascii.eqb c "," || Ascii.eqb c newline
  end.

Fixpoint all_digits (s : string) : bool :=
  match s with
  | "" => true
  | String c s' => Json.is_digit c && all_digits s'
  end.

(** One item of an encoded dictionary. *)
Definition encode_item (level : nat) (kv : string * value) : string :=
  let '(k, x) := kv in Json.encode_str k ++ ": " ++ Json.encode level x.

(** The text of [v], at any depth and before any delimiter, is decoded to
    [v] and the decoder stops at the delimiter. *)
Definition round_trips (v : value) : Prop :=
  forall (level : nat) (rest : string) (fuel : nat),
    delimited rest = true ->
    (size v <= fuel)%nat ->
    Json.scan_once fuel (Json.encode level v ++ rest) = Some (v, rest).

(** Induction on values, with the items of lists and dictionaries. *)

Section ValueInduction.
Variable P : value -> Prop.
Hypothesis HNone : P VNone.
Hypothesis HBool : forall b, P (VBool b).
Hypothesis HInt : forall z, P (VInt z).
Hypothesis HStr : forall s, P (VStr s).
Hypothesis HList : forall xs, Forall P xs -> P (VList xs).
Hypothesis HDict :
  forall items, Forall (fun kv => P (snd kv)) items -> P (VDict items).

Fixpoint value_induction (v : value) : P v :=
  match v with
  | VNone => HNone
  | VBool b => HBool b
  | VInt z => HInt z
  | VStr s => HStr s
  | VList xs =>
      HList xs
        ((fix all (l : list value) : Forall P l :=
            match l with
            | [] => Forall_nil P
            | x :: l' => Forall_cons x (value_induction x) (all l')
            end) xs)
  | VDict items =>
      HDict items
        ((fix all (l : list (string * value))
            : Forall (fun kv => P (snd kv)) l :=
            match l with
            | [] => Forall_nil _
            | (k, x) :: l' =>
                Forall_cons (k, x) (value_induction x) (all l')
            end) items)
  end.
End ValueInduction.

End Codec.

(** ** Sample clients and requests *)

Module Samples.
Import Py Tool.

(** A client whose calls answer with a fixed outcome. *)
Definition answering (reply : outcome value) : client :=
  {| fetch_monitor_reply := fun _ => reply;
     update_monitor_reply := fun _ _ => reply |}.

Definition request_of (args : dict) : CallToolRequest :=
  {| arguments := Some args |}.

Definition cpu_monitor : dict :=
  [ ("id", VInt 12345); ("name", VStr "CPU High Alert");
    ("type", VStr "metric alert"); ("overall_state", VStr "OK");
    ("priority", VInt 2);
    ("query", VStr "avg(last_5m):avg:system.cpu.user{*} > 90");
    ("message", VStr "CPU usage is too high");
    ("tags", VList [VStr "env:prod"; VStr "team:backend"]) ].

End Samples.

(** ** Tool definitions: [get_tool_definition] of the two files *)

Module ToolTypes.
Import Py.

(** [mcp.types.Tool], with the input schema as the dictionary it is. *)
Record Tool : Type :=
  { name : string; description : string; inputSchema : value }.

End ToolTypes.

Module GetMonitorTool.
Import Py ToolTypes.

(** [get_tool_definition] of [tools/get_monitor.py]. *)
Definition get_tool_definition : Tool :=
  {| name := "get_monitor";
     description := "Get details for a specific Datadog monitor by ID.";
     inputSchema :=
       VDict
         [ ("type", VStr "object");
           ("properties",
            VDict
              [ ("monitor_id",
                 VDict
                   [ ("type", VStr "integer");
                     ("description",
                      VStr "The numeric ID of the monitor to fetch.") ]);
                ("format",
                 VDict
                   [ ("type", VStr "string");
                     ("description", VStr "Output format");
                     ("enum", VList [VStr "table"; VStr "json"]);
                     ("default", VStr "table") ]) ]);
           ("additionalProperties", VBool false);
           ("required", VList [VStr "monitor_id"]) ] |}.

End GetMonitorTool.

Module MonitorEditTool.
Import Py ToolTypes.

(** [get_tool_definition] of [tools/monitor_edit.py]. *)
Definition get_tool_definition : Tool :=
  {| name := "monitor_edit";
     description :=
       "Update basic fields of an existing Datadog monitor. At least one update field must be provided.";
     inputSchema :=
       VDict
         [ ("type", VStr "object");
           ("properties",
            VDict
              [ ("monitor_id",
                 VDict
                   [ ("type", VStr "integer");
                     ("description",
                      VStr "The numeric ID of the monitor to update.") ]);
                ("name",
                 VDict
                   [ ("type", VStr "string");
                     ("description", VStr "New name for the monitor.") ]);
                ("message",
                 VDict
                   [ ("type", VStr "string");
                     ("description",
                      VStr "New message/description for the monitor.") ]);
                ("tags",
                 VDict
                   [ ("type", VStr "array");
                     ("items", VDict [("type", VStr "string")]);
                     ("description",
                      VStr "New list of tags for the monitor.") ]);
                ("priority",
                 VDict
                   [ ("type", VStr "integer");
                     ("minimum", VInt 1);
                     ("maximum", VInt 5);
                     ("description",
                      VStr "New priority level (1-5) for the monitor.") ]) ]);
           ("additionalProperties", VBool false);
           ("required", VList [VStr "monitor_id"]) ] |}.

End MonitorEditTool.

(** ** Reading schemas, traces and records *)

Module Derived.
Import Py Tool ToolTypes Spec.

(** [v[k1][k2]...] for a path of keys, when every step is there. *)
Fixpoint at_path (v : value) (path : list string) : option value :=
  match path with
  | [] => Some v
  | key :: path' =>
      match v with
      | VDict d =>
          match dict_lookup d key with
          | Some x => at_path x path'
          | None => None
          end
      | _ => None
      end
  end.

(** The names under [properties] of a tool's input schema. *)
Definition declared_properties (t : Tool) : list string :=
  match at_path (inputSchema t) ["properties"] with
  | Some (VDict d) => map fst d
  | _ => []
  end.

(** The two tools: the definition and the handler of each. *)
Definition tools
  : list (Tool * (client -> CallToolRequest -> M CallToolResult)) :=
  [ (GetMonitorTool.get_tool_definition, GetMonitor.handle_call);
    (MonitorEditTool.get_tool_definition, MonitorEdit.handle_call) ].

(** The lines sent to the logger, in order. *)
Definition log_lines (t : list event) : list string :=
  flat_map (fun ev => match ev with LogError line => [line] | _ => [] end) t.

(** What the [except] clauses write to the log for an exception: nothing
    for the statuses 404 and 403, one line for another exception they catch,
    nothing for one they do not catch. *)
Definition logged (tool_name : string) (e : exn) : list string :=
  match e with
  | HTTPStatusError underlying status =>
      if (status =? 404) || (status =? 403) then []
      else ["Error in " ++ tool_name ++ ": " ++ underlying]
  | PyException _ underlying =>
      ["Error in " ++ tool_name ++ ": " ++ underlying]
  | PyBaseException _ _ => []
  end.

(** The request with an argument set. *)
Definition with_argument (key : string) (v : value)
  (request : CallToolRequest) : CallToolRequest :=
  {| arguments :=
       Some (dict_set (match arguments request with
                       | Some d => d
                       | None => []
                       end) key v) |}.

(** The attributes of a record that the table shows. *)
Definition shown_attributes : list string :=
  ["name"; "type"; "overall_state"; "priority"; "query"; "message"; "tags"].

Definition is_str (v : value) : bool :=
  match v with VStr _ => true | _ => false end.

(** The shapes of [tags] and [message] with which the table can be
    written. *)
Definition tags_renderable (tags : value) : bool :=
  match tags with
  | VStr _ => true
  | VList xs => forallb is_str (firstn 5 xs)
  | _ => false
  end.

(** The strings among the items of a list. *)
Definition strings_among (xs : list value) : list string :=
  flat_map (fun x => match x with VStr s => [s] | _ => [] end) xs.

(** What the Tags line shows for a value the table can be written from:
    the first five items joined (the first five characters, when the value
    is one string) and the number of the others. *)
Definition shown_tags (tags : value) : string :=
  let '(parts, count) :=
    match tags with
    | VStr s => (chars (str_take 5 s), String.length s)
    | VList xs => (strings_among (firstn 5 xs), List.length xs)
    | _ => ([], 0%nat)
    end in
  join ", " parts
    ++ (if (5 <? count)%nat
        then " (+" ++ str_of_int (Z.of_nat (count - 5)) ++ " more)"
        else "").

Definition renderable (d : dict) : bool :=
  tags_renderable (dict_get d "tags" (VList []))
  && is_str (dict_get d "message" (VStr "")).

(** Printable ASCII characters and the newline, nothing else. *)
Fixpoint plain_text (s : string) : bool :=
  match s with
  | "" => true
  | String c s' =>
      (Json.is_ascii_printable c || Ascii.eqb c newline) && plain_text s'
  end.

End Derived.

(** * Properties *)

Import Py Tool ToolTypes Spec Codec Derived.

(** ** Dictionaries and arguments *)

Lemma dict_get_lookup (d : dict) (key : string) (default : value) :
  dict_get d key default =
  match dict_lookup d key with Some v => v | None => default end.
Proof.
  induction d as [|[k v] d IH]; simpl; [reflexivity|].
  destruct (String.eqb k key); [reflexivity|exact IH].
Qed.

Lemma arguments_get (request : CallToolRequest) (key : string) (default : value) :
  dict_get (arguments_or_empty request) key default =
  match argument request key with Some v => v | None => default end.
Proof.
  unfold arguments_or_empty, argument.
  destruct (arguments request) as [d|]; [|reflexivity].
  destruct d as [|kv d]; [reflexivity|].
  cbn [truthy]. apply dict_get_lookup.
Qed.

Lemma arguments_get_none (request : CallToolRequest) (key : string) :
  dict_get (arguments_or_empty request) key VNone =
  match supplied request key with Some v => v | None => VNone end.
Proof.
  rewrite arguments_get. unfold supplied.
  destruct (argument request key) as [[]|]; reflexivity.
Qed.

Lemma supplied_not_none (request : CallToolRequest) (key : string) (v : value) :
  supplied request key = Some v -> is_none v = false.
Proof.
  unfold supplied.
  destruct (argument request key) as [[]|]; intros H; inversion H; reflexivity.
Qed.

(** ** What the edit handler computes, step by step *)

Lemma build_updates_patch (request : CallToolRequest) :
  let args := arguments_or_empty request in
  MonitorEdit.build_updates
    (dict_get args "name" VNone) (dict_get args "message" VNone)
    (dict_get args "tags" VNone) (dict_get args "priority" VNone)
  = patch request.
Proof.
  cbv zeta. rewrite !arguments_get_none.
  unfold patch, patch_fields. cbn [flat_map].
  unfold MonitorEdit.build_updates.
  destruct (supplied request "name") as [n|] eqn:En;
    [rewrite (supplied_not_none _ _ _ En)|];
  (destruct (supplied request "message") as [m|] eqn:Em;
    [rewrite (supplied_not_none _ _ _ Em)|]);
  (destruct (supplied request "tags") as [t|] eqn:Et;
    [rewrite (supplied_not_none _ _ _ Et)|]);
  (destruct (supplied request "priority") as [p|] eqn:Ep;
    [rewrite (supplied_not_none _ _ _ Ep)|]);
  reflexivity.
Qed.

Lemma edit_run (c : client) (request : CallToolRequest) :
  run (MonitorEdit.handle_call c request) =
  match supplied request "monitor_id" with
  | None => (inr (failure "Error: monitor_id is required"), [])
  | Some monitor_id =>
      match MonitorEdit.priority_rejected
              (match supplied request "priority" with
               | Some p => p | None => VNone end) with
      | inl e => MonitorEdit.on_exception e []
      | inr true => (inr (failure "Invalid priority: must be 1-5"), [])
      | inr false =>
          match patch request with
          | [] =>
              (inr (failure "At least one field to update is required"), [])
          | _ :: _ =>
              match update_monitor_reply c monitor_id (patch request) with
              | inr _ =>
                  (inr (success ("Monitor " ++ str monitor_id
                                   ++ " updated successfully")),
                   [UpdateMonitor monitor_id (patch request)])
              | inl e =>
                  MonitorEdit.on_exception e
                    [UpdateMonitor monitor_id (patch request)]
              end
          end
      end
  end.
Proof.
  unfold run, MonitorEdit.handle_call, try_except.
  cbv zeta. rewrite build_updates_patch. rewrite !arguments_get_none.
  destruct (supplied request "monitor_id") as [id|] eqn:Eid; [|reflexivity].
  rewrite (supplied_not_none _ _ _ Eid).
  unfold bind at 1, lift at 1.
  destruct (MonitorEdit.priority_rejected _) as [e|[|]]; try reflexivity.
  destruct (patch request) as [|kv kvs] eqn:Ep; [reflexivity|].
  cbn [truthy negb].
  unfold update_monitor, bind, emit, lift. cbn [app].
  destruct (update_monitor_reply c id (kv :: kvs)); reflexivity.
Qed.

(** ** Strings *)

Lemma append_assoc (a b c : string) : (a ++ b) ++ c = a ++ (b ++ c).
Proof. induction a as [|x a IH]; simpl; [reflexivity|now rewrite IH]. Qed.

Lemma append_nil_r (a : string) : a ++ "" = a.
Proof. induction a as [|x a IH]; simpl; [reflexivity|now rewrite IH]. Qed.

Lemma length_append (a b : string) :
  String.length (a ++ b) = (String.length a + String.length b)%nat.
Proof. induction a as [|x a IH]; simpl; [reflexivity|now rewrite IH]. Qed.

Lemma str_replace_append (old new : ascii) (a b : string) :
  str_replace old new (a ++ b) = str_replace old new a ++ str_replace old new b.
Proof. induction a as [|x a IH]; simpl; [reflexivity|now rewrite IH]. Qed.

Lemma str_replace_take (old new : ascii) (n : nat) (s : string) :
  str_replace old new (str_take n s) = str_take n (str_replace old new s).
Proof.
  revert s; induction n as [|n IH]; intros [|x s]; simpl; try reflexivity.
  now rewrite IH.
Qed.

Lemma str_replace_length (old new : ascii) (s : string) :
  String.length (str_replace old new s) = String.length s.
Proof. induction s as [|x s IH]; simpl; [reflexivity|now rewrite IH]. Qed.

Lemma str_take_length (n : nat) (s : string) :
  String.length (str_take n s) = Nat.min n (String.length s).
Proof.
  revert s; induction n as [|n IH]; intros [|x s]; simpl; try reflexivity.
  now rewrite IH.
Qed.

Lemma str_replace_absent (old new : ascii) (s : string) :
  old <> new -> str_contains old (str_replace old new s) = false.
Proof.
  intros Hne. induction s as [|x s IH]; simpl; [reflexivity|].
  rewrite IH, orb_false_r.
  destruct (Ascii.eqb_spec x old) as [->|Hx].
  - now apply Ascii.eqb_neq.
  - apply Ascii.eqb_neq. congruence.
Qed.

Lemma str_contains_append (c : ascii) (a b : string) :
  str_contains c (a ++ b) = str_contains c a || str_contains c b.
Proof.
  induction a as [|x a IH]; simpl; [reflexivity|].
  now rewrite IH, orb_assoc.
Qed.

Lemma str_contains_take (c : ascii) (n : nat) (s : string) :
  str_contains c s = false -> str_contains c (str_take n s) = false.
Proof.
  revert s; induction n as [|n IH]; intros [|x s]; simpl; try reflexivity.
  intros H. apply orb_false_iff in H as [H1 H2].
  now rewrite H1, (IH _ H2).
Qed.

Lemma truthy_or_default (s default : string) :
  (if truthy (VStr s) then s else default) = or_default s default.
Proof. unfold or_default; cbn [truthy]. now destruct (String.eqb s ""). Qed.

(** ** What the fetch handler computes, step by step *)

Lemma get_attribute (d : dict) (key default : string) :
  str (dict_get d key (VStr default)) = attribute d key default.
Proof.
  rewrite dict_get_lookup. unfold attribute.
  now destruct (dict_lookup d key).
Qed.

Lemma join_items_strings (sep : string) (xs : list value) (ss : list string) :
  strings_of xs = Some ss ->
  forall i, join_items sep i xs = inr ss.
Proof.
  revert ss; induction xs as [|x xs IH]; intros ss H i; simpl in *.
  - now inversion H.
  - destruct x; try discriminate.
    destruct (strings_of xs) as [ss'|]; [|discriminate].
    inversion H; subst. now rewrite (IH ss' eq_refl).
Qed.

Lemma strings_of_firstn (n : nat) (xs : list value) (ss : list string) :
  strings_of xs = Some ss -> strings_of (firstn n xs) = Some (firstn n ss).
Proof.
  revert xs ss; induction n as [|n IH]; intros xs ss H; [reflexivity|].
  destruct xs as [|x xs]; simpl in *; [now inversion H|].
  destruct x; try discriminate.
  destruct (strings_of xs) as [ss'|] eqn:E; [|discriminate].
  inversion H; subst. simpl. now rewrite (IH xs ss' E).
Qed.

Lemma strings_of_length (xs : list value) (ss : list string) :
  strings_of xs = Some ss -> List.length xs = List.length ss.
Proof.
  revert ss; induction xs as [|x xs IH]; intros ss H; simpl in *.
  - now inversion H.
  - destruct x; try discriminate.
    destruct (strings_of xs) as [ss'|]; [|discriminate].
    inversion H; subst. simpl. now rewrite (IH ss' eq_refl).
Qed.

(** The tags part of the table: the slice, the join and the count. *)
Lemma tags_steps (d : dict) (tags : option (list string)) :
  tags_of d = Some tags ->
  exists v shown count,
    get (VDict d) "tags" (VList []) = inr v
    /\ (exists head, slice_to v 5 = inr head /\ join_value ", " head = inr shown)
    /\ len v = inr count
    /\ or_default
         (if count >? 5
          then shown ++ " (+" ++ str_of_int (count - 5) ++ " more)"
          else shown) "None" = tags_field tags.
Proof.
  unfold tags_of, get. rewrite dict_get_lookup.
  destruct (dict_lookup d "tags") as [v|].
  - destruct v; try discriminate.
    destruct (strings_of xs) as [ss|] eqn:E; [|discriminate].
    intros H; inversion H; subst; clear H.
    exists (VList xs), (join ", " (firstn 5 ss)), (Z.of_nat (List.length xs)).
    split; [reflexivity|]. split; [|split; [reflexivity|]].
    + exists (VList (firstn 5 xs)). split; [reflexivity|].
      unfold join_value.
      now rewrite (join_items_strings _ _ _ (strings_of_firstn 5 _ _ E)).
    + unfold tags_field. rewrite (strings_of_length _ _ E).
      destruct (Nat.ltb_spec 5 (List.length ss)) as [Hl|Hl].
      * replace (Z.of_nat (List.length ss) >? 5) with true
          by (symmetry; rewrite Z.gtb_ltb; apply Z.ltb_lt; lia).
        now replace (Z.of_nat (List.length ss) - 5)
          with (Z.of_nat (List.length ss - 5)) by lia.
      * replace (Z.of_nat (List.length ss) >? 5) with false
          by (symmetry; rewrite Z.gtb_ltb; apply Z.ltb_ge; lia).
        now rewrite append_nil_r.
  - intros H; inversion H; subst; clear H.
    exists (VList []), "", 0. repeat split.
    exists (VList []). now split.
Qed.

(** The message part of the table: the truncation and the replacement. *)
Lemma message_steps (d : dict) (message : option string) :
  message_of d = Some message ->
  exists v size cut shown,
    get (VDict d) "message" (VStr "") = inr v
    /\ len v = inr size
    /\ (if size >? 100
        then exists prefix,
               slice_to v 100 = inr prefix /\ add_str prefix "..." = inr cut
        else cut = v)
    /\ replace cut newline " " = inr shown
    /\ or_default shown "None" = message_field message.
Proof.
  unfold message_of, get. rewrite dict_get_lookup.
  assert (Hstr : forall m : string,
    exists size cut shown,
      len (VStr m) = inr size
      /\ (if size >? 100
          then exists prefix,
                 slice_to (VStr m) 100 = inr prefix
                 /\ add_str prefix "..." = inr cut
          else cut = VStr m)
      /\ replace cut newline " " = inr shown
      /\ shown = message_shown m).
  { intros m. unfold message_shown.
    destruct (Nat.ltb_spec 100 (String.length m)) as [Hl|Hl].
    - exists (Z.of_nat (String.length m)), (VStr (str_take 100 m ++ "...")),
        (str_take 100 (str_replace newline " " m) ++ "...").
      split; [reflexivity|].
      replace (Z.of_nat (String.length m) >? 100) with true
        by (symmetry; rewrite Z.gtb_ltb; apply Z.ltb_lt; lia).
      split; [exists (VStr (str_take 100 m)); now split|].
      split; [|reflexivity].
      cbn [replace]. now rewrite str_replace_append, str_replace_take.
    - exists (Z.of_nat (String.length m)), (VStr m),
        (str_replace newline " " m).
      split; [reflexivity|].
      replace (Z.of_nat (String.length m) >? 100) with false
        by (symmetry; rewrite Z.gtb_ltb; apply Z.ltb_ge; lia).
      now repeat split. }
  destruct (dict_lookup d "message") as [v|].
  - destruct v; try discriminate.
    intros H; inversion H; subst; clear H.
    destruct (Hstr s) as (size & cut & shown & H1 & H2 & H3 & H4).
    exists (VStr s), size, cut, shown. subst shown. now repeat split.
  - intros H; inversion H; subst; clear H.
    exists (VStr ""), 0, (VStr ""), "". now repeat split.
Qed.

Lemma bind_lift_inr {A B} (a : A) (k : A -> M B) (t : list event) :
  bind (lift (inr a)) k t = k a t.
Proof. reflexivity. Qed.

Lemma bind_lift_inl {A B} (e : exn) (k : A -> M B) (t : list event) :
  bind (lift (inl e)) k t = (inl e, t).
Proof. reflexivity. Qed.

Lemma bind_ret {A B} (a : A) (k : A -> M B) (t : list event) :
  bind (ret a) k t = k a t.
Proof. reflexivity. Qed.

Lemma bind_bind {A B C} (c : M A) (k : A -> M B) (k' : B -> M C)
  (t : list event) :
  bind (bind c k) k' t = bind c (fun a => bind (k a) k') t.
Proof. unfold bind. destruct (c t) as [[e|a] t']; reflexivity. Qed.

Lemma table_content_typed (monitor_id : value) (d : dict)
  (tags : option (list string)) (message : option string) (t : list event) :
  tags_of d = Some tags -> message_of d = Some message ->
  GetMonitor.table_content monitor_id (VDict d) t
  = (inr (table monitor_id d tags message), t).
Proof.
  intros Ht Hm.
  destruct (tags_steps _ _ Ht)
    as (tv & shown & count & Hg & (head & Hs & Hj) & Hl & Htf).
  destruct (message_steps _ _ Hm)
    as (mv & size & cut & mshown & Hg' & Hl' & Hcut & Hr & Hmf).
  unfold GetMonitor.table_content.
  cbn [get] in Hg, Hg' |- *.
  rewrite !bind_lift_inr.
  injection Hg as ->. injection Hg' as ->.
  rewrite Hs, bind_lift_inr, Hj, bind_lift_inr, Hl, bind_lift_inr.
  rewrite Hl', bind_lift_inr.
  assert (Hc : forall (B : Type) (k : value -> M B),
    bind (if size >? 100
          then bind (lift (slice_to mv 100))
                    (fun prefix => lift (add_str prefix "..."))
          else ret mv) k t = k cut t).
  { intros B k. destruct (size >? 100).
    - destruct Hcut as (prefix & Hp & Ha).
      now rewrite bind_bind, Hp, bind_lift_inr, Ha, bind_lift_inr.
    - now rewrite Hcut, bind_ret. }
  rewrite Hc, Hr, bind_lift_inr. unfold ret.
  rewrite !truthy_or_default, Htf, Hmf, !get_attribute.
  unfold table, table_lines. cbn [unlines str_mul].
  rewrite !append_assoc. reflexivity.
Qed.

Lemma get_run (c : client) (request : CallToolRequest) :
  run (GetMonitor.handle_call c request) =
  match supplied request "monitor_id" with
  | None => (inr (failure "Error: monitor_id is required"), [])
  | Some monitor_id =>
      match fetch_monitor_reply c monitor_id with
      | inl e => GetMonitor.on_exception e [FetchMonitor monitor_id]
      | inr monitor =>
          if eq_str (match argument request "format" with
                     | Some f => f | None => VStr "table" end) "json"
          then (inr (success (Json.dumps monitor)), [FetchMonitor monitor_id])
          else
            match GetMonitor.table_content monitor_id monitor
                    [FetchMonitor monitor_id] with
            | (inr s, t) => (inr (success s), t)
            | (inl e, t) => GetMonitor.on_exception e t
            end
      end
  end.
Proof.
  unfold run, GetMonitor.handle_call, try_except.
  cbv zeta. rewrite arguments_get_none, arguments_get.
  destruct (supplied request "monitor_id") as [id|] eqn:Eid; [|reflexivity].
  rewrite (supplied_not_none _ _ _ Eid).
  unfold fetch_monitor, bind at 1 2, emit, lift at 1. cbn [app].
  destruct (fetch_monitor_reply c id) as [e|monitor]; [reflexivity|].
  destruct (eq_str _ "json"); [reflexivity|].
  unfold bind.
  destruct (GetMonitor.table_content id monitor [FetchMonitor id])
    as [[e|s] t]; reflexivity.
Qed.

(** Neither [except] clause raises for an exception of the [Exception]
    hierarchy: it becomes a failure result that carries the mapped text; at
    most a log line is added. *)
Lemma on_exception_reports (e : exn) (t : list event) :
  is_exception e = true ->
  (exists log, GetMonitor.on_exception e t
               = (inr (failure (error_text e)), (t ++ log)%list)
               /\ network_calls log = [])
  /\ (exists log, MonitorEdit.on_exception e t
                  = (inr (failure (error_text e)), (t ++ log)%list)
                  /\ network_calls log = []).
Proof.
  unfold GetMonitor.on_exception, MonitorEdit.on_exception, error_text.
  destruct e as [m s|cls m|cls m]; cbn [exn_str is_exception];
    [| |discriminate]; intros _.
  - destruct (s =? 404); [split; exists []; now rewrite app_nil_r|].
    destruct (s =? 403); [split; exists []; now rewrite app_nil_r|].
    split; eexists; (split; [reflexivity|reflexivity]).
  - split; eexists; (split; [reflexivity|reflexivity]).
Qed.

(** An exception outside the [Exception] hierarchy goes through both
    [except] clauses untouched. *)
Lemma on_exception_propagates (e : exn) (t : list event) :
  is_exception e = false ->
  GetMonitor.on_exception e t = (inl e, t)
  /\ MonitorEdit.on_exception e t = (inl e, t).
Proof. destruct e; try discriminate. now split. Qed.

(** Whatever the exception, the [except] clauses make no network call. *)
Lemma on_exception_trace (e : exn) (t : list event) :
  (exists log, snd (GetMonitor.on_exception e t) = (t ++ log)%list
               /\ network_calls log = [])
  /\ (exists log, snd (MonitorEdit.on_exception e t) = (t ++ log)%list
                  /\ network_calls log = []).
Proof.
  destruct (is_exception e) eqn:He.
  - destruct (on_exception_reports e t He) as [(l1 & -> & H1) (l2 & -> & H2)].
    split; eexists; (split; [reflexivity|assumption]).
  - destruct (on_exception_propagates e t He) as [-> ->].
    split; exists []; (split; [now rewrite app_nil_r|reflexivity]).
Qed.

Lemma priority_acceptable_not_rejected (request : CallToolRequest) :
  priority_acceptable request = true ->
  MonitorEdit.priority_rejected
    (match supplied request "priority" with Some p => p | None => VNone end)
  = inr false.
Proof.
  unfold priority_acceptable.
  destruct (supplied request "priority") as [p|] eqn:E; [|reflexivity].
  destruct p; try discriminate. intros H.
  apply andb_true_iff in H as [H1 H2].
  apply Z.leb_le in H1. apply Z.leb_le in H2.
  unfold MonitorEdit.priority_rejected; cbn [is_none negb lt_int gt_int].
  replace (z <? 1) with false by (symmetry; apply Z.ltb_ge; lia).
  rewrite Z.gtb_ltb. f_equal. apply Z.ltb_ge; lia.
Qed.

Lemma priority_out_of_range_rejected (z : Z) :
  z < 1 \/ 5 < z -> MonitorEdit.priority_rejected (VInt z) = inr true.
Proof.
  intros H. unfold MonitorEdit.priority_rejected.
  cbn [is_none negb lt_int gt_int].
  destruct (Z.ltb_spec z 1); [reflexivity|].
  rewrite Z.gtb_ltb. f_equal. apply Z.ltb_lt; lia.
Qed.

(** When the priority check lets the request through and the patch is not
    empty, the first thing the edit handler does is the remote call. *)
Lemma edit_reaches_update (c : client) (request : CallToolRequest)
  (monitor_id : value) :
  supplied request "monitor_id" = Some monitor_id ->
  priority_acceptable request = true ->
  patch request <> [] ->
  exists log,
    snd (run (MonitorEdit.handle_call c request))
    = UpdateMonitor monitor_id (patch request) :: log
    /\ network_calls log = [].
Proof.
  intros Hid Hp Hne. rewrite edit_run, Hid.
  rewrite (priority_acceptable_not_rejected _ Hp).
  destruct (patch request) as [|kv kvs] eqn:E; [congruence|].
  destruct (update_monitor_reply c monitor_id (kv :: kvs)) as [e|r].
  - destruct (proj2 (on_exception_trace e
                           [UpdateMonitor monitor_id (kv :: kvs)]))
      as (log & -> & Hlog).
    exists log. now split.
  - exists []. now split.
Qed.

Lemma patch_lookup (request : CallToolRequest) (key : string) (v : value) :
  dict_lookup (patch request) key = Some v
  <-> In key patch_fields /\ supplied request key = Some v.
Proof.
  unfold patch, patch_fields. cbn [flat_map In].
  destruct (supplied request "name") as [n|] eqn:En;
  destruct (supplied request "message") as [m|] eqn:Em;
  destruct (supplied request "tags") as [t|] eqn:Et;
  destruct (supplied request "priority") as [p|] eqn:Ep;
  cbn [app dict_lookup];
  repeat match goal with
  | |- context [String.eqb ?a key] =>
      destruct (String.eqb_spec a key) as [<-|?]
  end;
  split;
  try (intros [[H|[H|[H|[H|[]]]]] H']; subst; congruence);
  try (intros H; inversion H; subst; split; [tauto|congruence]);
  try (intros H; discriminate H).
Qed.

(** ** Network calls of the handlers *)

Lemma network_calls_app (t u : list event) :
  network_calls (t ++ u) = (network_calls t ++ network_calls u)%list.
Proof. apply filter_app. Qed.

Lemma in_network_calls (ev : event) (t : list event) :
  In ev t -> is_network_call ev = true -> In ev (network_calls t).
Proof. intros; apply filter_In; now split. Qed.

(** Rendering the table adds nothing to the trace. *)
Lemma table_content_silent (monitor_id monitor : value) (t : list event) :
  snd (GetMonitor.table_content monitor_id monitor t) = t.
Proof.
  unfold GetMonitor.table_content.
  repeat first
    [ rewrite bind_lift_inr | rewrite bind_ret | rewrite bind_bind
    | match goal with
      | |- context [bind (lift ?o) _ _] =>
          destruct o eqn:?; [rewrite bind_lift_inl|rewrite bind_lift_inr]
      | |- context [if ?b then _ else _] => destruct b
      end ];
  reflexivity.
Qed.

(** What the handlers' own code raises derives from [Exception]: the
    built-ins raise [TypeError] or [AttributeError]. *)
Lemma join_items_raises (sep : string) (xs : list value) (i : nat) (e : exn) :
  join_items sep i xs = inl e -> is_exception e = true.
Proof.
  revert i; induction xs as [|x xs IH]; intros i; cbn [join_items];
    [discriminate|].
  destruct x; try (intros H; inversion H; reflexivity).
  destruct (join_items sep (S i) xs) eqn:E; [|discriminate].
  intros H; inversion H; subst. eapply IH, E.
Qed.

Lemma builtins_raise_exceptions (e : exn) :
  (forall v key default, get v key default = inl e -> is_exception e = true)
  /\ (forall v n, slice_to v n = inl e -> is_exception e = true)
  /\ (forall sep v, join_value sep v = inl e -> is_exception e = true)
  /\ (forall v, len v = inl e -> is_exception e = true)
  /\ (forall v s, add_str v s = inl e -> is_exception e = true)
  /\ (forall v old new, replace v old new = inl e -> is_exception e = true)
  /\ (forall v n, lt_int v n = inl e -> is_exception e = true)
  /\ (forall v n, gt_int v n = inl e -> is_exception e = true).
Proof.
  repeat split.
  - intros [] ? ? H; inversion H; reflexivity.
  - intros [] ? H; inversion H; reflexivity.
  - intros sep [| | | |xs|] H; try (inversion H; reflexivity).
    cbn [join_value] in H.
    destruct (join_items sep 0 xs) eqn:E; [|discriminate].
    inversion H; subst. eapply join_items_raises, E.
  - intros [] H; inversion H; reflexivity.
  - intros [] ? H; inversion H; reflexivity.
  - intros [] ? ? H; inversion H; reflexivity.
  - intros [] ? H; inversion H; reflexivity.
  - intros [] ? H; inversion H; reflexivity.
Qed.

Lemma priority_rejected_raises (priority : value) (e : exn) :
  MonitorEdit.priority_rejected priority = inl e -> is_exception e = true.
Proof.
  destruct (builtins_raise_exceptions e)
    as (_ & _ & _ & _ & _ & _ & Hlt & Hgt).
  unfold MonitorEdit.priority_rejected.
  destruct (negb (is_none priority)); [|discriminate].
  destruct (lt_int priority 1) as [e'|[|]] eqn:E; [|discriminate|].
  - intros H; inversion H; subst. eapply Hlt, E.
  - apply Hgt.
Qed.

Lemma table_content_raises (monitor_id monitor : value) (t : list event)
  (e : exn) :
  fst (GetMonitor.table_content monitor_id monitor t) = inl e ->
  is_exception e = true.
Proof.
  destruct (builtins_raise_exceptions e)
    as (Hget & Hslice & Hjoin & Hlen & Hadd & Hreplace & _ & _).
  unfold GetMonitor.table_content.
  repeat first
    [ rewrite bind_lift_inr | rewrite bind_ret | rewrite bind_bind
    | match goal with
      | |- context [bind (lift ?o) _ _] =>
          destruct o eqn:?; [rewrite bind_lift_inl|rewrite bind_lift_inr]
      | |- context [if ?b then _ else _] => destruct b
      end ];
  cbn [fst]; intros H; inversion H; subst; eauto.
Qed.

(** The fetch handler calls the remote client once, when a monitor
    identifier is supplied, and not at all otherwise. *)
Lemma get_network_calls (c : client) (request : CallToolRequest) :
  network_calls (snd (run (GetMonitor.handle_call c request))) =
  match supplied request "monitor_id" with
  | None => []
  | Some monitor_id => [FetchMonitor monitor_id]
  end.
Proof.
  rewrite get_run.
  destruct (supplied request "monitor_id") as [id|]; [|reflexivity].
  destruct (fetch_monitor_reply c id) as [e|monitor].
  - destruct (proj1 (on_exception_trace e [FetchMonitor id]))
      as (log & -> & Hlog).
    now rewrite network_calls_app, Hlog.
  - destruct (eq_str _ "json"); [reflexivity|].
    pose proof (table_content_silent id monitor [FetchMonitor id]) as Hs.
    destruct (GetMonitor.table_content id monitor [FetchMonitor id])
      as [[e|s] t]; cbn [snd] in Hs; subst t; [|reflexivity].
    destruct (proj1 (on_exception_trace e [FetchMonitor id]))
      as (log & -> & Hlog).
    now rewrite network_calls_app, Hlog.
Qed.

(** The edit handler calls the remote client at most once, with the patch. *)
Lemma edit_network_calls (c : client) (request : CallToolRequest) :
  network_calls (snd (run (MonitorEdit.handle_call c request))) = []
  \/ exists monitor_id,
       supplied request "monitor_id" = Some monitor_id
       /\ network_calls (snd (run (MonitorEdit.handle_call c request)))
          = [UpdateMonitor monitor_id (patch request)].
Proof.
  rewrite edit_run.
  destruct (supplied request "monitor_id") as [id|]; [|now left].
  destruct (MonitorEdit.priority_rejected _) as [e|[|]]; [|now left|].
  - left. destruct (proj2 (on_exception_trace e [])) as (log & -> & Hlog).
    exact Hlog.
  - destruct (patch request) as [|kv kvs]; [now left|].
    right. exists id. split; [reflexivity|].
    destruct (update_monitor_reply c id (kv :: kvs)) as [e|r]; [|reflexivity].
    destruct (proj2 (on_exception_trace e [UpdateMonitor id (kv :: kvs)]))
      as (log & -> & Hlog).
    now rewrite network_calls_app, Hlog.
Qed.

(** ** Error mapping *)

(** What the two [except] clauses make of an exception: the mapped failure
    for one they catch, the exception itself for one they do not. *)
Lemma on_exception_outcome (e : exn) (t : list event) :
  let outcome_of :=
    match e with
    | HTTPStatusError underlying status =>
        inr (failure (if status =? 404 then "Monitor not found"
                      else if status =? 403 then "Permission denied"
                      else "Error: " ++ underlying))
    | PyException _ underlying => inr (failure ("Error: " ++ underlying))
    | PyBaseException _ _ => inl e
    end in
  fst (GetMonitor.on_exception e t) = outcome_of
  /\ fst (MonitorEdit.on_exception e t) = outcome_of.
Proof.
  unfold GetMonitor.on_exception, MonitorEdit.on_exception.
  destruct e as [m s|cls m|cls m]; cbn [exn_str];
    [destruct (s =? 404); [|destruct (s =? 403)]| |]; now split.
Qed.

(** C1, as the code has it.  Take a request with a monitor identifier.
    When [fetch_monitor] raises, the fetch handler has made that one remote
    call, and when [update_monitor] raises on a request that passes the
    priority check with a patch that is not empty, the edit handler has made
    that one remote call; in both, what the handler does depends on the
    exception only.  For an HTTP status error the handler returns a result
    with the error flag set whose text is "Monitor not found" for status
    404, "Permission denied" for status 403 and "Error: " followed by the
    underlying message for every other status; for every other exception
    that derives from [Exception] it returns a result with the error flag
    set and the text "Error: " followed by the underlying message; an
    exception that does not derive from [Exception] is not caught: the
    handler raises it and returns nothing. *)
Theorem remote_failure_is_reported
  (c : client) (request : CallToolRequest) (monitor_id : value) (e : exn) :
  supplied request "monitor_id" = Some monitor_id ->
  (fetch_monitor_reply c monitor_id = inl e ->
   network_calls (snd (run (GetMonitor.handle_call c request)))
   = [FetchMonitor monitor_id]
   /\ fst (run (GetMonitor.handle_call c request)) =
      match e with
      | HTTPStatusError underlying status =>
          inr (text_result
                 (if status =? 404 then "Monitor not found"
                  else if status =? 403 then "Permission denied"
                  else "Error: " ++ underlying) true)
      | PyException _ underlying =>
          inr (text_result ("Error: " ++ underlying) true)
      | PyBaseException _ _ => inl e
      end)
  /\ (priority_acceptable request = true ->
      patch request <> [] ->
      update_monitor_reply c monitor_id (patch request) = inl e ->
      network_calls (snd (run (MonitorEdit.handle_call c request)))
      = [UpdateMonitor monitor_id (patch request)]
      /\ fst (run (MonitorEdit.handle_call c request)) =
         match e with
         | HTTPStatusError underlying status =>
             inr (text_result
                    (if status =? 404 then "Monitor not found"
                     else if status =? 403 then "Permission denied"
                     else "Error: " ++ underlying) true)
         | PyException _ underlying =>
             inr (text_result ("Error: " ++ underlying) true)
         | PyBaseException _ _ => inl e
         end).
Proof.
  intros Hid. split.
  - intros He. split.
    + now rewrite get_network_calls, Hid.
    + rewrite get_run, Hid, He.
      exact (proj1 (on_exception_outcome e [FetchMonitor monitor_id])).
  - intros Hp Hne He. split.
    + destruct (edit_reaches_update c request monitor_id Hid Hp Hne)
        as (log & -> & Hlog).
      cbn [network_calls filter is_network_call].
      fold (network_calls log). now rewrite Hlog.
    + rewrite edit_run, Hid, (priority_acceptable_not_rejected _ Hp).
      destruct (patch request) as [|kv kvs] eqn:E; [congruence|].
      rewrite He.
      exact (proj2 (on_exception_outcome e
                      [UpdateMonitor monitor_id (kv :: kvs)])).
Qed.

Lemma remote_failure_is_reported_witness :
  let e := HTTPStatusError "Client error '404 Not Found'" 404 in
  let c := Samples.answering (inl e) in
  let request := Samples.request_of [("monitor_id", VInt 99999999);
                                     ("name", VStr "New Name")] in
  supplied request "monitor_id" = Some (VInt 99999999)
  /\ fetch_monitor_reply c (VInt 99999999) = inl e
  /\ priority_acceptable request = true
  /\ patch request = [("name", VStr "New Name")]
  /\ update_monitor_reply c (VInt 99999999) (patch request) = inl e
  /\ (network_calls (snd (run (GetMonitor.handle_call c request)))
      = [FetchMonitor (VInt 99999999)]
      /\ fst (run (GetMonitor.handle_call c request))
         = inr (text_result "Monitor not found" true))
  /\ (network_calls (snd (run (MonitorEdit.handle_call c request)))
      = [UpdateMonitor (VInt 99999999) [("name", VStr "New Name")]]
      /\ fst (run (MonitorEdit.handle_call c request))
         = inr (text_result "Monitor not found" true)).
Proof.
  intros e c request.
  split; [reflexivity|]. split; [reflexivity|]. split; [reflexivity|].
  split; [reflexivity|]. split; [reflexivity|].
  destruct (remote_failure_is_reported c request (VInt 99999999) e eq_refl)
    as [Hget Hedit].
  split.
  - exact (Hget eq_refl).
  - apply Hedit; [reflexivity|discriminate|reflexivity].
Defined.

(** The handler does not always return: when the awaited remote call is
    cancelled, [asyncio.CancelledError], which does not derive from
    [Exception], passes both [except] clauses and leaves the handler. *)
Lemma cancelled_call_leaves_the_handler_counterexample :
  let e := PyBaseException "CancelledError" "" in
  let c := Samples.answering (inl e) in
  let request := Samples.request_of [("monitor_id", VInt 12345);
                                     ("name", VStr "New Name")] in
  is_exception e = false
  /\ run (GetMonitor.handle_call c request)
     = (inl e, [FetchMonitor (VInt 12345)])
  /\ run (MonitorEdit.handle_call c request)
     = (inl e, [UpdateMonitor (VInt 12345) [("name", VStr "New Name")]])
  /\ (forall result,
        fst (run (GetMonitor.handle_call c request)) <> inr result)
  /\ (forall result,
        fst (run (MonitorEdit.handle_call c request)) <> inr result).
Proof.
  intros e c request.
  split; [reflexivity|]. split; [reflexivity|]. split; [reflexivity|].
  split; intros result H; discriminate H.
Qed.

(** ** Validation *)

(** C2, as the code has it.  For a request to either tool whose arguments
    lack [monitor_id] or bind it to null (a request without an arguments map
    included), whatever else is supplied, the handler returns a failure
    result whose text is "Error: monitor_id is required", and the trace is
    empty: neither [fetch_monitor] nor [update_monitor] is called. *)
Theorem missing_monitor_id_is_rejected
  (handle_call : client -> CallToolRequest -> M CallToolResult)
  (c : client) (request : CallToolRequest) :
  In handle_call handlers ->
  argument request "monitor_id" = None
  \/ argument request "monitor_id" = Some VNone ->
  run (handle_call c request)
  = (inr (failure "Error: monitor_id is required"), []).
Proof.
  intros Hh Hmissing.
  assert (Hs : supplied request "monitor_id" = None)
    by (unfold supplied; now destruct Hmissing as [-> | ->]).
  destruct Hh as [<-|[<-|[]]].
  - now rewrite get_run, Hs.
  - now rewrite edit_run, Hs.
Qed.

Lemma missing_monitor_id_is_rejected_witness :
  let request := Samples.request_of [("name", VStr "New Name");
                                     ("monitor_id", VNone)] in
  (argument request "monitor_id" = None
   \/ argument request "monitor_id" = Some VNone)
  /\ run (MonitorEdit.handle_call (Samples.answering (inr VNone)) request)
     = (inr (failure "Error: monitor_id is required"), []).
Proof.
  intros request.
  assert (H : argument request "monitor_id" = None
              \/ argument request "monitor_id" = Some VNone)
    by (right; reflexivity).
  split; [exact H|].
  apply (missing_monitor_id_is_rejected MonitorEdit.handle_call
           (Samples.answering (inr VNone)) request); [|exact H].
  right; left; reflexivity.
Defined.

(** The text of the result is not the bare "monitor_id is required": for a
    request without arguments the fetch handler answers
    "Error: monitor_id is required". *)
Lemma missing_monitor_id_text_counterexample :
  let request := {| arguments := None |} in
  argument request "monitor_id" = None
  /\ exists result,
       fst (run (GetMonitor.handle_call (Samples.answering (inr VNone))
                   request)) = inr result
       /\ isError result = true
       /\ result_text result = "Error: monitor_id is required"
       /\ result_text result <> "monitor_id is required".
Proof.
  split; [reflexivity|].
  exists (failure "Error: monitor_id is required").
  repeat split. discriminate.
Qed.

(** C3, as the code has it.  For a [monitor_edit] request with a non-null
    [monitor_id]: the update patch holds exactly the supplied, non-null
    fields among name, message, tags and priority; when the patch is empty
    the handler returns the failure "At least one field to update is
    required" and calls nothing; and when the priority is absent, null or an
    integer of 1..5, a non-empty patch (an empty string for [name] or an
    empty sequence for [tags] makes it so) is sent with [update_monitor],
    carrying that value. *)
Theorem patch_holds_the_supplied_fields
  (c : client) (request : CallToolRequest) (monitor_id : value) :
  supplied request "monitor_id" = Some monitor_id ->
  let args := arguments_or_empty request in
  let updates :=
    MonitorEdit.build_updates
      (dict_get args "name" VNone) (dict_get args "message" VNone)
      (dict_get args "tags" VNone) (dict_get args "priority" VNone) in
  (forall key v,
      dict_lookup updates key = Some v
      <-> In key patch_fields
          /\ (exists w, argument request key = Some w /\ w <> VNone /\ v = w))
  /\ (updates = [] ->
      run (MonitorEdit.handle_call c request)
      = (inr (failure "At least one field to update is required"), []))
  /\ (priority_acceptable request = true ->
      (updates <> [] ->
       exists log,
         snd (run (MonitorEdit.handle_call c request))
         = UpdateMonitor monitor_id updates :: log)
      /\ (argument request "name" = Some (VStr "") ->
          updates <> [] /\ dict_lookup updates "name" = Some (VStr ""))
      /\ (argument request "tags" = Some (VList []) ->
          updates <> [] /\ dict_lookup updates "tags" = Some (VList []))).
Proof.
  intros Hid args updates.
  assert (Hu : updates = patch request) by apply build_updates_patch.
  clearbody updates. subst updates.
  assert (Hsup : forall key v,
             supplied request key = Some v
             <-> exists w, argument request key = Some w /\ w <> VNone /\ v = w).
  { intros key v. unfold supplied.
    destruct (argument request key) as [w|].
    - destruct w; split;
        try (intros H; inversion H; subst; eexists; repeat split; congruence);
        try (intros (w & H & Hw & ->); inversion H; subst; congruence).
    - split; [discriminate|]. intros (w & H & _); discriminate. }
  assert (Hfield : forall key v,
             In key patch_fields -> argument request key = Some v ->
             v <> VNone ->
             patch request <> [] /\ dict_lookup (patch request) key = Some v).
  { intros key v Hk Ha Hv.
    assert (Hl : dict_lookup (patch request) key = Some v).
    { apply patch_lookup. split; [exact Hk|]. apply Hsup. now exists v. }
    split; [|exact Hl]. intros E. rewrite E in Hl. discriminate. }
  split; [|split].
  - intros key v. rewrite patch_lookup. now rewrite Hsup.
  - intros E. rewrite edit_run, Hid.
    assert (Hp : supplied request "priority" = None).
    { destruct (supplied request "priority") as [p|] eqn:Ep; [|reflexivity].
      assert (Hl : dict_lookup (patch request) "priority" = Some p).
      { apply patch_lookup. split; [|exact Ep]. cbn; tauto. }
      rewrite E in Hl. discriminate. }
    rewrite Hp, E. reflexivity.
  - intros Hp. split; [|split].
    + intros Hne.
      destruct (edit_reaches_update c request monitor_id Hid Hp Hne)
        as (log & Hlog & _).
      now exists log.
    + intros Hn. apply Hfield; [cbn; tauto|exact Hn|discriminate].
    + intros Ht. apply Hfield; [cbn; tauto|exact Ht|discriminate].
Qed.

Lemma patch_holds_the_supplied_fields_witness :
  let c := Samples.answering (inr VNone) in
  let request := Samples.request_of [("monitor_id", VInt 12345);
                                     ("name", VStr "")] in
  supplied request "monitor_id" = Some (VInt 12345)
  /\ priority_acceptable request = true
  /\ argument request "name" = Some (VStr "")
  /\ exists log,
       snd (run (MonitorEdit.handle_call c request))
       = UpdateMonitor (VInt 12345) [("name", VStr "")] :: log.
Proof.
  intros c request.
  split; [reflexivity|]. split; [reflexivity|]. split; [reflexivity|].
  destruct (patch_holds_the_supplied_fields c request (VInt 12345) eq_refl)
    as (_ & _ & H).
  destruct (H eq_refl) as (Hcall & Hname & _).
  destruct (Hname eq_refl) as (Hne & _).
  destruct (Hcall Hne) as (log & Hlog).
  exists log. exact Hlog.
Defined.

(** An empty name does not take the request to [update_monitor] when the
    priority is out of range: the priority check answers first. *)
Lemma empty_name_with_bad_priority_counterexample :
  let request := Samples.request_of [("monitor_id", VInt 12345);
                                     ("name", VStr "");
                                     ("priority", VInt 0)] in
  supplied request "monitor_id" = Some (VInt 12345)
  /\ argument request "name" = Some (VStr "")
  /\ run (MonitorEdit.handle_call (Samples.answering (inr VNone)) request)
     = (inr (failure "Invalid priority: must be 1-5"), []).
Proof. repeat split. Qed.

(** C4.  For a [monitor_edit] request with a non-null [monitor_id] and an
    integer priority: outside the closed range 1..5 the handler returns the
    failure "Invalid priority: must be 1-5" and calls nothing, whatever the
    other fields are (so also when the priority is the only field supplied:
    the answer is not the at-least-one-field failure); inside the range the
    check lets the request through, and the handler goes on to call
    [update_monitor] with a patch that holds the priority. *)
Theorem priority_is_checked_first
  (c : client) (request : CallToolRequest) (monitor_id : value) (z : Z) :
  supplied request "monitor_id" = Some monitor_id ->
  argument request "priority" = Some (VInt z) ->
  (z < 1 \/ 5 < z ->
   run (MonitorEdit.handle_call c request)
   = (inr (failure "Invalid priority: must be 1-5"), []))
  /\ (1 <= z <= 5 ->
      MonitorEdit.priority_rejected (VInt z) = inr false
      /\ dict_lookup (patch request) "priority" = Some (VInt z)
      /\ exists log,
           snd (run (MonitorEdit.handle_call c request))
           = UpdateMonitor monitor_id (patch request) :: log).
Proof.
  intros Hid Hp.
  assert (Hs : supplied request "priority" = Some (VInt z))
    by (unfold supplied; now rewrite Hp).
  split.
  - intros Hz. rewrite edit_run, Hid, Hs.
    now rewrite (priority_out_of_range_rejected z Hz).
  - intros Hz.
    assert (Hacc : priority_acceptable request = true).
    { unfold priority_acceptable. rewrite Hs.
      apply andb_true_iff; split; apply Z.leb_le; lia. }
    assert (Hl : dict_lookup (patch request) "priority" = Some (VInt z)).
    { apply patch_lookup. split; [cbn; tauto|exact Hs]. }
    split; [|split; [exact Hl|]].
    + pose proof (priority_acceptable_not_rejected request Hacc) as H.
      now rewrite Hs in H.
    + assert (Hne : patch request <> [])
        by (intros E; rewrite E in Hl; discriminate).
      destruct (edit_reaches_update c request monitor_id Hid Hacc Hne)
        as (log & Hlog & _).
      now exists log.
Qed.

Lemma priority_is_checked_first_witness :
  let c := Samples.answering (inr VNone) in
  let request := Samples.request_of [("monitor_id", VInt 12345);
                                     ("priority", VInt 6)] in
  supplied request "monitor_id" = Some (VInt 12345)
  /\ argument request "priority" = Some (VInt 6)
  /\ (6 < 1 \/ 5 < 6)
  /\ run (MonitorEdit.handle_call c request)
     = (inr (failure "Invalid priority: must be 1-5"), []).
Proof.
  intros c request.
  assert (Hz : 6 < 1 \/ 5 < 6) by (right; lia).
  split; [reflexivity|]. split; [reflexivity|]. split; [exact Hz|].
  exact (proj1 (priority_is_checked_first c request (VInt 12345) 6
                  eq_refl eq_refl) Hz).
Defined.

(** ** Output of the edit handler *)

(** C7.  For a [monitor_edit] request that passes the validation and whose
    [update_monitor] call returns, the handler's result has the text
    "Monitor <monitor_id> updated successfully", with the request's
    [monitor_id] in it, and the error flag is false; the one remote call
    made is that [update_monitor]. *)
Theorem edit_success_output
  (c : client) (request : CallToolRequest) (monitor_id reply : value) :
  supplied request "monitor_id" = Some monitor_id ->
  passes_validation request = true ->
  update_monitor_reply c monitor_id (patch request) = inr reply ->
  run (MonitorEdit.handle_call c request)
  = ( inr {| content :=
               [ {| type := "text";
                    text := "Monitor " ++ str monitor_id
                              ++ " updated successfully" |} ];
             isError := false |},
      [UpdateMonitor monitor_id (patch request)] ).
Proof.
  intros Hid Hv Hr. unfold passes_validation in Hv. rewrite Hid in Hv.
  apply andb_true_iff in Hv as [Hacc Hne].
  rewrite edit_run, Hid, (priority_acceptable_not_rejected _ Hacc).
  destruct (patch request) as [|kv kvs]; [discriminate|].
  now rewrite Hr.
Qed.

Lemma edit_success_output_witness :
  let c := Samples.answering (inr (VDict Samples.cpu_monitor)) in
  let request := Samples.request_of [("monitor_id", VInt 12345);
                                     ("priority", VInt 1)] in
  run (MonitorEdit.handle_call c request)
  = ( inr {| content :=
               [ {| type := "text";
                    text := "Monitor 12345 updated successfully" |} ];
             isError := false |},
      [UpdateMonitor (VInt 12345) [("priority", VInt 1)]] ).
Proof.
  intros c request.
  exact (edit_success_output c request (VInt 12345)
           (VDict Samples.cpu_monitor) eq_refl eq_refl eq_refl).
Defined.

(** ** Output of the fetch handler *)

Lemma format_not_json (request : CallToolRequest) :
  argument request "format" <> Some (VStr "json") ->
  eq_str (match argument request "format" with
          | Some f => f | None => VStr "table" end) "json" = false.
Proof.
  intros H. destruct (argument request "format") as [f|]; [|reflexivity].
  destruct f; try reflexivity. cbn [eq_str].
  destruct (String.eqb_spec s "json"); [subst; congruence|reflexivity].
Qed.

Lemma get_run_table (c : client) (request : CallToolRequest)
  (monitor_id : value) (d : dict)
  (tags : option (list string)) (message : option string) :
  supplied request "monitor_id" = Some monitor_id ->
  argument request "format" <> Some (VStr "json") ->
  fetch_monitor_reply c monitor_id = inr (VDict d) ->
  tags_of d = Some tags ->
  message_of d = Some message ->
  run (GetMonitor.handle_call c request)
  = (inr (success (table monitor_id d tags message)),
     [FetchMonitor monitor_id]).
Proof.
  intros Hid Hf Hr Ht Hm.
  rewrite get_run, Hid, Hr, (format_not_json _ Hf).
  now rewrite (table_content_typed monitor_id d tags message _ Ht Hm).
Qed.

Lemma or_default_nonempty (a b default : string) :
  b <> "" -> or_default (a ++ b) default = a ++ b.
Proof.
  intros Hb. unfold or_default.
  destruct (String.eqb_spec (a ++ b) ""); [|reflexivity].
  destruct a; [contradiction|discriminate].
Qed.

(** C5.  For a [get_monitor] call that is not in json format and whose
    fetch returns a record with tags (when there) a sequence of strings and
    message (when there) a string, the result is a success whose text is the
    block "Monitor Details", a rule of fifteen "=", an empty line and the
    lines ID, Name, Type, State, Priority, Tags, Query, Message in that
    order, each ended by a newline; an absent attribute shows its default
    (Unnamed, unknown, unknown, N/A, None, N/A, None); the Tags line shows
    the first five tags joined by ", ", followed by " (+<count-5> more)"
    when the record has more than five tags, so " (+2 more)" for seven. *)
Theorem table_output
  (c : client) (request : CallToolRequest) (monitor_id : value) (d : dict)
  (tags : option (list string)) (message : option string) :
  supplied request "monitor_id" = Some monitor_id ->
  argument request "format" <> Some (VStr "json") ->
  fetch_monitor_reply c monitor_id = inr (VDict d) ->
  tags_of d = Some tags ->
  message_of d = Some message ->
  let shown key default :=
    match dict_lookup d key with Some v => str v | None => default end in
  run (GetMonitor.handle_call c request)
  = (inr (success
            (unlines
               [ "Monitor Details";
                 "===============";
                 "";
                 "ID:       " ++ str monitor_id;
                 "Name:     " ++ shown "name" "Unnamed";
                 "Type:     " ++ shown "type" "unknown";
                 "State:    " ++ shown "overall_state" "unknown";
                 "Priority: " ++ shown "priority" "N/A";
                 "Tags:     " ++ tags_field tags;
                 "Query:    " ++ shown "query" "N/A";
                 "Message:  " ++ message_field message ])),
     [FetchMonitor monitor_id])
  /\ (tags = None -> tags_field tags = "None")
  /\ (message = None -> message_field message = "None")
  /\ (forall ts, tags = Some ts -> (List.length ts <= 5)%nat -> ts <> [""] ->
      ts <> [] -> tags_field tags = join ", " ts)
  /\ (forall ts, tags = Some ts -> (5 < List.length ts)%nat ->
      tags_field tags
      = join ", " (firstn 5 ts)
          ++ " (+" ++ str_of_int (Z.of_nat (List.length ts) - 5) ++ " more)")
  /\ (forall ts, tags = Some ts -> List.length ts = 7%nat ->
      tags_field tags = join ", " (firstn 5 ts) ++ " (+2 more)").
Proof.
  intros Hid Hf Hr Ht Hm shown.
  split; [exact (get_run_table c request monitor_id d tags message
                   Hid Hf Hr Ht Hm)|].
  assert (Hmore : forall ts, (5 < List.length ts)%nat ->
            tags_field (Some ts)
            = join ", " (firstn 5 ts)
                ++ " (+" ++ str_of_int (Z.of_nat (List.length ts) - 5)
                ++ " more)").
  { intros ts Hl. unfold tags_field.
    replace (5 <? List.length ts)%nat with true
      by (symmetry; now apply Nat.ltb_lt).
    rewrite or_default_nonempty by discriminate.
    now replace (Z.of_nat (List.length ts - 5))
      with (Z.of_nat (List.length ts) - 5) by lia. }
  split; [now intros ->|]. split; [now intros ->|]. split; [|split].
  - intros ts -> Hl Hne1 Hne0. unfold tags_field.
    replace (5 <? List.length ts)%nat with false
      by (symmetry; now apply Nat.ltb_ge).
    rewrite append_nil_r, firstn_all2 by exact Hl.
    unfold or_default.
    destruct (String.eqb_spec (join ", " ts) "") as [E|]; [|reflexivity].
    exfalso. destruct ts as [|a [|b ts]]; [congruence| |].
    + cbn in E. subst a. congruence.
    + cbn in E. destruct a; discriminate.
  - intros ts -> Hl. now apply Hmore.
  - intros ts -> Hl. rewrite Hmore by lia. now rewrite Hl.
Qed.

Lemma table_output_witness :
  let c := Samples.answering (inr (VDict Samples.cpu_monitor)) in
  let request := Samples.request_of [("monitor_id", VInt 12345);
                                     ("format", VStr "table")] in
  run (GetMonitor.handle_call c request)
  = (inr (success
            (unlines
               [ "Monitor Details";
                 "===============";
                 "";
                 "ID:       12345";
                 "Name:     CPU High Alert";
                 "Type:     metric alert";
                 "State:    OK";
                 "Priority: 2";
                 "Tags:     env:prod, team:backend";
                 "Query:    avg(last_5m):avg:system.cpu.user{*} > 90";
                 "Message:  CPU usage is too high" ])),
     [FetchMonitor (VInt 12345)]).
Proof.
  intros c request.
  assert (Hf : argument request "format" <> Some (VStr "json"))
    by discriminate.
  exact (proj1 (table_output c request (VInt 12345) Samples.cpu_monitor
                  (Some ["env:prod"; "team:backend"])
                  (Some "CPU usage is too high")
                  eq_refl Hf eq_refl eq_refl eq_refl)).
Defined.

Lemma unlines_app (ls ls' : list string) :
  unlines (ls ++ ls') = unlines ls ++ unlines ls'.
Proof.
  induction ls as [|l ls IH]; simpl; [reflexivity|].
  now rewrite IH, !append_assoc.
Qed.

Lemma message_shown_no_newline (m : string) :
  str_contains newline (message_shown m) = false.
Proof.
  assert (Hc : str_contains newline (str_replace newline " " m) = false)
    by (apply str_replace_absent; discriminate).
  unfold message_shown. destruct (100 <? String.length m)%nat; [|exact Hc].
  rewrite str_contains_append, (str_contains_take _ _ _ Hc). reflexivity.
Qed.

Lemma message_shown_empty (m : string) : message_shown m = "" -> m = "".
Proof.
  unfold message_shown.
  destruct (100 <? String.length m)%nat.
  - intros H. apply (f_equal String.length) in H.
    rewrite length_append in H. cbn in H. lia.
  - destruct m; [reflexivity|discriminate].
Qed.

(** C6.  In the table format, for a record whose message is a string, the
    Message line (the last one) shows the message with every newline
    replaced by a space, cut to its first hundred characters and followed
    by "..." when the message is longer than a hundred characters (so a
    message of 200 characters shows a prefix of 100 characters and "...");
    the line holds no newline character; an empty message shows the
    default "None". *)
Theorem message_line_rendering
  (c : client) (request : CallToolRequest) (monitor_id : value) (d : dict)
  (tags : option (list string)) (m : string) :
  supplied request "monitor_id" = Some monitor_id ->
  argument request "format" <> Some (VStr "json") ->
  fetch_monitor_reply c monitor_id = inr (VDict d) ->
  tags_of d = Some tags ->
  dict_lookup d "message" = Some (VStr m) ->
  let collapsed := str_replace newline " " m in
  let shown :=
    if (100 <? String.length m)%nat then str_take 100 collapsed ++ "..."
    else collapsed in
  let line := "Message:  " ++ (if String.eqb m "" then "None" else shown) in
  (exists before,
      List.length before = 10%nat
      /\ fst (run (GetMonitor.handle_call c request))
         = inr (success (unlines before ++ line ++ nl)))
  /\ str_contains newline line = false
  /\ (String.length m = 200%nat ->
      String.length (str_take 100 collapsed) = 100%nat
      /\ line = "Message:  " ++ str_take 100 collapsed ++ "...").
Proof.
  intros Hid Hf Hr Ht Hm collapsed shown line.
  assert (Hmo : message_of d = Some (Some m))
    by (unfold message_of; now rewrite Hm).
  assert (Hshown : shown = message_shown m) by reflexivity.
  assert (Hline : line = "Message:  " ++ message_field (Some m)).
  { unfold line, message_field, or_default. f_equal. rewrite Hshown.
    destruct (String.eqb_spec m "") as [->|Hne]; [reflexivity|].
    destruct (String.eqb_spec (message_shown m) "") as [E|]; [|reflexivity].
    now apply message_shown_empty in E. }
  split; [|split].
  - exists (firstn 10 (table_lines monitor_id d tags (Some m))).
    split; [reflexivity|].
    rewrite (get_run_table c request monitor_id d tags (Some m)
               Hid Hf Hr Ht Hmo).
    cbn [fst]. unfold table. rewrite Hline.
    change (table_lines monitor_id d tags (Some m))
      with (firstn 10 (table_lines monitor_id d tags (Some m))
              ++ [("Message:  " ++ message_field (Some m))%string])%list at 1.
    rewrite unlines_app. cbn [unlines].
    now rewrite append_nil_r, !append_assoc.
  - unfold line. rewrite str_contains_append.
    destruct (String.eqb m ""); [reflexivity|].
    rewrite Hshown, message_shown_no_newline. reflexivity.
  - intros Hl. split.
    + rewrite str_take_length. unfold collapsed.
      rewrite str_replace_length, Hl. reflexivity.
    + unfold line, shown. rewrite Hl. cbn [Nat.ltb Nat.leb].
      destruct (String.eqb_spec m "") as [->|]; [discriminate|reflexivity].
Qed.

Lemma message_line_rendering_witness :
  let m := "Memory usage critical!" ++ nl ++ "@slack-alerts" in
  let d := [("name", VStr "Memory Usage Alert"); ("message", VStr m)] in
  let c := Samples.answering (inr (VDict d)) in
  let request := Samples.request_of [("monitor_id", VInt 99999)] in
  exists before,
    List.length before = 10%nat
    /\ fst (run (GetMonitor.handle_call c request))
       = inr (success
                (unlines before
                   ++ "Message:  Memory usage critical! @slack-alerts" ++ nl)).
Proof.
  intros m d c request.
  assert (Hf : argument request "format" <> Some (VStr "json"))
    by discriminate.
  exact (proj1 (message_line_rendering c request (VInt 99999) d None m
                  eq_refl Hf eq_refl eq_refl eq_refl)).
Defined.

(** ** The format argument *)

Lemma lookup_without_key (key key' : string) (d : dict) :
  dict_lookup (without_key key d) key'
  = if String.eqb key key' then None else dict_lookup d key'.
Proof.
  induction d as [|[k v] d IH]; simpl.
  - now destruct (String.eqb key key').
  - destruct (String.eqb_spec k key) as [->|Hk].
    + rewrite IH. destruct (String.eqb_spec key key'); reflexivity.
    + simpl. rewrite IH.
      destruct (String.eqb_spec k key') as [->|Hk'].
      * destruct (String.eqb_spec key key'); [congruence|reflexivity].
      * reflexivity.
Qed.

Lemma argument_without (key key' : string) (request : CallToolRequest) :
  argument (without_argument key request) key'
  = if String.eqb key key' then None else argument request key'.
Proof.
  unfold argument, without_argument. cbn [arguments].
  destruct (arguments request) as [d|]; cbn [option_map].
  - apply lookup_without_key.
  - now destruct (String.eqb key key').
Qed.

(** C9.  Take a [get_monitor] request whose format argument is anything
    but the string "json": a value outside the declared enumeration, another
    type, null.  The handler takes the table branch: with a monitor
    identifier and a fetched record, what it returns is what the table
    rendering of that record gives, and for a record with tags (when there)
    a sequence of strings and message (when there) a string that is a
    success whose text is the block "Monitor Details" with the lines ID,
    Name, Type, State, Priority, Tags, Query, Message.  The request is
    handled exactly as the same request without a format argument, same
    result and same trace; so none is rejected because of its format
    value. *)
Theorem format_other_than_json_is_table
  (c : client) (request : CallToolRequest) :
  argument request "format" <> Some (VStr "json") ->
  run (GetMonitor.handle_call c request)
  = run (GetMonitor.handle_call c (without_argument "format" request))
  /\ (forall monitor_id monitor,
        supplied request "monitor_id" = Some monitor_id ->
        fetch_monitor_reply c monitor_id = inr monitor ->
        run (GetMonitor.handle_call c request)
        = match GetMonitor.table_content monitor_id monitor
                  [FetchMonitor monitor_id] with
          | (inr content, t) => (inr (text_result content false), t)
          | (inl e, t) => GetMonitor.on_exception e t
          end)
  /\ (forall monitor_id d tags message,
        supplied request "monitor_id" = Some monitor_id ->
        fetch_monitor_reply c monitor_id = inr (VDict d) ->
        tags_of d = Some tags ->
        message_of d = Some message ->
        let shown key default :=
          match dict_lookup d key with Some v => str v | None => default end in
        run (GetMonitor.handle_call c request)
        = (inr (text_result
                  (unlines
                     [ "Monitor Details";
                       "===============";
                       "";
                       "ID:       " ++ str monitor_id;
                       "Name:     " ++ shown "name" "Unnamed";
                       "Type:     " ++ shown "type" "unknown";
                       "State:    " ++ shown "overall_state" "unknown";
                       "Priority: " ++ shown "priority" "N/A";
                       "Tags:     " ++ tags_field tags;
                       "Query:    " ++ shown "query" "N/A";
                       "Message:  " ++ message_field message ])
                  false),
           [FetchMonitor monitor_id])).
Proof.
  intros Hf. split; [|split].
  - rewrite !get_run.
    unfold supplied. rewrite !argument_without.
    cbn [String.eqb Ascii.eqb Bool.eqb].
    rewrite (format_not_json _ Hf). cbn [eq_str String.eqb Ascii.eqb Bool.eqb].
    reflexivity.
  - intros monitor_id monitor Hid Hr.
    now rewrite get_run, Hid, Hr, (format_not_json _ Hf).
  - intros monitor_id d tags message Hid Hr Ht Hm shown.
    exact (get_run_table c request monitor_id d tags message
             Hid Hf Hr Ht Hm).
Qed.

Lemma format_other_than_json_is_table_witness :
  let c := Samples.answering (inr (VDict Samples.cpu_monitor)) in
  let request := Samples.request_of [("monitor_id", VInt 12345);
                                     ("format", VStr "yaml")] in
  ~ In "yaml" GetMonitor.format_enum
  /\ argument request "format" <> Some (VStr "json")
  /\ run (GetMonitor.handle_call c request)
     = run (GetMonitor.handle_call c
              (Samples.request_of [("monitor_id", VInt 12345)]))
  /\ run (GetMonitor.handle_call c request)
     = (inr (text_result
               (unlines
                  [ "Monitor Details";
                    "===============";
                    "";
                    "ID:       12345";
                    "Name:     CPU High Alert";
                    "Type:     metric alert";
                    "State:    OK";
                    "Priority: 2";
                    "Tags:     env:prod, team:backend";
                    "Query:    avg(last_5m):avg:system.cpu.user{*} > 90";
                    "Message:  CPU usage is too high" ])
               false),
        [FetchMonitor (VInt 12345)]).
Proof.
  intros c request.
  assert (Hf : argument request "format" <> Some (VStr "json"))
    by discriminate.
  split; [intros [H|[H|[]]]; discriminate H|].
  split; [exact Hf|].
  destruct (format_other_than_json_is_table c request Hf)
    as (Hdefault & _ & Htable).
  split; [exact Hdefault|].
  exact (Htable (VInt 12345) Samples.cpu_monitor
           (Some ["env:prod"; "team:backend"])
           (Some "CPU usage is too high")
           eq_refl eq_refl eq_refl eq_refl).
Defined.

(** C10.  In the table format the default "N/A" of the Priority line stands
    for an absent [priority] key only: for a record in which the key is
    present with a null value, the eighth line of the output is
    "Priority: None", the null as Python writes it. *)
Theorem null_priority_is_shown_as_None
  (c : client) (request : CallToolRequest) (monitor_id : value) (d : dict)
  (tags : option (list string)) (message : option string) :
  supplied request "monitor_id" = Some monitor_id ->
  argument request "format" <> Some (VStr "json") ->
  fetch_monitor_reply c monitor_id = inr (VDict d) ->
  tags_of d = Some tags ->
  message_of d = Some message ->
  dict_lookup d "priority" = Some VNone ->
  exists before after,
    List.length before = 7%nat
    /\ fst (run (GetMonitor.handle_call c request))
       = inr (success (unlines before
                         ++ "Priority: None" ++ nl ++ unlines after))
    /\ "Priority: None" <> "Priority: N/A".
Proof.
  intros Hid Hf Hr Ht Hm Hp.
  exists (firstn 7 (table_lines monitor_id d tags message)),
         (skipn 8 (table_lines monitor_id d tags message)).
  split; [reflexivity|]. split; [|discriminate].
  rewrite (get_run_table c request monitor_id d tags message
             Hid Hf Hr Ht Hm).
  cbn [fst]. unfold table.
  change (table_lines monitor_id d tags message)
    with (firstn 7 (table_lines monitor_id d tags message)
            ++ ("Priority: " ++ attribute d "priority" "N/A")%string
            :: skipn 8 (table_lines monitor_id d tags message))%list at 1.
  rewrite unlines_app. cbn [unlines].
  unfold attribute. rewrite Hp. cbn [str repr].
  now rewrite !append_assoc.
Qed.

Lemma null_priority_is_shown_as_None_witness :
  let d := [("id", VInt 12345); ("name", VStr "Test Monitor");
            ("priority", VNone); ("message", VStr ""); ("tags", VList [])] in
  let c := Samples.answering (inr (VDict d)) in
  let request := Samples.request_of [("monitor_id", VInt 12345)] in
  exists before after,
    List.length before = 7%nat
    /\ fst (run (GetMonitor.handle_call c request))
       = inr (success (unlines before
                         ++ "Priority: None" ++ nl ++ unlines after))
    /\ "Priority: None" <> "Priority: N/A".
Proof.
  intros d c request.
  assert (Hf : argument request "format" <> Some (VStr "json"))
    by discriminate.
  exact (null_priority_is_shown_as_None c request (VInt 12345) d
           (Some []) (Some "") eq_refl Hf eq_refl eq_refl eq_refl eq_refl).
Defined.

(** * The [json] format *)




(** ** White space *)

Lemma skip_ws_spaces (n : nat) (s : string) :
  Json.skip_ws (str_mul "  " n ++ s) = Json.skip_ws s.
Proof. induction n as [|n IH]; [reflexivity|exact IH]. Qed.

Lemma skip_ws_newline_indent (level : nat) (s : string) :
  Json.skip_ws (Json.newline_indent level ++ s) = Json.skip_ws s.
Proof.
  unfold Json.newline_indent. rewrite append_assoc.
  change (Json.skip_ws (str_mul "  " level ++ s) = Json.skip_ws s).
  apply skip_ws_spaces.
Qed.

Lemma starts_value_not_ws (c : ascii) :
  starts_value c = true -> Json.is_ws c = false.
Proof.
  destruct c as [[] [] [] [] [] [] [] []]; try discriminate; reflexivity.
Qed.

Lemma skip_ws_value (c : ascii) (s : string) :
  starts_value c = true -> Json.skip_ws (String c s) = String c s.
Proof. intros H. cbn [Json.skip_ws]. now rewrite (starts_value_not_ws c H). Qed.

(** ** Integers *)

Lemma delimited_not_digit (rest : string) :
  delimited rest = true ->
  match rest with "" => true | String c _ => negb (Json.is_digit c) end = true.
Proof.
  destruct rest as [|c rest]; [reflexivity|]. cbn [delimited].
  destruct c as [[] [] [] [] [] [] [] []]; try discriminate; reflexivity.
Qed.

Lemma delimited_not_float (rest : string) :
  delimited rest = true -> Json.float_follows rest = false.
Proof.
  destruct rest as [|c rest]; [reflexivity|]. cbn [delimited].
  destruct c as [[] [] [] [] [] [] [] []]; try discriminate;
    destruct rest; reflexivity.
Qed.

Lemma span_digits_all (ds rest : string) :
  all_digits ds = true ->
  match rest with "" => true | String c _ => negb (Json.is_digit c) end = true ->
  Json.span_digits (ds ++ rest) = (ds, rest).
Proof.
  intros Hds Hrest. induction ds as [|c ds IH]; cbn [append].
  - destruct rest as [|c rest]; [reflexivity|]. cbn [Json.span_digits].
    apply negb_true_iff in Hrest. now rewrite Hrest.
  - cbn [all_digits] in Hds. apply andb_true_iff in Hds as [Hc Hds].
    cbn [Json.span_digits]. now rewrite Hc, (IH Hds).
Qed.

Lemma uint_digits (d : Decimal.uint) :
  all_digits (NilEmpty.string_of_uint d) = true.
Proof. induction d; cbn [NilEmpty.string_of_uint all_digits]; auto. Qed.

Lemma nzhead_not_D0 (d u : Decimal.uint) : Decimal.nzhead d <> Decimal.D0 u.
Proof. induction d; cbn [Decimal.nzhead]; try discriminate. exact IHd. Qed.

Lemma to_uint_head (p : positive) :
  exists c more,
    NilEmpty.string_of_uint (Pos.to_uint p) = String c more
    /\ Ascii.eqb c "0" = false /\ Ascii.eqb c "-" = false.
Proof.
  assert (Hn : Decimal.unorm (Pos.to_uint p) = Pos.to_uint p).
  { rewrite <- (DecimalPos.Unsigned.to_of (Pos.to_uint p)).
    now rewrite DecimalPos.Unsigned.of_to. }
  pose proof (Unsigned.to_uint_nonnil p) as Hnil.
  pose proof (Unsigned.to_uint_nonzero p) as Hzero.
  destruct (Pos.to_uint p) as [|u|u|u|u|u|u|u|u|u|u] eqn:E;
    try (eexists; eexists; repeat split; reflexivity).
  - contradiction.
  - exfalso. unfold Decimal.unorm in Hn. cbn [Decimal.nzhead] in Hn.
    destruct (Decimal.nzhead u) eqn:En;
      try (inversion Hn; subst; now apply (nzhead_not_D0 u u));
      try discriminate.
    now apply Hzero.
Qed.

(** The shape of [str(z)]: an optional minus sign and digits, without a
    leading zero unless the number is zero. *)
Lemma str_of_int_shape (z : Z) :
  exists sign c more,
    str_of_int z = sign ++ String c more
    /\ (sign = "" \/ sign = "-")
    /\ all_digits (String c more) = true
    /\ Ascii.eqb c "-" = false
    /\ (Ascii.eqb c "0" = true -> more = "").
Proof.
  unfold str_of_int. destruct z as [|p|p]; cbn [Z.to_int NilZero.string_of_int].
  - exists "", "0"%char, "". repeat split; auto.
  - destruct (to_uint_head p) as (c & more & E & H0 & Hm).
    pose proof (uint_digits (Pos.to_uint p)) as Hd. rewrite E in Hd.
    exists "", c, more. unfold NilZero.string_of_uint.
    destruct (Pos.to_uint p) eqn:Ep;
      [now destruct (Unsigned.to_uint_nonnil p)| ..];
      (repeat split; auto; rewrite H0; discriminate).
  - destruct (to_uint_head p) as (c & more & E & H0 & Hm).
    pose proof (uint_digits (Pos.to_uint p)) as Hd. rewrite E in Hd.
    exists "-", c, more. unfold NilZero.string_of_uint.
    destruct (Pos.to_uint p) eqn:Ep;
      [now destruct (Unsigned.to_uint_nonnil p)| ..];
      (repeat split; auto; try (now rewrite <- E); rewrite H0; discriminate).
Qed.

Lemma int_of_str_of_int (z : Z) :
  NilZero.int_of_string (str_of_int z) = Some (Z.to_int z).
Proof.
  unfold str_of_int. apply NilZero.isi.
  - destruct z; cbn; try discriminate.
    intros H; inversion H. now apply (Unsigned.to_uint_nonnil p).
  - destruct z; cbn; try discriminate.
    intros H; inversion H. now apply (Unsigned.to_uint_nonnil p).
Qed.

Lemma scan_number_str_of_int (z : Z) (rest : string) :
  delimited rest = true ->
  Json.scan_number (str_of_int z ++ rest) = Some (VInt z, rest).
Proof.
  intros Hrest.
  pose proof (int_of_str_of_int z) as Hint.
  destruct (str_of_int_shape z) as (sign & c & more & E & Hsign & Hd & Hm & H0).
  rewrite E in *. clear E.
  unfold Json.scan_number.
  assert (Hsplit :
    match sign ++ String c more ++ rest with
    | String "-" s' => ("-", s')
    | _ => ("", sign ++ String c more ++ rest)
    end = (sign, String c more ++ rest)).
  { destruct Hsign as [-> | ->]; [|reflexivity]. cbn [append].
    destruct c as [[] [] [] [] [] [] [] []]; try discriminate; reflexivity. }
  rewrite append_assoc, Hsplit.
  rewrite (span_digits_all _ _ Hd (delimited_not_digit _ Hrest)).
  destruct (Ascii.eqb c "0") eqn:Ec.
  - rewrite (H0 eq_refl) in *. cbn [append].
    apply Ascii.eqb_eq in Ec. subst c.
    rewrite (delimited_not_float _ Hrest), Hint.
    now rewrite DecimalZ.of_to.
  - rewrite (delimited_not_float _ Hrest), Hint.
    now rewrite DecimalZ.of_to.
Qed.

(** ** String literals *)

Lemma scanstring_escape_char (c : ascii) (fuel : nat) (tail : string) :
  Json.scanstring (S fuel) (Json.escape_char c ++ tail)
  = match Json.scanstring fuel tail with
    | Some (str, rest) => Some (String c str, rest)
    | None => None
    end.
Proof. destruct c as [[] [] [] [] [] [] [] []]; reflexivity. Qed.

Lemma escape_char_length (c : ascii) :
  (1 <= String.length (Json.escape_char c))%nat.
Proof. destruct c as [[] [] [] [] [] [] [] []]; vm_compute; lia. Qed.

Lemma scanstring_escape (s : string) :
  forall (fuel : nat) (rest : string),
    (String.length (Json.escape s) < fuel)%nat ->
    Json.scanstring fuel (Json.escape s ++ String dquote rest) = Some (s, rest).
Proof.
  induction s as [|c s IH]; intros fuel rest Hfuel.
  - destruct fuel as [|fuel]; [inversion Hfuel|]. reflexivity.
  - cbn [Json.escape] in *. rewrite length_append in Hfuel.
    pose proof (escape_char_length c) as Hc.
    destruct fuel as [|fuel]; [inversion Hfuel|].
    rewrite append_assoc, scanstring_escape_char, IH by lia.
    reflexivity.
Qed.

(** An encoded string, read back from just after its opening quote. *)
Lemma scanstring_encode_str (s rest : string) :
  forall tail,
    String dquote tail = Json.encode_str s ++ rest ->
    Json.scanstring (S (String.length tail)) tail = Some (s, rest).
Proof.
  intros tail E. unfold Json.encode_str in E. cbn [append] in E.
  injection E as ->. rewrite append_assoc. cbn [append].
  apply scanstring_escape.
  rewrite length_append. cbn [String.length]. lia.
Qed.

(** ** Dictionaries built from pairs *)

Lemma distinct_app_fresh (keys : list string) (k : string) (keys' : list string) :
  distinct (keys ++ k :: keys') = true ->
  existsb (String.eqb k) keys = false.
Proof.
  induction keys as [|a keys IH]; intros H; [reflexivity|].
  cbn [app distinct] in H. apply andb_true_iff in H as [Ha H].
  cbn [existsb]. rewrite (IH H), orb_false_r.
  apply negb_true_iff in Ha. rewrite existsb_app in Ha.
  apply orb_false_iff in Ha as [_ Ha]. cbn [existsb] in Ha.
  apply orb_false_iff in Ha as [Ha _]. now rewrite String.eqb_sym.
Qed.

Lemma dict_set_fresh (d : dict) (k : string) (v : value) :
  existsb (String.eqb k) (map fst d) = false ->
  dict_set d k v = (d ++ [(k, v)])%list.
Proof.
  induction d as [|[a w] d IH]; intros H; [reflexivity|].
  cbn [map fst existsb] in H. apply orb_false_iff in H as [Ha H].
  cbn [dict_set app]. rewrite String.eqb_sym, Ha. now rewrite (IH H).
Qed.

Lemma dict_of_pairs_distinct (items : dict) :
  distinct (map fst items) = true -> Json.dict_of_pairs items = items.
Proof.
  unfold Json.dict_of_pairs.
  assert (H : forall acc : dict,
    distinct (map fst (acc ++ items)) = true ->
    fold_left (fun d kv => dict_set d (fst kv) (snd kv)) items acc
    = (acc ++ items)%list).
  { induction items as [|[k v] items IH]; intros acc Hd; cbn [fold_left].
    - now rewrite app_nil_r.
    - cbn [fst snd]. rewrite dict_set_fresh.
      + rewrite IH; rewrite <- app_assoc; [reflexivity|exact Hd].
      + rewrite map_app in Hd. cbn [map fst] in Hd.
        exact (distinct_app_fresh _ _ _ Hd). }
  intros Hd. exact (H [] Hd).
Qed.

(** ** The decoder, one step at a time *)

Lemma scan_once_quote (fuel : nat) (tail : string) :
  Json.scan_once (S fuel) (String dquote tail)
  = match Json.scanstring (S (String.length tail)) tail with
    | Some (str, rest) => Some (VStr str, rest)
    | None => None
    end.
Proof. reflexivity. Qed.

Lemma scan_once_bracket (fuel : nat) (s : string) :
  Json.scan_once (S fuel) (String "[" s)
  = match Json.skip_ws s with
    | String "]" rest => Some (VList [], rest)
    | s' => Json.array_items fuel s' []
    end.
Proof. reflexivity. Qed.

Lemma scan_once_brace (fuel : nat) (s : string) :
  Json.scan_once (S fuel) (String "{" s)
  = match Json.skip_ws s with
    | String "}" rest => Some (VDict [], rest)
    | String dquote rest => Json.object_items fuel rest []
    | _ => None
    end.
Proof. reflexivity. Qed.

Lemma scan_once_number (fuel : nat) (c : ascii) (s : string) :
  Json.is_digit c || Ascii.eqb c "-" = true ->
  Json.scan_once (S fuel) (String c s) = Json.scan_number (String c s).
Proof.
  destruct c as [[] [] [] [] [] [] [] []]; try discriminate; reflexivity.
Qed.

Lemma array_items_step (fuel : nat) (s : string) (acc : list value) :
  Json.array_items (S fuel) s acc
  = match Json.scan_once fuel s with
    | Some (v, rest) =>
        match Json.skip_ws rest with
        | String "]" rest' => Some (VList (rev (v :: acc)), rest')
        | String "," rest' =>
            Json.array_items fuel (Json.skip_ws rest') (v :: acc)
        | _ => None
        end
    | None => None
    end.
Proof. reflexivity. Qed.

Lemma object_items_step (fuel : nat) (s : string) (acc : list (string * value)) :
  Json.object_items (S fuel) s acc
  = match Json.scanstring (S (String.length s)) s with
    | Some (key, rest) =>
        match Json.skip_ws rest with
        | String ":" rest' =>
            match Json.scan_once fuel (Json.skip_ws rest') with
            | Some (v, rest'') =>
                match Json.skip_ws rest'' with
                | String "}" r =>
                    Some (VDict (Json.dict_of_pairs (rev ((key, v) :: acc))), r)
                | String "," r =>
                    match Json.skip_ws r with
                    | String dquote r' =>
                        Json.object_items fuel r' ((key, v) :: acc)
                    | _ => None
                    end
                | _ => None
                end
            | None => None
            end
        | _ => None
        end
    | None => None
    end.
Proof. reflexivity. Qed.

(** ** The encoder *)

Lemma join_cons (sep a b : string) (l : list string) :
  join sep (a :: b :: l) = a ++ sep ++ join sep (b :: l).
Proof. reflexivity. Qed.

Lemma encode_list (level : nat) (x : value) (xs : list value) :
  Json.encode level (VList (x :: xs))
  = "[" ++ Json.newline_indent (S level)
        ++ join ("," ++ Json.newline_indent (S level))
                (map (Json.encode (S level)) (x :: xs))
        ++ Json.newline_indent level ++ "]".
Proof. reflexivity. Qed.

Lemma encode_dict (level : nat) (kv : string * value) (items : dict) :
  Json.encode level (VDict (kv :: items))
  = "{" ++ Json.newline_indent (S level)
        ++ join ("," ++ Json.newline_indent (S level))
                (map (encode_item (S level)) (kv :: items))
        ++ Json.newline_indent level ++ "}".
Proof. reflexivity. Qed.

Lemma encode_head (level : nat) (v : value) :
  exists c s, Json.encode level v = String c s /\ starts_value c = true.
Proof.
  destruct v as [|[]|z|s|[|x xs]|[|kv items]];
    try (eexists; eexists; split; reflexivity).
  cbn [Json.encode].
  destruct (str_of_int_shape z) as (sign & c & more & -> & Hs & Hd & _).
  destruct Hs as [-> | ->].
  - exists c, more. split; [reflexivity|].
    cbn [all_digits] in Hd. apply andb_true_iff in Hd as [Hc _].
    unfold starts_value. now rewrite Hc.
  - exists "-"%char, (String c more). now split.
Qed.

Lemma skip_ws_encode (level : nat) (v : value) (rest : string) :
  Json.skip_ws (Json.encode level v ++ rest) = Json.encode level v ++ rest.
Proof.
  destruct (encode_head level v) as (c & s & -> & Hc).
  cbn [append]. now apply skip_ws_value.
Qed.

(** ** Arrays and objects *)

Lemma delimited_newline_indent (level : nat) (s : string) :
  delimited (Json.newline_indent level ++ s) = true.
Proof. reflexivity. Qed.

Lemma array_items_last (fuel level level' : nat) (v : value)
  (rest : string) (acc : list value) :
  round_trips v -> (size v <= fuel)%nat ->
  Json.array_items (S fuel)
    (Json.encode level' v ++ Json.newline_indent level ++ "]" ++ rest) acc
  = Some (VList (rev (v :: acc)), rest).
Proof.
  intros Hv Hfuel. rewrite array_items_step.
  rewrite (Hv level' _ fuel (delimited_newline_indent level _) Hfuel).
  now rewrite skip_ws_newline_indent.
Qed.

Lemma array_items_more (fuel level' : nat) (v : value)
  (tail : string) (acc : list value) :
  round_trips v -> (size v <= fuel)%nat ->
  Json.array_items (S fuel) (Json.encode level' v ++ "," ++ tail) acc
  = Json.array_items fuel (Json.skip_ws tail) (v :: acc).
Proof.
  intros Hv Hfuel. rewrite array_items_step.
  now rewrite (Hv level' ("," ++ tail) fuel eq_refl Hfuel).
Qed.

Lemma skip_ws_items (level : nat) (y : value) (ys : list value) (tail : string) :
  Json.skip_ws (join ("," ++ Json.newline_indent level)
                  (map (Json.encode level) (y :: ys)) ++ tail)
  = join ("," ++ Json.newline_indent level)
      (map (Json.encode level) (y :: ys)) ++ tail.
Proof.
  destruct ys as [|y' ys'].
  - cbn [map join String.concat]. apply skip_ws_encode.
  - cbn [map]. rewrite join_cons, append_assoc. apply skip_ws_encode.
Qed.

Lemma array_items_encode (xs : list value) :
  Forall round_trips xs ->
  forall (x : value), round_trips x ->
  forall (acc : list value) (level : nat) (rest : string) (fuel : nat),
    (list_size (x :: xs) <= fuel)%nat ->
    Json.array_items fuel
      (join ("," ++ Json.newline_indent (S level))
            (map (Json.encode (S level)) (x :: xs))
         ++ Json.newline_indent level ++ "]" ++ rest) acc
    = Some (VList (rev acc ++ x :: xs), rest).
Proof.
  induction 1 as [|y ys Hy Hys IH]; intros x Hx acc level rest fuel Hfuel;
    (destruct fuel as [|fuel]; [inversion Hfuel|]);
    cbn [list_size fold_right] in Hfuel; fold (list_size) in Hfuel.
  - cbn [map join String.concat].
    rewrite array_items_last by (assumption || lia). reflexivity.
  - change (map (Json.encode (S level)) (x :: y :: ys))
      with (Json.encode (S level) x :: map (Json.encode (S level)) (y :: ys)).
    cbn [map] in *. rewrite join_cons, !append_assoc.
    rewrite array_items_more by (assumption || lia).
    rewrite skip_ws_newline_indent.
    pose proof (skip_ws_items (S level) y ys) as Hskip.
    cbn [map] in Hskip. rewrite Hskip.
    rewrite (IH y Hy (x :: acc) level rest fuel)
      by (cbn [list_size fold_right]; fold list_size; lia).
    cbn [rev]. now rewrite <- app_assoc.
Qed.

Lemma encode_str_append (k rest : string) :
  Json.encode_str k ++ rest
  = String dquote (Json.escape k ++ String dquote rest).
Proof. unfold Json.encode_str. cbn [append]. now rewrite append_assoc. Qed.

Lemma scanstring_key (k rest : string) :
  Json.scanstring (S (String.length (Json.escape k ++ String dquote rest)))
    (Json.escape k ++ String dquote rest) = Some (k, rest).
Proof. apply scanstring_escape. rewrite length_append. lia. Qed.

Lemma object_items_value (fuel level : nat) (k : string) (v : value)
  (tail : string) (acc : list (string * value)) :
  round_trips v -> (size v <= fuel)%nat -> delimited tail = true ->
  Json.object_items (S fuel)
    (Json.escape k ++ String dquote (": " ++ Json.encode level v ++ tail)) acc
  = match Json.skip_ws tail with
    | String "}" r =>
        Some (VDict (Json.dict_of_pairs (rev ((k, v) :: acc))), r)
    | String "," r =>
        match Json.skip_ws r with
        | String dquote r' => Json.object_items fuel r' ((k, v) :: acc)
        | _ => None
        end
    | _ => None
    end.
Proof.
  intros Hv Hfuel Htail. rewrite object_items_step, scanstring_key.
  change (Json.skip_ws (": " ++ Json.encode level v ++ tail))
    with (String ":" (" " ++ Json.encode level v ++ tail)).
  cbv iota beta.
  change (Json.skip_ws (" " ++ Json.encode level v ++ tail))
    with (Json.skip_ws (Json.encode level v ++ tail)).
  rewrite skip_ws_encode, (Hv level tail fuel Htail Hfuel).
  reflexivity.
Qed.

Lemma items_head (level : nat) (k : string) (x : value) (items : dict)
  (tail : string) :
  exists body,
    join ("," ++ Json.newline_indent level)
         (map (encode_item level) ((k, x) :: items)) ++ tail
    = String dquote body.
Proof.
  destruct items as [|kv items].
  - cbn [map join String.concat encode_item].
    rewrite append_assoc, encode_str_append. eauto.
  - cbn [map]. rewrite join_cons. cbn [encode_item].
    rewrite !append_assoc, encode_str_append. eauto.
Qed.

Lemma join_cons_map {A} (sep a : string) (f : A -> string) (b : A)
  (l : list A) :
  join sep (a :: map f (b :: l)) = a ++ sep ++ join sep (map f (b :: l)).
Proof. reflexivity. Qed.

Lemma string_cons_inj (c : ascii) (a b : string) :
  String c a = String c b -> a = b.
Proof. intros H. now injection H. Qed.

Lemma object_items_encode (items : dict) :
  Forall (fun kv => round_trips (snd kv)) items ->
  forall (k : string) (x : value), round_trips x ->
  forall (acc : dict) (level : nat) (rest : string) (fuel : nat),
    (dict_size ((k, x) :: items) <= fuel)%nat ->
    forall body,
      String dquote body
      = join ("," ++ Json.newline_indent (S level))
             (map (encode_item (S level)) ((k, x) :: items))
          ++ Json.newline_indent level ++ "}" ++ rest ->
      Json.object_items fuel body acc
      = Some (VDict (Json.dict_of_pairs (rev acc ++ (k, x) :: items)), rest).
Proof.
  induction 1 as [|[k' y] items Hy Hitems IH];
    intros k x Hx acc level rest fuel Hfuel body Hbody;
    (destruct fuel as [|fuel]; [inversion Hfuel|]);
    cbn [dict_size fold_right] in Hfuel; fold dict_size in Hfuel.
  - cbn [map join String.concat encode_item] in Hbody.
    rewrite !append_assoc, encode_str_append in Hbody.
    apply string_cons_inj in Hbody. subst body.
    rewrite object_items_value by (assumption || lia || reflexivity).
    rewrite skip_ws_newline_indent. reflexivity.
  - change (map (encode_item (S level)) ((k, x) :: (k', y) :: items))
      with (encode_item (S level) (k, x)
              :: map (encode_item (S level)) ((k', y) :: items)) in Hbody.
    rewrite join_cons_map in Hbody. cbn [encode_item] in Hbody.
    rewrite !append_assoc, encode_str_append in Hbody.
    apply string_cons_inj in Hbody. subst body.
    rewrite object_items_value by (assumption || lia || reflexivity).
    change (Json.skip_ws ("," ++ ?t)) with (String "," t).
    cbv iota beta.
    rewrite skip_ws_newline_indent.
    destruct (items_head (S level) k' y items
                (Json.newline_indent level ++ "}" ++ rest)) as (body' & E).
    cbn [encode_item] in E. rewrite E.
    change (Json.skip_ws (String dquote body')) with (String dquote body').
    cbv iota beta.
    rewrite (IH k' y Hy ((k, x) :: acc) level rest fuel)
      by (cbn [dict_size fold_right]; fold dict_size; (lia || (symmetry; exact E))).
    cbn [rev]. now rewrite <- app_assoc.
Qed.

(** ** Round trip *)

Lemma well_formed_round_trips (v : value) :
  well_formed v = true -> round_trips v.
Proof.
  induction v as [|b|z|s|xs IH|items IH] using value_induction;
    intros Hwf level rest fuel Hrest Hfuel;
    (destruct fuel as [|fuel]; [inversion Hfuel|]).
  - reflexivity.
  - destruct b; reflexivity.
  - cbn [Json.encode].
    destruct (str_of_int_shape z) as (sign & c & more & E & Hs & Hd & Hm & _).
    assert (Hhead : exists c' s', str_of_int z = String c' s'
                      /\ Json.is_digit c' || Ascii.eqb c' "-" = true).
    { rewrite E. destruct Hs as [-> | ->].
      - exists c, more. split; [reflexivity|].
        cbn [all_digits] in Hd. apply andb_true_iff in Hd as [Hc _].
        now rewrite Hc.
      - exists "-"%char, (String c more). now split. }
    destruct Hhead as (c' & s' & E' & Hc').
    rewrite <- (scan_number_str_of_int z rest Hrest).
    rewrite E'. cbn [append]. now apply scan_once_number.
  - cbn [Json.encode]. rewrite encode_str_append, scan_once_quote.
    now rewrite scanstring_key.
  - destruct xs as [|x xs]; [reflexivity|].
    cbn [well_formed forallb] in Hwf. apply andb_true_iff in Hwf as [Hx Hxs].
    inversion IH as [|? ? IHx IHxs]; subst.
    assert (Hall : Forall round_trips xs).
    { apply Forall_forall. intros y Hy.
      apply (proj1 (Forall_forall _ _) IHxs y Hy).
      exact (proj1 (forallb_forall _ _) Hxs y Hy). }
    rewrite encode_list, !append_assoc.
    change ("[" ++ ?t) with (String "[" t).
    rewrite scan_once_bracket, skip_ws_newline_indent, skip_ws_items.
    destruct (encode_head (S level) x) as (c & s & E & Hc).
    assert (Hdispatch : forall t A,
      match join ("," ++ Json.newline_indent (S level))
              (map (Json.encode (S level)) (x :: xs)) ++ t with
      | String "]" r => Some (VList [], r)
      | s' => A s'
      end = A (join ("," ++ Json.newline_indent (S level))
                 (map (Json.encode (S level)) (x :: xs)) ++ t)).
    { intros t A.
      assert (Hj : exists s', join ("," ++ Json.newline_indent (S level))
                     (map (Json.encode (S level)) (x :: xs)) ++ t
                   = String c s').
      { destruct xs as [|y ys].
        - cbn [map join String.concat]. rewrite E. cbn [append]. eauto.
        - change (map (Json.encode (S level)) (x :: y :: ys))
            with (Json.encode (S level) x
                    :: map (Json.encode (S level)) (y :: ys)).
          rewrite join_cons_map, E. cbn [append]. eauto. }
      destruct Hj as (s' & ->).
      destruct c as [[] [] [] [] [] [] [] []]; try discriminate; reflexivity. }
    rewrite (Hdispatch _ (fun s' => Json.array_items fuel s' [])).
    apply (array_items_encode xs Hall x (IHx Hx) [] level rest fuel).
    cbn [size] in Hfuel. exact (le_S_n _ _ Hfuel).
  - destruct items as [|[k x] items]; [reflexivity|].
    cbn [well_formed map fst forallb] in Hwf.
    apply andb_true_iff in Hwf as [Hdistinct Hwf].
    apply andb_true_iff in Hwf as [Hx Hitems].
    inversion IH as [|? ? IHx IHitems]; subst. cbn [snd] in IHx.
    assert (Hall : Forall (fun kv => round_trips (snd kv)) items).
    { apply Forall_forall. intros [k' y] Hy.
      apply (proj1 (Forall_forall _ _) IHitems (k', y) Hy).
      exact (proj1 (forallb_forall _ _) Hitems (k', y) Hy). }
    rewrite encode_dict, !append_assoc.
    change ("{" ++ ?t) with (String "{" t).
    rewrite scan_once_brace, skip_ws_newline_indent.
    destruct (items_head (S level) k x items
                (Json.newline_indent level ++ "}" ++ rest)) as (body & E).
    rewrite E.
    change (Json.skip_ws (String dquote body)) with (String dquote body).
    cbv iota beta.
    rewrite (object_items_encode items Hall k x (IHx Hx) [] level rest fuel)
      by (try (cbn [size] in Hfuel; exact (le_S_n _ _ Hfuel));
          symmetry; exact E).
    cbn [rev app]. now rewrite dict_of_pairs_distinct.
Qed.

(** ** Enough fuel: an encoded value is at least as long as it is large *)

Lemma join_length (sep : string) (f : value -> string) (xs : list value) :
  Forall (fun x => (size x <= String.length (f x))%nat) xs ->
  (1 <= String.length sep)%nat ->
  (list_size xs <= String.length (join sep (map f xs)) + 1)%nat.
Proof.
  intros Hall Hsep. induction Hall as [|x xs Hx Hxs IH]; [cbn; lia|].
  destruct xs as [|y ys].
  - cbn [map join String.concat list_size fold_right]. lia.
  - change (map f (x :: y :: ys)) with (f x :: map f (y :: ys)).
    rewrite join_cons_map, !length_append.
    change (list_size (x :: y :: ys))
      with (S (size x + list_size (y :: ys))).
    lia.
Qed.

Lemma join_items_length (sep : string) (level : nat) (items : dict) :
  Forall (fun kv => (size (snd kv)
                     <= String.length (Json.encode level (snd kv)))%nat) items ->
  (1 <= String.length sep)%nat ->
  (dict_size items
   <= String.length (join sep (map (encode_item level) items)) + 1)%nat.
Proof.
  intros Hall Hsep. induction Hall as [|[k x] items Hx Hxs IH]; [cbn; lia|].
  cbn [snd] in Hx.
  assert (Hitem : (size x <= String.length (encode_item level (k, x)))%nat)
    by (cbn [encode_item]; rewrite !length_append; lia).
  destruct items as [|kv items].
  - cbn [map join String.concat dict_size fold_right]. lia.
  - change (map (encode_item level) ((k, x) :: kv :: items))
      with (encode_item level (k, x) :: map (encode_item level) (kv :: items)).
    rewrite join_cons_map, !length_append.
    change (dict_size ((k, x) :: kv :: items))
      with (S (size x + dict_size (kv :: items))).
    lia.
Qed.

Lemma size_le_length (v : value) :
  forall level, (size v <= String.length (Json.encode level v))%nat.
Proof.
  induction v as [|b|z|s|xs IH|items IH] using value_induction; intros level.
  - cbn; lia.
  - destruct b; cbn; lia.
  - cbn [Json.encode size].
    destruct (str_of_int_shape z) as (sign & c & more & -> & _).
    rewrite length_append. cbn [String.length]. lia.
  - cbn [Json.encode size]. unfold Json.encode_str. cbn [String.length]. lia.
  - destruct xs as [|x xs]; [cbn; lia|].
    rewrite encode_list, !length_append.
    assert (Hall : Forall (fun x => (size x
                     <= String.length (Json.encode (S level) x))%nat) (x :: xs))
      by (apply Forall_forall; intros y Hy;
          exact (proj1 (Forall_forall _ _) IH y Hy (S level))).
    pose proof (join_length ("," ++ Json.newline_indent (S level))
                  (Json.encode (S level)) (x :: xs) Hall) as Hj.
    change (size (VList (x :: xs))) with (S (list_size (x :: xs))).
    cbn [String.length append] in *. lia.
  - destruct items as [|kv items]; [cbn; lia|].
    rewrite encode_dict, !length_append.
    assert (Hall : Forall (fun kv => (size (snd kv)
                     <= String.length (Json.encode (S level) (snd kv)))%nat)
                     (kv :: items))
      by (apply Forall_forall; intros y Hy;
          exact (proj1 (Forall_forall _ _) IH y Hy (S level))).
    pose proof (join_items_length ("," ++ Json.newline_indent (S level))
                  (S level) (kv :: items) Hall) as Hj.
    change (size (VDict (kv :: items))) with (S (dict_size (kv :: items))).
    cbn [String.length append] in *. lia.
Qed.

(** Encoding a decoded body and decoding the text gives the body back. *)
Lemma loads_dumps (v : value) :
  well_formed v = true -> Json.loads (Json.dumps v) = Some v.
Proof.
  intros Hwf. unfold Json.loads, Json.dumps.
  pose proof (skip_ws_encode 0 v "") as Hskip. rewrite append_nil_r in Hskip.
  rewrite Hskip.
  pose proof (well_formed_round_trips v Hwf 0%nat ""
                (S (String.length (Json.encode 0 v))) eq_refl) as H.
  rewrite append_nil_r in H. rewrite H; [reflexivity|].
  pose proof (size_le_length v 0). lia.
Qed.

(** Nested values are indented by two spaces a level, one item a line. *)
Example dumps_indents_by_two :
  Json.dumps (VList [VInt 1; VList [VInt (-2); VNone]; VList []])
  = "[" ++ nl
    ++ "  1," ++ nl
    ++ "  [" ++ nl
    ++ "    -2," ++ nl
    ++ "    null" ++ nl
    ++ "  ]," ++ nl
    ++ "  []" ++ nl
    ++ "]".
Proof. reflexivity. Qed.

(** C8.  For a [get_monitor] call in json format whose fetch returns a
    decoded body (no dictionary in it holds a key twice), the result is a
    success whose text is the body written by [json.dumps] with an
    indentation of two, and [json.loads] of that text gives the body back;
    so every field of the record ([id], [name], [priority], ...) is read
    from the parsed text as it is read from the record. *)
Theorem json_round_trip
  (c : client) (request : CallToolRequest) (monitor_id monitor : value) :
  supplied request "monitor_id" = Some monitor_id ->
  argument request "format" = Some (VStr "json") ->
  fetch_monitor_reply c monitor_id = inr monitor ->
  well_formed monitor = true ->
  exists text,
    run (GetMonitor.handle_call c request)
    = (inr (success text), [FetchMonitor monitor_id])
    /\ text = Json.encode 0 monitor
    /\ Json.loads text = Some monitor
    /\ (forall parsed, Json.loads text = Some parsed ->
        forall key default,
          get parsed key default = get monitor key default).
Proof.
  intros Hid Hf Hr Hwf. exists (Json.dumps monitor).
  split; [|split; [reflexivity|split]].
  - rewrite get_run, Hid, Hr, Hf. reflexivity.
  - now apply loads_dumps.
  - intros parsed Hp key default.
    rewrite (loads_dumps monitor Hwf) in Hp. now inversion Hp.
Qed.

Lemma json_round_trip_witness :
  let c := Samples.answering (inr (VDict Samples.cpu_monitor)) in
  let request := Samples.request_of [("monitor_id", VInt 12345);
                                     ("format", VStr "json")] in
  exists text,
    run (GetMonitor.handle_call c request)
    = (inr (success text), [FetchMonitor (VInt 12345)])
    /\ text = Json.encode 0 (VDict Samples.cpu_monitor)
    /\ Json.loads text = Some (VDict Samples.cpu_monitor)
    /\ (forall parsed, Json.loads text = Some parsed ->
        forall key default,
          get parsed key default
          = get (VDict Samples.cpu_monitor) key default).
Proof.
  intros c request.
  exact (json_round_trip c request (VInt 12345) (VDict Samples.cpu_monitor)
           eq_refl eq_refl eq_refl eq_refl).
Defined.


(** * Further properties of the handlers *)

(** ** Results, network calls and the log *)

Lemma failure_is_text_result (s : string) : failure s = text_result s true.
Proof. reflexivity. Qed.

Lemma success_is_text_result (s : string) : success s = text_result s false.
Proof. reflexivity. Qed.

(** What the [except] clauses return for an exception they catch is one
    text block and the error flag. *)
Lemma on_exception_answers (e : exn) (t : list event) :
  is_exception e = true ->
  (exists output flag,
      fst (GetMonitor.on_exception e t) = inr (text_result output flag))
  /\ (exists output flag,
         fst (MonitorEdit.on_exception e t) = inr (text_result output flag)).
Proof.
  intros He.
  destruct (on_exception_reports e t He) as [(l1 & -> & _) (l2 & -> & _)].
  split; do 2 eexists; reflexivity.
Qed.

(** X1.  Whatever the arguments and whatever the remote client answers or
    raises, a handler returns a result made of one text block and the error
    flag, with one exception: when the remote call it made raised an
    exception that does not derive from [Exception], the handler raises that
    exception.  Nothing else leaves a handler, also no exception raised
    while the priority is compared or the table is written. *)
Theorem every_call_is_answered
  (handle_call : client -> CallToolRequest -> M CallToolResult)
  (c : client) (request : CallToolRequest) :
  In handle_call handlers ->
  (exists output flag,
      fst (run (handle_call c request)) = inr (text_result output flag))
  \/ (exists e,
         fst (run (handle_call c request)) = inl e
         /\ is_exception e = false
         /\ remote_failed c (snd (run (handle_call c request))) e).
Proof.
  intros Hh.
  destruct Hh as [<-|[<-|[]]].
  - rewrite get_run in *.
    destruct (supplied request "monitor_id") as [id|];
      [|left; do 2 eexists; reflexivity].
    destruct (fetch_monitor_reply c id) as [e|monitor] eqn:Er.
    + destruct (is_exception e) eqn:He.
      * left. now apply on_exception_answers.
      * right. exists e.
        destruct (on_exception_propagates e [FetchMonitor id] He) as [-> _].
        split; [reflexivity|]. split; [exact He|].
        left. exists id. split; [left; reflexivity|exact Er].
    + destruct (eq_str _ "json"); [left; do 2 eexists; reflexivity|].
      pose proof (table_content_raises id monitor [FetchMonitor id]) as Hr.
      destruct (GetMonitor.table_content id monitor [FetchMonitor id])
        as [[e|s] t]; [|left; do 2 eexists; reflexivity].
      left. apply on_exception_answers. now apply Hr.
  - rewrite edit_run in *.
    destruct (supplied request "monitor_id") as [id|];
      [|left; do 2 eexists; reflexivity].
    destruct (MonitorEdit.priority_rejected _) as [e|[|]] eqn:Ep;
      [|left; do 2 eexists; reflexivity|].
    + left. apply on_exception_answers.
      eapply priority_rejected_raises, Ep.
    + destruct (patch request) as [|kv kvs];
        [left; do 2 eexists; reflexivity|].
      destruct (update_monitor_reply c id (kv :: kvs)) as [e|reply] eqn:Er;
        [|left; do 2 eexists; reflexivity].
      destruct (is_exception e) eqn:He.
      * left. now apply on_exception_answers.
      * right. exists e.
        destruct (on_exception_propagates e
                    [UpdateMonitor id (kv :: kvs)] He) as [_ ->].
        split; [reflexivity|]. split; [exact He|].
        right. exists id, (kv :: kvs). split; [left; reflexivity|exact Er].
Qed.

Lemma every_call_is_answered_witness :
  let c := Samples.answering (inr (VList [VInt 1])) in
  let request := Samples.request_of [("monitor_id", VInt 7)] in
  In GetMonitor.handle_call handlers
  /\ ((exists output flag,
          fst (run (GetMonitor.handle_call c request))
          = inr (text_result output flag))
      \/ (exists e,
             fst (run (GetMonitor.handle_call c request)) = inl e
             /\ is_exception e = false
             /\ remote_failed c
                  (snd (run (GetMonitor.handle_call c request))) e)).
Proof.
  intros c request.
  assert (Hh : In GetMonitor.handle_call handlers) by (left; reflexivity).
  split; [exact Hh|].
  exact (every_call_is_answered GetMonitor.handle_call c request Hh).
Defined.

(** X2.  The fetch handler calls [fetch_monitor] once, with the
    [monitor_id] of the request as it is, whenever that argument is not
    null (zero, an empty string or false are identifiers like any other),
    and makes no network call otherwise; it never calls [update_monitor]. *)
Theorem fetch_handler_network_calls
  (c : client) (request : CallToolRequest) :
  network_calls (snd (run (GetMonitor.handle_call c request)))
  = match dict_get (arguments_or_empty request) "monitor_id" VNone with
    | VNone => []
    | monitor_id => [FetchMonitor monitor_id]
    end.
Proof.
  rewrite get_network_calls, arguments_get_none.
  destruct (supplied request "monitor_id") as [id|] eqn:E; [|reflexivity].
  pose proof (supplied_not_none _ _ _ E). now destruct id.
Qed.

(** X3.  The edit handler calls [update_monitor] once, with the
    [monitor_id] and the dictionary of updates, when the [monitor_id] is not
    null, the priority check lets the request through and some field is
    supplied; in every other case, and so after every validation failure, it
    makes no network call.  It never calls [fetch_monitor]. *)
Theorem edit_handler_network_calls
  (c : client) (request : CallToolRequest) :
  let args := arguments_or_empty request in
  let monitor_id := dict_get args "monitor_id" VNone in
  let updates :=
    MonitorEdit.build_updates
      (dict_get args "name" VNone) (dict_get args "message" VNone)
      (dict_get args "tags" VNone) (dict_get args "priority" VNone) in
  network_calls (snd (run (MonitorEdit.handle_call c request)))
  = if is_none monitor_id then []
    else
      match MonitorEdit.priority_rejected (dict_get args "priority" VNone) with
      | inr false =>
          match updates with
          | [] => []
          | _ :: _ => [UpdateMonitor monitor_id updates]
          end
      | _ => []
      end.
Proof.
  cbv zeta. rewrite build_updates_patch, !arguments_get_none, edit_run.
  destruct (supplied request "monitor_id") as [id|] eqn:E; [|reflexivity].
  rewrite (supplied_not_none _ _ _ E).
  destruct (MonitorEdit.priority_rejected _) as [e|[|]]; [|reflexivity|].
  - destruct (proj2 (on_exception_trace e [])) as (log & -> & Hlog).
    exact Hlog.
  - destruct (patch request) as [|kv kvs]; [reflexivity|].
    destruct (update_monitor_reply c id (kv :: kvs)) as [e|reply];
      [|reflexivity].
    destruct (proj2 (on_exception_trace e [UpdateMonitor id (kv :: kvs)]))
      as (log & -> & Hlog).
    now rewrite network_calls_app, Hlog.
Qed.

Lemma log_lines_app (t u : list event) :
  log_lines (t ++ u) = (log_lines t ++ log_lines u)%list.
Proof. apply flat_map_app. Qed.

(** What the [except] clauses of the two handlers do with an exception. *)
Lemma on_exception_logs (e : exn) (t : list event) :
  GetMonitor.on_exception e t
  = (if is_exception e then inr (failure (error_text e)) else inl e,
     (t ++ map LogError (logged "get_monitor" e))%list)
  /\ MonitorEdit.on_exception e t
     = (if is_exception e then inr (failure (error_text e)) else inl e,
        (t ++ map LogError (logged "monitor_edit" e))%list).
Proof.
  unfold GetMonitor.on_exception, MonitorEdit.on_exception, error_text, logged.
  destruct e as [m s|cls m|cls m]; cbn [exn_str is_exception].
  - destruct (s =? 404); [cbn [orb map]; now rewrite app_nil_r|].
    destruct (s =? 403); [cbn [orb map]; now rewrite app_nil_r|].
    split; reflexivity.
  - split; reflexivity.
  - unfold raise. cbn [map]. now rewrite app_nil_r.
Qed.

Lemma log_lines_logged (lines : list string) :
  log_lines (map LogError lines) = lines.
Proof.
  unfold log_lines. induction lines as [|l ls IH]; [reflexivity|].
  cbn [map flat_map app]. now rewrite IH.
Qed.

(** The trace of a run of the fetch handler, in full. *)
Lemma get_trace (c : client) (request : CallToolRequest) :
  snd (run (GetMonitor.handle_call c request))
  = match supplied request "monitor_id" with
    | None => []
    | Some monitor_id =>
        FetchMonitor monitor_id
        :: match fetch_monitor_reply c monitor_id with
           | inl e => map LogError (logged "get_monitor" e)
           | inr monitor =>
               if eq_str (match argument request "format" with
                          | Some f => f | None => VStr "table" end) "json"
               then []
               else
                 match fst (GetMonitor.table_content monitor_id monitor
                              [FetchMonitor monitor_id]) with
                 | inl e => map LogError (logged "get_monitor" e)
                 | inr _ => []
                 end
           end
    end.
Proof.
  rewrite get_run.
  destruct (supplied request "monitor_id") as [id|]; [|reflexivity].
  destruct (fetch_monitor_reply c id) as [e|monitor].
  - now rewrite (proj1 (on_exception_logs e _)).
  - destruct (eq_str _ "json"); [reflexivity|].
    pose proof (table_content_silent id monitor [FetchMonitor id]) as Hs.
    destruct (GetMonitor.table_content id monitor [FetchMonitor id])
      as [[e|s] t]; cbn [fst snd] in *; subst t; [|reflexivity].
    now rewrite (proj1 (on_exception_logs e _)).
Qed.

(** The trace of a run of the edit handler, in full. *)
Lemma edit_trace (c : client) (request : CallToolRequest) :
  snd (run (MonitorEdit.handle_call c request))
  = match supplied request "monitor_id" with
    | None => []
    | Some monitor_id =>
        match MonitorEdit.priority_rejected
                (match supplied request "priority" with
                 | Some p => p | None => VNone end) with
        | inl e => map LogError (logged "monitor_edit" e)
        | inr true => []
        | inr false =>
            match patch request with
            | [] => []
            | _ :: _ =>
                UpdateMonitor monitor_id (patch request)
                :: match update_monitor_reply c monitor_id (patch request) with
                   | inl e => map LogError (logged "monitor_edit" e)
                   | inr _ => []
                   end
            end
        end
    end.
Proof.
  rewrite edit_run.
  destruct (supplied request "monitor_id") as [id|]; [|reflexivity].
  destruct (MonitorEdit.priority_rejected _) as [e|[|]]; [|reflexivity|].
  - now rewrite (proj2 (on_exception_logs e _)).
  - destruct (patch request) as [|kv kvs]; [reflexivity|].
    destruct (update_monitor_reply c id (kv :: kvs)) as [e|reply];
      [|reflexivity].
    now rewrite (proj2 (on_exception_logs e _)).
Qed.

Lemma in_logged_not_call (ev : event) (lines : list string) :
  In ev (map LogError lines) -> is_network_call ev = false.
Proof. intros H. apply in_map_iff in H as (l & <- & _). reflexivity. Qed.

(** A failed remote operation of the fetch handler is its one fetch. *)
Lemma get_remote_failed (c : client) (request : CallToolRequest) (e : exn) :
  remote_failed c (snd (run (GetMonitor.handle_call c request))) e ->
  exists monitor_id,
    supplied request "monitor_id" = Some monitor_id
    /\ fetch_monitor_reply c monitor_id = inl e.
Proof.
  intros Hfail. pose proof (get_network_calls c request) as Hcalls.
  destruct (supplied request "monitor_id") as [id|];
    destruct Hfail as [(i & Hin & Hi)|(i & k & Hin & _)];
    (apply in_network_calls in Hin; [|reflexivity]);
    rewrite Hcalls in Hin; cbn [In] in Hin.
  - destruct Hin as [Hin|[]]. inversion Hin; subst. now exists i.
  - destruct Hin as [Hin|[]]. discriminate.
  - destruct Hin.
  - destruct Hin.
Qed.

(** A failed remote operation of the edit handler is its one update. *)
Lemma edit_remote_failed (c : client) (request : CallToolRequest) (e : exn) :
  remote_failed c (snd (run (MonitorEdit.handle_call c request))) e ->
  exists monitor_id,
    supplied request "monitor_id" = Some monitor_id
    /\ MonitorEdit.priority_rejected
         (match supplied request "priority" with
          | Some p => p | None => VNone end) = inr false
    /\ patch request <> []
    /\ update_monitor_reply c monitor_id (patch request) = inl e.
Proof.
  rewrite edit_trace. intros Hfail.
  assert (Hcall : exists ev,
    is_network_call ev = true
    /\ In ev match supplied request "monitor_id" with
             | None => []
             | Some monitor_id =>
                 match MonitorEdit.priority_rejected
                         (match supplied request "priority" with
                          | Some p => p | None => VNone end) with
                 | inl e0 => map LogError (logged "monitor_edit" e0)
                 | inr true => []
                 | inr false =>
                     match patch request with
                     | [] => []
                     | _ :: _ =>
                         UpdateMonitor monitor_id (patch request)
                         :: match update_monitor_reply c monitor_id
                                    (patch request) with
                            | inl e0 => map LogError (logged "monitor_edit" e0)
                            | inr _ => []
                            end
                     end
                 end
             end
    /\ ((exists i, ev = FetchMonitor i)
        \/ exists i k, ev = UpdateMonitor i k
                       /\ update_monitor_reply c i k = inl e)).
  { destruct Hfail as [(i & Hin & _)|(i & k & Hin & Hi)].
    - exists (FetchMonitor i). repeat split; eauto.
    - exists (UpdateMonitor i k). repeat split; eauto. }
  destruct Hcall as (ev & Hnet & Hin & Hev).
  destruct (supplied request "monitor_id") as [id|]; [|destruct Hin].
  destruct (MonitorEdit.priority_rejected _) as [e'|[|]].
  - apply in_logged_not_call in Hin. congruence.
  - destruct Hin.
  - destruct (patch request) as [|kv kvs] eqn:Ep; [destruct Hin|].
    destruct Hin as [<-|Hin].
    + destruct Hev as [(i & Hi)|(i & k & Hi & Hr)]; [discriminate|].
      inversion Hi; subst. exists i. repeat split; [discriminate|exact Hr].
    + exfalso.
      destruct (update_monitor_reply c id (kv :: kvs));
        [apply in_logged_not_call in Hin; congruence|destruct Hin].
Qed.

(** X4.  When the remote operation of a tool fails, the handler writes one
    line to the error log, "Error in <tool name>: <message>", with the name
    its tool definition declares, except for the statuses 404 and 403 of an
    HTTP status error, which are not logged, and for an exception that does
    not derive from [Exception], which is not caught and so not logged. *)
Theorem remote_failure_is_logged
  (tool : Tool) (handle_call : client -> CallToolRequest -> M CallToolResult)
  (c : client) (request : CallToolRequest) (e : exn) :
  In (tool, handle_call) tools ->
  remote_failed c (snd (run (handle_call c request))) e ->
  log_lines (snd (run (handle_call c request)))
  = match e with
    | HTTPStatusError underlying status =>
        if (status =? 404) || (status =? 403) then []
        else ["Error in " ++ name tool ++ ": " ++ underlying]
    | PyException _ underlying =>
        ["Error in " ++ name tool ++ ": " ++ underlying]
    | PyBaseException _ _ => []
    end.
Proof.
  intros Ht Hfail. change (log_lines (snd (run (handle_call c request)))
                           = logged (name tool) e).
  destruct Ht as [Ht|[Ht|[]]]; inversion Ht; subst; clear Ht.
  - destruct (get_remote_failed c request e Hfail) as (id & Hid & He).
    rewrite get_trace, Hid, He.
    change (FetchMonitor id :: ?l) with ([FetchMonitor id] ++ l)%list.
    rewrite log_lines_app. apply log_lines_logged.
  - destruct (edit_remote_failed c request e Hfail)
      as (id & Hid & Hp & Hne & He).
    rewrite edit_trace, Hid, Hp.
    destruct (patch request) as [|kv kvs]; [congruence|]. rewrite He.
    change (UpdateMonitor id (kv :: kvs) :: ?l)
      with ([UpdateMonitor id (kv :: kvs)] ++ l)%list.
    rewrite log_lines_app. apply log_lines_logged.
Qed.

Lemma remote_failure_is_logged_witness :
  let c := Samples.answering (inl (HTTPStatusError "Server Error" 500)) in
  let request := Samples.request_of [("monitor_id", VInt 12345);
                                     ("name", VStr "New Name")] in
  log_lines (snd (run (MonitorEdit.handle_call c request)))
  = ["Error in monitor_edit: Server Error"].
Proof.
  intros c request.
  apply (remote_failure_is_logged MonitorEditTool.get_tool_definition
           MonitorEdit.handle_call c request
           (HTTPStatusError "Server Error" 500)).
  - right; left; reflexivity.
  - right. exists (VInt 12345), [("name", VStr "New Name")].
    split; [left|]; reflexivity.
Defined.

Lemma logged_cases (tool_name : string) (e : exn) :
  logged tool_name e = []
  \/ (logged tool_name e = ["Error in " ++ tool_name ++ ": " ++ exn_str e]
      /\ error_text e = "Error: " ++ exn_str e
      /\ is_exception e = true).
Proof.
  unfold logged, error_text.
  destruct e as [m s|cls m|cls m]; cbn [exn_str is_exception].
  - destruct (s =? 404); [now left|].
    destruct (s =? 403); [now left|]. right. now split.
  - right. now split.
  - now left.
Qed.

(** X5.  A call writes at most one line to the error log, and when it
    writes one, "Error in <tool name>: <message>", the result it returns is
    the failure "Error: <message>" with the same message: nothing is logged
    for a success, for a validation failure, for a 404 or for a 403. *)
Theorem logged_message_is_returned
  (tool : Tool) (handle_call : client -> CallToolRequest -> M CallToolResult)
  (c : client) (request : CallToolRequest) :
  In (tool, handle_call) tools ->
  log_lines (snd (run (handle_call c request))) = []
  \/ exists message,
       log_lines (snd (run (handle_call c request)))
       = ["Error in " ++ name tool ++ ": " ++ message]
       /\ fst (run (handle_call c request))
          = inr (text_result ("Error: " ++ message) true).
Proof.
  intros Ht.
  assert (Hexn : forall (h : exn -> M CallToolResult) tool_name e t,
    log_lines t = [] ->
    h e t = (if is_exception e then inr (failure (error_text e)) else inl e,
             (t ++ map LogError (logged tool_name e))%list) ->
    log_lines (snd (h e t)) = []
    \/ exists message,
         log_lines (snd (h e t)) = ["Error in " ++ tool_name ++ ": " ++ message]
         /\ fst (h e t) = inr (text_result ("Error: " ++ message) true)).
  { intros h tool_name e t Ht0 ->. cbn [fst snd].
    rewrite log_lines_app, log_lines_logged, Ht0. cbn [app].
    destruct (logged_cases tool_name e) as [->|(-> & Htext & ->)];
      [now left|].
    right. exists (exn_str e). now rewrite Htext. }
  destruct Ht as [Ht|[Ht|[]]]; inversion Ht; subst; clear Ht.
  - rewrite get_run.
    destruct (supplied request "monitor_id") as [id|]; [|now left].
    destruct (fetch_monitor_reply c id) as [e|monitor].
    + apply Hexn; [reflexivity|apply on_exception_logs].
    + destruct (eq_str _ "json"); [now left|].
      pose proof (table_content_silent id monitor [FetchMonitor id]) as Hs.
      destruct (GetMonitor.table_content id monitor [FetchMonitor id])
        as [[e|s] t]; cbn [snd] in Hs; subst t; [|now left].
      apply Hexn; [reflexivity|apply on_exception_logs].
  - rewrite edit_run.
    destruct (supplied request "monitor_id") as [id|]; [|now left].
    destruct (MonitorEdit.priority_rejected _) as [e|[|]]; [|now left|].
    + apply Hexn; [reflexivity|apply on_exception_logs].
    + destruct (patch request) as [|kv kvs]; [now left|].
      destruct (update_monitor_reply c id (kv :: kvs)) as [e|reply];
        [|now left].
      apply Hexn; [reflexivity|apply on_exception_logs].
Qed.

Lemma logged_message_is_returned_witness :
  let c := Samples.answering (inr (VDict [("tags", VNone)])) in
  let request := Samples.request_of [("monitor_id", VInt 12345)] in
  log_lines (snd (run (GetMonitor.handle_call c request))) = []
  \/ exists message,
       log_lines (snd (run (GetMonitor.handle_call c request)))
       = ["Error in get_monitor: " ++ message]
       /\ fst (run (GetMonitor.handle_call c request))
          = inr (text_result ("Error: " ++ message) true).
Proof.
  intros c request.
  apply (logged_message_is_returned GetMonitorTool.get_tool_definition
           GetMonitor.handle_call c request).
  left; reflexivity.
Defined.

(** ** What the handlers do not look at *)

Lemma table_content_agree (monitor_id : value) (d1 d2 : dict)
  (t : list event) :
  (forall key, In key shown_attributes ->
               dict_lookup d1 key = dict_lookup d2 key) ->
  GetMonitor.table_content monitor_id (VDict d1) t
  = GetMonitor.table_content monitor_id (VDict d2) t.
Proof.
  intros H. unfold GetMonitor.table_content. cbn [get].
  rewrite !dict_get_lookup.
  rewrite (H "name"), (H "type"), (H "overall_state"), (H "priority"),
    (H "query"), (H "message"), (H "tags")
    by (cbn; tauto).
  reflexivity.
Qed.

(** X6.  The table is written from seven attributes of the fetched record
    (name, type, overall_state, priority, query, message, tags) and from the
    [monitor_id] of the request: two records that agree on these seven give
    the same result and the same trace, whatever else they hold.  In
    particular the [id] of the record is not read; the ID line shows the
    identifier that was asked for. *)
Theorem table_reads_seven_attributes
  (c1 c2 : client) (request : CallToolRequest) (monitor_id : value)
  (d1 d2 : dict) :
  supplied request "monitor_id" = Some monitor_id ->
  argument request "format" <> Some (VStr "json") ->
  fetch_monitor_reply c1 monitor_id = inr (VDict d1) ->
  fetch_monitor_reply c2 monitor_id = inr (VDict d2) ->
  (forall key, In key shown_attributes ->
               dict_lookup d1 key = dict_lookup d2 key) ->
  run (GetMonitor.handle_call c1 request)
  = run (GetMonitor.handle_call c2 request).
Proof.
  intros Hid Hf H1 H2 Hagree.
  rewrite !get_run, Hid, H1, H2, (format_not_json _ Hf).
  now rewrite (table_content_agree monitor_id d1 d2 _ Hagree).
Qed.

Lemma table_reads_seven_attributes_witness :
  let request := Samples.request_of [("monitor_id", VInt 12345)] in
  let d1 := [("id", VInt 12345); ("name", VStr "CPU"); ("tags", VList [])] in
  let d2 := [("name", VStr "CPU"); ("id", VInt 777); ("tags", VList []);
             ("created", VStr "2024-01-01T00:00:00Z")] in
  run (GetMonitor.handle_call (Samples.answering (inr (VDict d1))) request)
  = run (GetMonitor.handle_call (Samples.answering (inr (VDict d2))) request).
Proof.
  intros request d1 d2.
  assert (Hf : argument request "format" <> Some (VStr "json"))
    by discriminate.
  assert (Hagree : forall key, In key shown_attributes ->
                     dict_lookup d1 key = dict_lookup d2 key).
  { intros key [<-|[<-|[<-|[<-|[<-|[<-|[<-|[]]]]]]]]; reflexivity. }
  exact (table_reads_seven_attributes
           (Samples.answering (inr (VDict d1)))
           (Samples.answering (inr (VDict d2)))
           request (VInt 12345) d1 d2 eq_refl Hf eq_refl eq_refl Hagree).
Defined.

Lemma supplied_without (key key' : string) (request : CallToolRequest) :
  String.eqb key key' = false ->
  supplied (without_argument key request) key' = supplied request key'.
Proof. intros H. unfold supplied. now rewrite argument_without, H. Qed.

(** X7.  An argument that the input schema of the tool does not declare is
    ignored by the handler: the run with it is the run without it, result
    and trace.  The handlers do not enforce the [additionalProperties: False]
    of their schemas. *)
Theorem undeclared_arguments_are_ignored
  (tool : Tool) (handle_call : client -> CallToolRequest -> M CallToolResult)
  (c : client) (request : CallToolRequest) (key : string) :
  In (tool, handle_call) tools ->
  ~ In key (declared_properties tool) ->
  run (handle_call c request)
  = run (handle_call c (without_argument key request)).
Proof.
  intros Ht Hkey.
  assert (Hne : forall k, In k (declared_properties tool) ->
                          String.eqb key k = false).
  { intros k Hk. apply String.eqb_neq. intros ->. contradiction. }
  destruct Ht as [Ht|[Ht|[]]]; inversion Ht; subst; clear Ht.
  - rewrite !get_run.
    rewrite (supplied_without key "monitor_id") by (apply Hne; cbn; tauto).
    rewrite (argument_without key "format").
    rewrite (Hne "format") by (cbn; tauto). reflexivity.
  - assert (Hpatch : patch (without_argument key request) = patch request).
    { unfold patch, patch_fields. cbn [flat_map].
      rewrite (supplied_without key "name"), (supplied_without key "message"),
        (supplied_without key "tags"), (supplied_without key "priority")
        by (apply Hne; cbn; tauto).
      reflexivity. }
    rewrite !edit_run, Hpatch.
    rewrite (supplied_without key "monitor_id"),
      (supplied_without key "priority") by (apply Hne; cbn; tauto).
    reflexivity.
Qed.

Lemma undeclared_arguments_are_ignored_witness :
  let c := Samples.answering (inr (VDict Samples.cpu_monitor)) in
  let request := Samples.request_of [("query", VStr "avg:system.load.1{*}");
                                     ("monitor_id", VInt 12345);
                                     ("name", VStr "New Name")] in
  run (MonitorEdit.handle_call c request)
  = run (MonitorEdit.handle_call c
           (Samples.request_of [("monitor_id", VInt 12345);
                                ("name", VStr "New Name")])).
Proof.
  intros c request.
  apply (undeclared_arguments_are_ignored MonitorEditTool.get_tool_definition
           MonitorEdit.handle_call c request "query").
  - right; left; reflexivity.
  - intros [H|[H|[H|[H|[H|[]]]]]]; discriminate H.
Defined.

(** X8.  In json format the fetched value is written as it is, whatever its
    shape: the call succeeds also when the remote client returns something
    that is not a dictionary.  In table format such a value makes the call
    fail with the interpreter's message about the missing [get], after the
    one fetch and with one line in the log. *)
Theorem record_that_is_not_a_dictionary
  (c : client) (request : CallToolRequest) (monitor_id monitor : value) :
  supplied request "monitor_id" = Some monitor_id ->
  fetch_monitor_reply c monitor_id = inr monitor ->
  (forall d, monitor <> VDict d) ->
  let complaint :=
    "'" ++ type_name monitor ++ "' object has no attribute 'get'" in
  (argument request "format" = Some (VStr "json") ->
   run (GetMonitor.handle_call c request)
   = (inr (text_result (Json.dumps monitor) false),
      [FetchMonitor monitor_id]))
  /\ (argument request "format" <> Some (VStr "json") ->
      run (GetMonitor.handle_call c request)
      = (inr (text_result ("Error: " ++ complaint) true),
         [FetchMonitor monitor_id;
          LogError ("Error in get_monitor: " ++ complaint)])).
Proof.
  intros Hid Hr Hnd complaint. split; intros Hf.
  - now rewrite get_run, Hid, Hr, Hf.
  - rewrite get_run, Hid, Hr, (format_not_json _ Hf).
    destruct monitor; try reflexivity. now destruct (Hnd items).
Qed.

Lemma record_that_is_not_a_dictionary_witness :
  let c := Samples.answering (inr (VList [VDict Samples.cpu_monitor])) in
  let request := Samples.request_of [("monitor_id", VInt 12345)] in
  run (GetMonitor.handle_call c request)
  = (inr (text_result "Error: 'list' object has no attribute 'get'" true),
     [FetchMonitor (VInt 12345);
      LogError "Error in get_monitor: 'list' object has no attribute 'get'"]).
Proof.
  intros c request.
  assert (Hnd : forall d, VList [VDict Samples.cpu_monitor] <> VDict d)
    by discriminate.
  assert (Hf : argument request "format" <> Some (VStr "json"))
    by discriminate.
  exact (proj2 (record_that_is_not_a_dictionary c request (VInt 12345)
                  (VList [VDict Samples.cpu_monitor]) eq_refl eq_refl Hnd) Hf).
Defined.

(** ** Records the table cannot be written from *)

Lemma join_items_outcome (sep : string) (xs : list value) :
  forall i,
    match join_items sep i xs with
    | inr _ => forallb is_str xs = true
    | inl _ => forallb is_str xs = false
    end.
Proof.
  induction xs as [|x xs IH]; intros i; [reflexivity|].
  destruct x; try reflexivity. cbn [join_items forallb is_str andb].
  specialize (IH (S i)). now destruct (join_items sep (S i) xs).
Qed.

Lemma table_content_outcome (monitor_id : value) (d : dict) (t : list event) :
  match fst (GetMonitor.table_content monitor_id (VDict d) t) with
  | inr _ => renderable d = true
  | inl _ => renderable d = false
  end.
Proof.
  unfold GetMonitor.table_content, renderable. cbn [get].
  rewrite !bind_lift_inr.
  destruct (dict_get d "tags" (VList [])) as [|b|z|s|xs|items];
    destruct (dict_get d "message" (VStr "")) as [|b'|z'|s'|xs'|items'];
    cbn [tags_renderable is_str andb];
    repeat first
      [ rewrite bind_lift_inr | rewrite bind_lift_inl | rewrite bind_ret
      | rewrite bind_bind
      | progress cbn [slice_to join_value len add_str replace]
      | match goal with
        | |- context [if ?b >? 100 then _ else _] => destruct (b >? 100)
        | |- context [join_items ?sep ?i ?l] =>
            let Hj := fresh "Hj" in
            pose proof (join_items_outcome sep l i) as Hj;
            destruct (join_items sep i l);
            cbv beta iota in Hj; rewrite Hj
        end ];
    unfold ret; cbn [fst andb]; reflexivity.
Qed.

(** X9.  For a fetched dictionary, the table is written, and the call
    succeeds, exactly when [tags] is absent, a string, or a list whose first
    five items are strings (later items are counted, not read), and
    [message] is absent or a string.  With any other shape, a null [tags] or
    a null [message] for instance, the call returns a failure. *)
Theorem table_needs_tags_and_message
  (c : client) (request : CallToolRequest) (monitor_id : value) (d : dict) :
  supplied request "monitor_id" = Some monitor_id ->
  argument request "format" <> Some (VStr "json") ->
  fetch_monitor_reply c monitor_id = inr (VDict d) ->
  exists output,
    fst (run (GetMonitor.handle_call c request))
    = inr (text_result output
             (negb (tags_renderable (dict_get d "tags" (VList []))
                    && is_str (dict_get d "message" (VStr ""))))).
Proof.
  intros Hid Hf Hr. rewrite get_run, Hid, Hr, (format_not_json _ Hf).
  pose proof (table_content_outcome monitor_id d [FetchMonitor monitor_id])
    as Hout.
  pose proof (table_content_raises monitor_id (VDict d)
                [FetchMonitor monitor_id]) as Hraises.
  unfold renderable in Hout.
  destruct (GetMonitor.table_content monitor_id (VDict d)
              [FetchMonitor monitor_id]) as [[e|s] t];
    cbn [fst] in Hout; rewrite Hout.
  - destruct (proj1 (on_exception_reports e t (Hraises e eq_refl)))
      as (log & -> & _).
    eexists; reflexivity.
  - eexists; reflexivity.
Qed.

Lemma table_needs_tags_and_message_witness :
  let d := [("name", VStr "Disk"); ("message", VNone);
            ("tags", VList [VStr "env:prod"])] in
  let c := Samples.answering (inr (VDict d)) in
  let request := Samples.request_of [("monitor_id", VInt 12345)] in
  exists output,
    fst (run (GetMonitor.handle_call c request))
    = inr (text_result output true).
Proof.
  intros d c request.
  assert (Hf : argument request "format" <> Some (VStr "json"))
    by discriminate.
  exact (table_needs_tags_and_message c request (VInt 12345) d
           eq_refl Hf eq_refl).
Defined.

Lemma message_shown_length (m : string) :
  (String.length (message_shown m) <= 103)%nat.
Proof.
  unfold message_shown.
  destruct (Nat.ltb_spec 100 (String.length m)) as [Hl|Hl].
  - rewrite length_append, str_take_length. cbn [String.length]. lia.
  - rewrite str_replace_length. lia.
Qed.

(** X10.  However long the message of the record is, the Message line of
    the table shows at most 103 characters of it: a hundred and the three
    dots. *)
Theorem message_field_is_bounded
  (c : client) (request : CallToolRequest) (monitor_id : value) (d : dict)
  (tags : option (list string)) (message : option string) :
  supplied request "monitor_id" = Some monitor_id ->
  argument request "format" <> Some (VStr "json") ->
  fetch_monitor_reply c monitor_id = inr (VDict d) ->
  tags_of d = Some tags ->
  message_of d = Some message ->
  exists before field,
    List.length before = 10%nat
    /\ fst (run (GetMonitor.handle_call c request))
       = inr (text_result (unlines before ++ "Message:  " ++ field ++ nl)
                false)
    /\ (String.length field <= 103)%nat.
Proof.
  intros Hid Hf Hr Ht Hm.
  exists (firstn 10 (table_lines monitor_id d tags message)),
         (message_field message).
  split; [reflexivity|]. split.
  - rewrite (get_run_table c request monitor_id d tags message
               Hid Hf Hr Ht Hm).
    cbn [fst]. unfold table, success, text_result. do 4 f_equal.
    change (table_lines monitor_id d tags message)
      with (firstn 10 (table_lines monitor_id d tags message)
              ++ [("Message:  " ++ message_field message)%string])%list at 1.
    rewrite unlines_app. cbn [unlines].
    now rewrite append_nil_r, !append_assoc.
  - destruct message as [m|]; [|cbn; lia].
    unfold message_field, or_default.
    destruct (String.eqb (message_shown m) ""); [cbn; lia|].
    apply message_shown_length.
Qed.

Lemma message_field_is_bounded_witness :
  let d := [("message", VStr (str_mul "0123456789" 50))] in
  let c := Samples.answering (inr (VDict d)) in
  let request := Samples.request_of [("monitor_id", VInt 12345)] in
  exists before field,
    List.length before = 10%nat
    /\ fst (run (GetMonitor.handle_call c request))
       = inr (text_result (unlines before ++ "Message:  " ++ field ++ nl)
                false)
    /\ (String.length field <= 103)%nat.
Proof.
  intros d c request.
  assert (Hf : argument request "format" <> Some (VStr "json"))
    by discriminate.
  exact (message_field_is_bounded c request (VInt 12345) d None
           (Some (str_mul "0123456789" 50)) eq_refl Hf eq_refl eq_refl eq_refl).
Defined.

(** ** The handlers and their input schemas *)

(** X11.  The range the edit handler accepts for an integer priority is the
    range its input schema declares: with the [minimum] and the [maximum]
    that the schema gives for [priority], the priority check rejects an
    integer exactly when it lies outside them. *)
Theorem priority_check_matches_schema (lo hi z : Z) :
  at_path (inputSchema MonitorEditTool.get_tool_definition)
    ["properties"; "priority"; "minimum"] = Some (VInt lo) ->
  at_path (inputSchema MonitorEditTool.get_tool_definition)
    ["properties"; "priority"; "maximum"] = Some (VInt hi) ->
  MonitorEdit.priority_rejected (VInt z)
  = inr (negb ((lo <=? z) && (z <=? hi))).
Proof.
  intros Hlo Hhi. cbn in Hlo, Hhi. inversion Hlo; inversion Hhi; subst.
  unfold MonitorEdit.priority_rejected. cbn [is_none negb lt_int gt_int].
  rewrite Z.gtb_ltb.
  destruct (Z.ltb_spec z 1), (Z.leb_spec 1 z), (Z.ltb_spec 5 z),
    (Z.leb_spec z 5); try lia; reflexivity.
Qed.

Lemma priority_check_matches_schema_witness :
  MonitorEdit.priority_rejected (VInt 6) = inr true.
Proof.
  exact (priority_check_matches_schema 1 5 6 eq_refl eq_refl).
Defined.

Lemma lookup_dict_set (d : dict) (key key' : string) (v : value) :
  dict_lookup (dict_set d key v) key'
  = if String.eqb key key' then Some v else dict_lookup d key'.
Proof.
  induction d as [|[k w] d IH]; cbn [dict_set dict_lookup].
  - reflexivity.
  - destruct (String.eqb_spec k key) as [->|Hk]; cbn [dict_lookup].
    + destruct (String.eqb_spec key key'); reflexivity.
    + rewrite IH. destruct (String.eqb_spec k key') as [->|Hk'].
      * destruct (String.eqb_spec key key'); [congruence|reflexivity].
      * reflexivity.
Qed.

Lemma argument_with (key key' : string) (v : value)
  (request : CallToolRequest) :
  argument (with_argument key v request) key'
  = if String.eqb key key' then Some v else argument request key'.
Proof.
  unfold argument, with_argument. cbn [arguments].
  rewrite lookup_dict_set. now destruct (arguments request).
Qed.

(** X12.  Leaving [format] out of a [get_monitor] request is the same as
    passing the default that its input schema declares for it: the default
    of the handler and the default of the schema are the same value. *)
Theorem omitted_format_is_the_schema_default
  (c : client) (request : CallToolRequest) (default : value) :
  at_path (inputSchema GetMonitorTool.get_tool_definition)
    ["properties"; "format"; "default"] = Some default ->
  argument request "format" = None ->
  run (GetMonitor.handle_call c request)
  = run (GetMonitor.handle_call c (with_argument "format" default request)).
Proof.
  intros Hd Hf. cbn in Hd. inversion Hd; subst.
  rewrite !get_run. unfold supplied. rewrite !argument_with, Hf.
  reflexivity.
Qed.

Lemma omitted_format_is_the_schema_default_witness :
  let c := Samples.answering (inr (VDict Samples.cpu_monitor)) in
  run (GetMonitor.handle_call c
         (Samples.request_of [("monitor_id", VInt 12345)]))
  = run (GetMonitor.handle_call c
           (Samples.request_of [("monitor_id", VInt 12345);
                                ("format", VStr "table")])).
Proof.
  intros c.
  exact (omitted_format_is_the_schema_default c
           (Samples.request_of [("monitor_id", VInt 12345)]) (VStr "table")
           eq_refl eq_refl).
Defined.

(** X13.  A priority that is a string, a list or a dictionary is not
    answered with the "Invalid priority" message: the comparison with 1
    raises, and the edit handler returns the interpreter's message after
    "Error: ", logs it, and makes no network call. *)
Theorem priority_that_is_not_a_number
  (c : client) (request : CallToolRequest) (monitor_id priority : value) :
  supplied request "monitor_id" = Some monitor_id ->
  argument request "priority" = Some priority ->
  In (type_name priority) ["str"; "list"; "dict"] ->
  let complaint :=
    "'<' not supported between instances of '" ++ type_name priority
      ++ "' and 'int'" in
  run (MonitorEdit.handle_call c request)
  = (inr (text_result ("Error: " ++ complaint) true),
     [LogError ("Error in monitor_edit: " ++ complaint)]).
Proof.
  intros Hid Hp Hty complaint. rewrite edit_run, Hid. unfold supplied.
  rewrite Hp.
  destruct priority; cbn [type_name In] in Hty;
    first [ destruct Hty as [H|[H|[H|[]]]]; discriminate H | reflexivity ].
Qed.

Lemma priority_that_is_not_a_number_witness :
  let c := Samples.answering (inr VNone) in
  let request := Samples.request_of [("monitor_id", VInt 12345);
                                     ("priority", VStr "high")] in
  run (MonitorEdit.handle_call c request)
  = (inr (text_result
            "Error: '<' not supported between instances of 'str' and 'int'"
            true),
     [LogError
        "Error in monitor_edit: '<' not supported between instances of 'str' and 'int'"]).
Proof.
  intros c request.
  apply (priority_that_is_not_a_number c request (VInt 12345) (VStr "high")
           eq_refl eq_refl).
  left; reflexivity.
Defined.

(** X14.  A boolean priority is compared as the integer it stands for:
    [true] passes the check as 1 does and is sent to [update_monitor] as the
    boolean it is; [false] is rejected like 0, with no network call. *)
Theorem priority_that_is_a_boolean
  (c : client) (request : CallToolRequest) (monitor_id : value) (b : bool) :
  supplied request "monitor_id" = Some monitor_id ->
  argument request "priority" = Some (VBool b) ->
  if b then
    dict_lookup (patch request) "priority" = Some (VBool true)
    /\ exists log,
         snd (run (MonitorEdit.handle_call c request))
         = UpdateMonitor monitor_id (patch request) :: log
  else
    run (MonitorEdit.handle_call c request)
    = (inr (text_result "Invalid priority: must be 1-5" true), []).
Proof.
  intros Hid Hp.
  assert (Hs : supplied request "priority" = Some (VBool b))
    by (unfold supplied; now rewrite Hp).
  destruct b.
  - assert (Hl : dict_lookup (patch request) "priority" = Some (VBool true))
      by (apply patch_lookup; split; [cbn; tauto|exact Hs]).
    split; [exact Hl|].
    rewrite edit_trace, Hid, Hs.
    destruct (patch request) as [|kv kvs]; [discriminate|].
    eexists; reflexivity.
  - now rewrite edit_run, Hid, Hs.
Qed.

Lemma priority_that_is_a_boolean_witness :
  let c := Samples.answering (inr VNone) in
  let request := Samples.request_of [("monitor_id", VInt 12345);
                                     ("priority", VBool false)] in
  run (MonitorEdit.handle_call c request)
  = (inr (text_result "Invalid priority: must be 1-5" true), []).
Proof.
  intros c request.
  exact (priority_that_is_a_boolean c request (VInt 12345) false
           eq_refl eq_refl).
Defined.

(** ** The json text *)

Lemma plain_text_append (a b : string) :
  plain_text (a ++ b) = plain_text a && plain_text b.
Proof.
  induction a as [|c a IH]; [reflexivity|].
  cbn [append plain_text]. now rewrite IH, andb_assoc.
Qed.

Lemma plain_text_escape_char (c : ascii) :
  plain_text (Json.escape_char c) = true.
Proof. destruct c as [[] [] [] [] [] [] [] []]; reflexivity. Qed.

Lemma plain_text_escape (s : string) : plain_text (Json.escape s) = true.
Proof.
  induction s as [|c s IH]; [reflexivity|].
  cbn [Json.escape]. now rewrite plain_text_append, plain_text_escape_char.
Qed.

Lemma plain_text_encode_str (s : string) :
  plain_text (Json.encode_str s) = true.
Proof.
  unfold Json.encode_str. cbn [plain_text].
  now rewrite plain_text_append, plain_text_escape.
Qed.

Lemma plain_text_digits (s : string) :
  all_digits s = true -> plain_text s = true.
Proof.
  induction s as [|c s IH]; [reflexivity|]. cbn [all_digits plain_text].
  intros H. apply andb_true_iff in H as [Hc Hs]. rewrite (IH Hs), andb_true_r.
  destruct c as [[] [] [] [] [] [] [] []]; try discriminate; reflexivity.
Qed.

Lemma plain_text_str_of_int (z : Z) : plain_text (str_of_int z) = true.
Proof.
  destruct (str_of_int_shape z) as (sign & c & more & -> & Hs & Hd & _).
  rewrite plain_text_append, (plain_text_digits _ Hd).
  now destruct Hs as [-> | ->].
Qed.

Lemma plain_text_newline_indent (level : nat) :
  plain_text (Json.newline_indent level) = true.
Proof.
  unfold Json.newline_indent. rewrite plain_text_append.
  induction level as [|n IH]; [reflexivity|exact IH].
Qed.

Lemma plain_text_join (sep : string) (parts : list string) :
  plain_text sep = true ->
  Forall (fun p => plain_text p = true) parts ->
  plain_text (join sep parts) = true.
Proof.
  intros Hsep Hall. induction Hall as [|p ps Hp Hps IH]; [reflexivity|].
  destruct ps as [|q qs]; [exact Hp|].
  rewrite join_cons, !plain_text_append, Hp, Hsep. exact IH.
Qed.

Lemma plain_text_encode (v : value) :
  forall level, plain_text (Json.encode level v) = true.
Proof.
  induction v as [|b|z|s|xs IH|items IH] using value_induction; intros level.
  - reflexivity.
  - now destruct b.
  - apply plain_text_str_of_int.
  - apply plain_text_encode_str.
  - destruct xs as [|x xs]; [reflexivity|].
    rewrite encode_list, !plain_text_append, !plain_text_newline_indent.
    rewrite plain_text_join; [reflexivity| |].
    + rewrite plain_text_append. apply plain_text_newline_indent.
    + apply Forall_map. apply Forall_forall. intros y Hy.
      exact (proj1 (Forall_forall _ _) IH y Hy (S level)).
  - destruct items as [|kv items]; [reflexivity|].
    rewrite encode_dict, !plain_text_append, !plain_text_newline_indent.
    rewrite plain_text_join; [reflexivity| |].
    + rewrite plain_text_append. apply plain_text_newline_indent.
    + apply Forall_map. apply Forall_forall. intros [k y] Hy.
      cbn [encode_item]. rewrite !plain_text_append, plain_text_encode_str.
      exact (proj1 (Forall_forall _ _) IH (k, y) Hy (S level)).
Qed.

(** X15.  The text of a call in json format holds printable ASCII
    characters and newlines only, whatever the fetched value holds: every
    other character of a string is written as an escape. *)
Theorem json_output_is_plain_ascii
  (c : client) (request : CallToolRequest) (monitor_id monitor : value) :
  supplied request "monitor_id" = Some monitor_id ->
  argument request "format" = Some (VStr "json") ->
  fetch_monitor_reply c monitor_id = inr monitor ->
  exists output,
    fst (run (GetMonitor.handle_call c request))
    = inr (text_result output false)
    /\ plain_text output = true.
Proof.
  intros Hid Hf Hr. exists (Json.dumps monitor). split.
  - now rewrite get_run, Hid, Hr, Hf.
  - apply plain_text_encode.
Qed.

Lemma json_output_is_plain_ascii_witness :
  let monitor :=
    VDict [("name", VStr (String (ascii_of_nat 233) (nl ++ "caf")))] in
  let c := Samples.answering (inr monitor) in
  let request := Samples.request_of [("monitor_id", VInt 1);
                                     ("format", VStr "json")] in
  exists output,
    fst (run (GetMonitor.handle_call c request))
    = inr (text_result output false)
    /\ plain_text output = true.
Proof.
  intros monitor c request.
  exact (json_output_is_plain_ascii c request (VInt 1) monitor
           eq_refl eq_refl eq_refl).
Defined.

(** X16.  The json format loses nothing: two decoded bodies for which the
    fetch handler returns the same text are the same body. *)
Theorem json_output_determines_the_record
  (c1 c2 : client) (request : CallToolRequest) (monitor_id v1 v2 : value) :
  supplied request "monitor_id" = Some monitor_id ->
  argument request "format" = Some (VStr "json") ->
  fetch_monitor_reply c1 monitor_id = inr v1 ->
  fetch_monitor_reply c2 monitor_id = inr v2 ->
  well_formed v1 = true ->
  well_formed v2 = true ->
  fst (run (GetMonitor.handle_call c1 request))
  = fst (run (GetMonitor.handle_call c2 request)) ->
  v1 = v2.
Proof.
  intros Hid Hf H1 H2 Hw1 Hw2. rewrite !get_run, Hid, H1, H2, Hf.
  cbn [eq_str String.eqb Ascii.eqb Bool.eqb fst]. intros H.
  assert (Hd : Json.dumps v1 = Json.dumps v2) by now inversion H.
  pose proof (loads_dumps v1 Hw1) as L1. rewrite Hd, (loads_dumps v2 Hw2) in L1.
  now inversion L1.
Qed.

Lemma json_output_determines_the_record_witness :
  let request := Samples.request_of [("monitor_id", VInt 1);
                                     ("format", VStr "json")] in
  let v := VDict [("id", VInt 1); ("tags", VList [])] in
  v = v.
Proof.
  intros request v.
  exact (json_output_determines_the_record
           (Samples.answering (inr v)) (Samples.answering (inr v))
           request (VInt 1) v v eq_refl eq_refl eq_refl eq_refl
           eq_refl eq_refl eq_refl).
Defined.

(** ** Every table that is written *)

Lemma join_items_strings_among (sep : string) (xs : list value) :
  forallb is_str xs = true ->
  forall i, join_items sep i xs = inr (strings_among xs).
Proof.
  induction xs as [|x xs IH]; intros H i; [reflexivity|].
  destruct x; try discriminate. cbn [forallb is_str andb] in H.
  cbn [join_items]. now rewrite (IH H).
Qed.

Lemma tags_steps_renderable (tags : value) :
  tags_renderable tags = true ->
  exists head shown count,
    slice_to tags 5 = inr head
    /\ join_value ", " head = inr shown
    /\ len tags = inr count
    /\ (if count >? 5
        then shown ++ " (+" ++ str_of_int (count - 5) ++ " more)"
        else shown) = shown_tags tags.
Proof.
  assert (Hcount : forall (n : nat) (shown : string),
    (if Z.of_nat n >? 5
     then shown ++ " (+" ++ str_of_int (Z.of_nat n - 5) ++ " more)"
     else shown)
    = shown ++ (if (5 <? n)%nat
                then " (+" ++ str_of_int (Z.of_nat (n - 5)) ++ " more)"
                else "")).
  { intros n shown. destruct (Nat.ltb_spec 5 n) as [Hl|Hl].
    - replace (Z.of_nat n >? 5) with true
        by (symmetry; rewrite Z.gtb_ltb; apply Z.ltb_lt; lia).
      now replace (Z.of_nat n - 5) with (Z.of_nat (n - 5)) by lia.
    - replace (Z.of_nat n >? 5) with false
        by (symmetry; rewrite Z.gtb_ltb; apply Z.ltb_ge; lia).
      now rewrite append_nil_r. }
  destruct tags as [|b|z|s|xs|items]; try discriminate; intros H.
  - exists (VStr (str_take 5 s)), (join ", " (chars (str_take 5 s))),
      (Z.of_nat (String.length s)).
    repeat split. apply Hcount.
  - cbn [tags_renderable] in H.
    exists (VList (firstn 5 xs)), (join ", " (strings_among (firstn 5 xs))),
      (Z.of_nat (List.length xs)).
    split; [reflexivity|]. split; [|split; [reflexivity|apply Hcount]].
    unfold join_value. now rewrite (join_items_strings_among _ _ H).
Qed.

Lemma table_content_renderable (monitor_id : value) (d : dict)
  (message : option string) (t : list event) :
  tags_renderable (dict_get d "tags" (VList [])) = true ->
  message_of d = Some message ->
  GetMonitor.table_content monitor_id (VDict d) t
  = (inr (unlines
            [ "Monitor Details";
              "===============";
              "";
              "ID:       " ++ str monitor_id;
              "Name:     " ++ attribute d "name" "Unnamed";
              "Type:     " ++ attribute d "type" "unknown";
              "State:    " ++ attribute d "overall_state" "unknown";
              "Priority: " ++ attribute d "priority" "N/A";
              "Tags:     "
                ++ or_default (shown_tags (dict_get d "tags" (VList [])))
                     "None";
              "Query:    " ++ attribute d "query" "N/A";
              "Message:  " ++ message_field message ]),
     t).
Proof.
  intros Ht Hm.
  destruct (tags_steps_renderable _ Ht)
    as (head & shown & count & Hs & Hj & Hl & Htf).
  destruct (message_steps _ _ Hm)
    as (mv & size & cut & mshown & Hg' & Hl' & Hcut & Hr & Hmf).
  unfold GetMonitor.table_content.
  cbn [get] in Hg' |- *.
  rewrite !bind_lift_inr.
  injection Hg' as ->.
  rewrite Hs, bind_lift_inr, Hj, bind_lift_inr, Hl, bind_lift_inr.
  rewrite Hl', bind_lift_inr.
  assert (Hc : forall (B : Type) (k : value -> M B),
    bind (if size >? 100
          then bind (lift (slice_to mv 100))
                    (fun prefix => lift (add_str prefix "..."))
          else ret mv) k t = k cut t).
  { intros B k. destruct (size >? 100).
    - destruct Hcut as (prefix & Hp & Ha).
      now rewrite bind_bind, Hp, bind_lift_inr, Ha, bind_lift_inr.
    - now rewrite Hcut, bind_ret. }
  rewrite Hc, Hr, bind_lift_inr. unfold ret.
  rewrite !truthy_or_default, Htf, Hmf, !get_attribute.
  cbn [unlines str_mul].
  rewrite !append_assoc. reflexivity.
Qed.

(** X17.  Every table the fetch handler writes: for a fetched dictionary
    whose [tags] is absent, a string, or a list with strings as its first
    five items, and whose [message] is absent or a string, the result is the
    block below.  A [tags] value that is one string is shown character by
    character, and items of a list after the fifth are counted without being
    read. *)
Theorem every_table_written
  (c : client) (request : CallToolRequest) (monitor_id : value) (d : dict)
  (message : option string) :
  supplied request "monitor_id" = Some monitor_id ->
  argument request "format" <> Some (VStr "json") ->
  fetch_monitor_reply c monitor_id = inr (VDict d) ->
  tags_renderable (dict_get d "tags" (VList [])) = true ->
  message_of d = Some message ->
  run (GetMonitor.handle_call c request)
  = (inr (text_result
            (unlines
               [ "Monitor Details";
                 "===============";
                 "";
                 "ID:       " ++ str monitor_id;
                 "Name:     " ++ attribute d "name" "Unnamed";
                 "Type:     " ++ attribute d "type" "unknown";
                 "State:    " ++ attribute d "overall_state" "unknown";
                 "Priority: " ++ attribute d "priority" "N/A";
                 "Tags:     "
                   ++ or_default (shown_tags (dict_get d "tags" (VList [])))
                        "None";
                 "Query:    " ++ attribute d "query" "N/A";
                 "Message:  " ++ message_field message ])
            false),
     [FetchMonitor monitor_id]).
Proof.
  intros Hid Hf Hr Ht Hm.
  rewrite get_run, Hid, Hr, (format_not_json _ Hf).
  now rewrite (table_content_renderable monitor_id d message _ Ht Hm).
Qed.

Lemma every_table_written_witness :
  let d := [("name", VStr "Disk"); ("tags", VStr "env:prod")] in
  let c := Samples.answering (inr (VDict d)) in
  let request := Samples.request_of [("monitor_id", VInt 12345)] in
  run (GetMonitor.handle_call c request)
  = (inr (text_result
            (unlines
               [ "Monitor Details";
                 "===============";
                 "";
                 "ID:       12345";
                 "Name:     Disk";
                 "Type:     unknown";
                 "State:    unknown";
                 "Priority: N/A";
                 "Tags:     e, n, v, :, p (+3 more)";
                 "Query:    N/A";
                 "Message:  None" ])
            false),
     [FetchMonitor (VInt 12345)]).
Proof.
  intros d c request.
  assert (Hf : argument request "format" <> Some (VStr "json"))
    by discriminate.
  exact (every_table_written c request (VInt 12345) d None
           eq_refl Hf eq_refl eq_refl eq_refl).
Defined.

(** ** What reaches the remote client, and what a success means *)

Lemma patch_in (request : CallToolRequest) (key : string) (v : value) :
  In (key, v) (patch request) ->
  In key patch_fields /\ supplied request key = Some v.
Proof.
  unfold patch, patch_fields. cbn [flat_map].
  destruct (supplied request "name") as [n|] eqn:En;
  destruct (supplied request "message") as [m|] eqn:Em;
  destruct (supplied request "tags") as [t|] eqn:Et;
  destruct (supplied request "priority") as [p|] eqn:Ep;
  cbn [app In]; intros H;
  repeat match goal with
  | H : _ \/ _ |- _ => destruct H as [H|H]
  | H : False |- _ => destruct H
  | H : (_, _) = (_, _) |- _ => inversion H; subst; clear H
  end;
  (split; [cbn; tauto|assumption]).
Qed.

Lemma patch_keys_distinct (request : CallToolRequest) :
  NoDup (map fst (patch request)).
Proof.
  unfold patch, patch_fields. cbn [flat_map].
  destruct (supplied request "name");
  destruct (supplied request "message");
  destruct (supplied request "tags");
  destruct (supplied request "priority");
  cbn [app map fst];
  repeat (constructor; [cbn [In]; intros H;
                        repeat (destruct H as [H|H]; [discriminate H|]);
                        exact H|]);
  constructor.
Qed.

(** X18.  What the edit handler sends to [update_monitor] is never empty
    and never holds a null: the identifier is not null, the fields are some
    of name, message, tags and priority, each once and each with the value
    the request gives it, and an integer priority among them lies between
    1 and 5. *)
Theorem update_call_is_well_formed
  (c : client) (request : CallToolRequest) (monitor_id : value)
  (kwargs : dict) :
  In (UpdateMonitor monitor_id kwargs)
     (snd (run (MonitorEdit.handle_call c request))) ->
  monitor_id <> VNone
  /\ argument request "monitor_id" = Some monitor_id
  /\ kwargs <> []
  /\ NoDup (map fst kwargs)
  /\ (forall key v,
        In (key, v) kwargs ->
        In key ["name"; "message"; "tags"; "priority"]
        /\ v <> VNone
        /\ argument request key = Some v)
  /\ (forall z, In ("priority", VInt z) kwargs -> 1 <= z <= 5).
Proof.
  intros Hin.
  assert (Hsup : forall key v, supplied request key = Some v ->
                   v <> VNone /\ argument request key = Some v).
  { intros key v. unfold supplied.
    destruct (argument request key) as [[]|]; intros H; inversion H; subst;
      split; (discriminate || reflexivity). }
  rewrite edit_trace in Hin.
  destruct (supplied request "monitor_id") as [id|] eqn:Hid; [|destruct Hin].
  destruct (MonitorEdit.priority_rejected _) as [e|[|]] eqn:Hp.
  - apply in_logged_not_call in Hin. discriminate.
  - destruct Hin.
  - destruct (patch request) as [|kv kvs] eqn:Epatch; [destruct Hin|].
    destruct Hin as [Hin|Hin].
    + inversion Hin; subst; clear Hin. rewrite <- Epatch.
      destruct (Hsup _ _ Hid) as [Hnn Harg].
      split; [exact Hnn|]. split; [exact Harg|].
      split; [rewrite Epatch; discriminate|].
      split; [apply patch_keys_distinct|]. split.
      * intros key v Hkv. destruct (patch_in _ _ _ Hkv) as [Hk Hs].
        destruct (Hsup _ _ Hs) as [Hv Ha]. now repeat split.
      * intros z Hz. destruct (patch_in _ _ _ Hz) as [_ Hs].
        rewrite Hs in Hp.
        unfold MonitorEdit.priority_rejected in Hp.
        cbn [is_none negb lt_int gt_int] in Hp.
        destruct (Z.ltb_spec z 1); [discriminate|].
        rewrite Z.gtb_ltb in Hp.
        destruct (Z.ltb_spec 5 z); [discriminate|]. lia.
    + exfalso.
      destruct (update_monitor_reply c id (kv :: kvs));
        [apply in_logged_not_call in Hin; discriminate|destruct Hin].
Qed.

Lemma update_call_is_well_formed_witness :
  let c := Samples.answering (inr VNone) in
  let request := Samples.request_of [("monitor_id", VInt 12345);
                                     ("message", VNone);
                                     ("priority", VInt 4)] in
  VInt 12345 <> VNone
  /\ argument request "monitor_id" = Some (VInt 12345)
  /\ [("priority", VInt 4)] <> []
  /\ NoDup (map fst [("priority", VInt 4)])
  /\ (forall key v,
        In (key, v) [("priority", VInt 4)] ->
        In key ["name"; "message"; "tags"; "priority"]
        /\ v <> VNone
        /\ argument request key = Some v)
  /\ (forall z, In ("priority", VInt z) [("priority", VInt 4)] -> 1 <= z <= 5).
Proof.
  intros c request.
  apply (update_call_is_well_formed c request (VInt 12345)
           [("priority", VInt 4)]).
  left; reflexivity.
Defined.

(** X19.  The edit handler reports a success only for an update that was
    made: when the error flag of its result is false, [update_monitor] was
    called once and returned, nothing was logged, and the text names the
    identifier that was sent. *)
Theorem edit_success_means_updated
  (c : client) (request : CallToolRequest) (result : CallToolResult) :
  fst (run (MonitorEdit.handle_call c request)) = inr result ->
  isError result = false ->
  exists monitor_id reply,
    snd (run (MonitorEdit.handle_call c request))
    = [UpdateMonitor monitor_id (patch request)]
    /\ update_monitor_reply c monitor_id (patch request) = inr reply
    /\ result_text result
       = "Monitor " ++ str monitor_id ++ " updated successfully".
Proof.
  rewrite edit_run.
  destruct (supplied request "monitor_id") as [id|];
    [|intros H; inversion H; subst; discriminate].
  destruct (MonitorEdit.priority_rejected _) as [e|[|]].
  - rewrite (proj2 (on_exception_logs e _)).
    destruct (is_exception e); intros H; inversion H; subst; discriminate.
  - intros H; inversion H; subst; discriminate.
  - destruct (patch request) as [|kv kvs];
      [intros H; inversion H; subst; discriminate|].
    destruct (update_monitor_reply c id (kv :: kvs)) as [e|reply] eqn:Er.
    + rewrite (proj2 (on_exception_logs e _)).
      destruct (is_exception e); intros H; inversion H; subst; discriminate.
    + intros H _. inversion H; subst. exists id, reply.
      split; [reflexivity|]. split; [exact Er|reflexivity].
Qed.

Lemma edit_success_means_updated_witness :
  let c := Samples.answering (inr VNone) in
  let request := Samples.request_of [("monitor_id", VStr "12345");
                                     ("tags", VList [])] in
  exists monitor_id reply,
    snd (run (MonitorEdit.handle_call c request))
    = [UpdateMonitor monitor_id (patch request)]
    /\ update_monitor_reply c monitor_id (patch request) = inr reply
    /\ result_text (text_result "Monitor 12345 updated successfully" false)
       = "Monitor " ++ str monitor_id ++ " updated successfully".
Proof.
  intros c request.
  exact (edit_success_means_updated c request
           (text_result "Monitor 12345 updated successfully" false)
           eq_refl eq_refl).
Defined.

(** X20.  The fetch handler reports a success only for a record that was
    fetched: when the error flag of its result is false, [fetch_monitor]
    was called once, with the identifier of the request, and returned, and
    nothing was logged. *)
Theorem fetch_success_means_fetched
  (c : client) (request : CallToolRequest) (result : CallToolResult) :
  fst (run (GetMonitor.handle_call c request)) = inr result ->
  isError result = false ->
  exists monitor_id monitor,
    argument request "monitor_id" = Some monitor_id
    /\ snd (run (GetMonitor.handle_call c request))
       = [FetchMonitor monitor_id]
    /\ fetch_monitor_reply c monitor_id = inr monitor.
Proof.
  rewrite get_run.
  destruct (supplied request "monitor_id") as [id|] eqn:Hid;
    [|intros H; inversion H; subst; discriminate].
  assert (Harg : argument request "monitor_id" = Some id).
  { unfold supplied in Hid.
    destruct (argument request "monitor_id") as [[]|]; congruence. }
  destruct (fetch_monitor_reply c id) as [e|monitor] eqn:Er.
  - rewrite (proj1 (on_exception_logs e _)).
    destruct (is_exception e); intros H; inversion H; subst; discriminate.
  - destruct (eq_str _ "json");
      [intros _ _; now exists id, monitor|].
    pose proof (table_content_silent id monitor [FetchMonitor id]) as Hs.
    destruct (GetMonitor.table_content id monitor [FetchMonitor id])
      as [[e|s] t]; cbn [snd] in Hs; subst t.
    + rewrite (proj1 (on_exception_logs e _)).
      destruct (is_exception e); intros H; inversion H; subst; discriminate.
    + intros _ _. now exists id, monitor.
Qed.

Lemma fetch_success_means_fetched_witness :
  let c := Samples.answering (inr (VDict Samples.cpu_monitor)) in
  let request := Samples.request_of [("monitor_id", VInt 0);
                                     ("format", VStr "json")] in
  exists monitor_id monitor,
    argument request "monitor_id" = Some monitor_id
    /\ snd (run (GetMonitor.handle_call c request))
       = [FetchMonitor monitor_id]
    /\ fetch_monitor_reply c monitor_id = inr monitor.
Proof.
  intros c request.
  exact (fetch_success_means_fetched c request
           (text_result (Json.dumps (VDict Samples.cpu_monitor)) false)
           eq_refl eq_refl).
Defined.
